(** * learn-daily-word: the word-resolution pipeline

    A shallow embedding of the TypeScript sources

    - [lib/supabase.ts]     ([WordsDatabase], [FallbackWordsSystem]),
    - [lib/huggingface.ts]  ([HuggingFaceWordGenerator], [SmartWordBank]),
    - [api/words/[date]/route.ts] (both versions of the [GET] handler),
    - [api/words/history/route.ts] and [api/words/search/route.ts],

    followed by the properties of the pipeline that the design document
    states.

    Modelling conventions.

    - A JavaScript value is a [val]; numbers are the integers ([Z]) and the
      result of a numeric operation is a [number], where [None] is [NaN].
    - A JavaScript string is a [string]; one [ascii] of the model is one
      unit of the text, so [String.length] is [.length] on ASCII text.  The
      white space of [trim], [\s] and [parseInt] is the ASCII white space and
      [toLowerCase] maps the ASCII capitals.
    - An [async] function is a computation [M A]: it threads the [World]
      (the rows of the [daily_words] table and the log of the outbound calls
      made so far) and either returns or throws.
    - Whatever the process does not decide itself (environment variables,
      [JSON.parse], the replies of the store, of the random-word service and
      of the inference provider) is read from an [Env]. *)

From Stdlib Require Import ZArith Ascii String.
From stdpp Require Import gmap strings list pretty.

Set Warnings "-register-all".

Open Scope string_scope.
Open Scope Z_scope.

(** ** JavaScript values *)

Inductive val : Type :=
| VUndefined
| VNull
| VBool (b : bool)
| VNum (n : Z)
| VStr (s : string)
| VArr (items : list val)
| VObj (fields : list (string * val)).

(** [NaN] is [None]. *)
Definition number : Type := option Z.

(** [ToBoolean]. *)
Definition truthy (v : val) : bool :=
  match v with
  | VUndefined | VNull => false
  | VBool b => b
  | VNum n => negb (n =? 0)
  | VStr s => negb (String.eqb s "")
  | VArr _ | VObj _ => true
  end.

(** [a || b] on values. *)
Definition js_or (a b : val) : val := if truthy a then a else b.

Definition isArray (v : val) : bool :=
  match v with VArr _ => true | _ => false end.

Definition is_string (v : val) : bool :=
  match v with VStr _ => true | _ => false end.

(** ** Strings *)

Module Str.

Definition is_space (c : ascii) : bool :=
  let n := N_of_ascii c in
  ((9 <=? n) && (n <=? 13) || (n =? 32))%N.

Definition is_digit (c : ascii) : bool :=
  let n := N_of_ascii c in ((48 <=? n) && (n <=? 57))%N.

Definition digit_value (c : ascii) : Z := Z.of_N (N_of_ascii c) - 48.

(** The value of a hexadecimal digit, if [c] is one. *)
Definition hex_value (c : ascii) : option Z :=
  let n := Z.of_N (N_of_ascii c) in
  if (48 <=? n) && (n <=? 57) then Some (n - 48)
  else if (97 <=? n) && (n <=? 102) then Some (n - 87)
  else if (65 <=? n) && (n <=? 70) then Some (n - 55)
  else None.

Fixpoint trimStart (s : string) : string :=
  match s with
  | String c r => if is_space c then trimStart r else s
  | EmptyString => EmptyString
  end.

Fixpoint trimEnd (s : string) : string :=
  match s with
  | String c r =>
      let r' := trimEnd r in
      if is_space c && String.eqb r' "" then "" else String c r'
  | EmptyString => EmptyString
  end.

Definition trim (s : string) : string := trimEnd (trimStart s).

Definition lower (c : ascii) : ascii :=
  let n := N_of_ascii c in
  if ((65 <=? n) && (n <=? 90))%N then ascii_of_N (n + 32) else c.

Fixpoint toLowerCase (s : string) : string :=
  match s with
  | String c r => String (lower c) (toLowerCase r)
  | EmptyString => EmptyString
  end.

(** [s.includes(q)]. *)
Fixpoint includes (q s : string) : bool :=
  String.prefix q s ||
  match s with
  | String _ r => includes q r
  | EmptyString => false
  end.

(** [s.indexOf(c)] for a one-character [c]; [None] is [-1]. *)
Fixpoint indexOf (c : ascii) (s : string) : option nat :=
  match s with
  | String d r => if Ascii.eqb c d then Some O else S <$> indexOf c r
  | EmptyString => None
  end.

(** [s.lastIndexOf(c)] for a one-character [c]; [None] is [-1]. *)
Fixpoint lastIndexOf (c : ascii) (s : string) : option nat :=
  match s with
  | String d r =>
      match lastIndexOf c r with
      | Some i => Some (S i)
      | None => if Ascii.eqb c d then Some O else None
      end
  | EmptyString => None
  end.

(** [s.substring(i, j)] for [i <= j]. *)
Definition substring (i j : nat) (s : string) : string :=
  String.substring i (j - i) s.

(** [s.split(sep)] for a one-character separator. *)
Fixpoint split (sep : ascii) (s : string) : list string :=
  match s with
  | String c r =>
      if Ascii.eqb c sep then "" :: split sep r
      else match split sep r with
           | p :: ps => String c p :: ps
           | [] => [String c ""]
           end
  | EmptyString => [""]
  end.

(** The scanner of [s.replace(/pat\s*/g, "")], for a literal [pat] that
    holds no white space.  [Copy]: outside a match.  [Drop n]: inside the
    literal part of a match, [n] more characters of it to drop.  [Spaces]:
    after the literal part, dropping the white space that follows. *)
Inductive scan := Copy | Drop (n : nat) | Spaces.

Fixpoint remove (pat : string) (st : scan) (s : string) : string :=
  match s with
  | String c r =>
      match st with
      | Drop (S n) => remove pat (Drop n) r
      | Drop O => remove pat Spaces r
      | _ =>
          if (match st with Spaces => is_space c | _ => false end)
          then remove pat Spaces r
          else if String.prefix pat s
          then remove pat (match String.length pat with
                           | S (S n) => Drop n
                           | _ => Spaces
                           end) r
          else String c (remove pat Copy r)
      end
  | EmptyString => EmptyString
  end.

(** [s.replace(/pat\s*/g, "")]. *)
Definition removeAll (pat s : string) : string := remove pat Copy s.

Fixpoint digits (acc : Z) (s : string) : Z :=
  match s with
  | String c r => if is_digit c then digits (10 * acc + digit_value c) r else acc
  | EmptyString => acc
  end.

Fixpoint hex_digits (acc : Z) (s : string) : Z :=
  match s with
  | String c r =>
      match hex_value c with
      | Some d => hex_digits (16 * acc + d) r
      | None => acc
      end
  | EmptyString => acc
  end.

(** The digits of [parseInt], after the white space and the sign. *)
Definition parseInt_unsigned (s : string) : number :=
  match s with
  | String "0" (String x r) =>
      if Ascii.eqb x "x" || Ascii.eqb x "X"
      then match r with
           | String h _ =>
               match hex_value h with
               | Some _ => Some (hex_digits 0 r)
               | None => None
               end
           | EmptyString => None
           end
      else Some (digits 0 s)
  | String c _ => if is_digit c then Some (digits 0 s) else None
  | EmptyString => None
  end.

(** [Number.parseInt(s)], no radix given. *)
Definition parseInt (s : string) : number :=
  match trimStart s with
  | String "-" r => Z.opp <$> parseInt_unsigned r
  | String "+" r => parseInt_unsigned r
  | t => parseInt_unsigned t
  end.

Definition join (sep : string) (l : list string) : string :=
  match l with
  | [] => ""
  | x :: xs => fold_left (fun acc y => acc +:+ sep +:+ y) xs x
  end.

End Str.

(** ** Conversions and property access *)

(** [ToString]. *)
Fixpoint ToString (v : val) : string :=
  match v with
  | VUndefined => "undefined"
  | VNull => "null"
  | VBool true => "true"
  | VBool false => "false"
  | VNum n => pretty n
  | VStr s => s
  | VArr l =>
      Str.join ","
        (map (fun x => match x with
                       | VUndefined | VNull => ""
                       | _ => ToString x
                       end) l)
  | VObj _ => "[object Object]"
  end.

(** [ToNumber] of a string: the decimal integers, white space allowed
    around them; the empty string is [0]. *)
Definition StringToNumber (s : string) : number :=
  match Str.trim s with
  | EmptyString => Some 0
  | String "-" r =>
      if forallb Str.is_digit (list_ascii_of_string r) && negb (String.eqb r "")
      then Some (- Str.digits 0 r) else None
  | String "+" r =>
      if forallb Str.is_digit (list_ascii_of_string r) && negb (String.eqb r "")
      then Some (Str.digits 0 r) else None
  | t =>
      if forallb Str.is_digit (list_ascii_of_string t)
      then Some (Str.digits 0 t) else None
  end.

(** [ToNumber]. *)
Definition ToNumber (v : val) : number :=
  match v with
  | VUndefined => None
  | VNull => Some 0
  | VBool b => Some (if b then 1 else 0)
  | VNum n => Some n
  | VStr s => StringToNumber s
  | VArr _ | VObj _ => StringToNumber (ToString v)
  end.

(** [v > n] for a number literal [n]. *)
Definition js_gt (v : val) (n : Z) : bool :=
  match ToNumber v with
  | Some k => n <? k
  | None => false
  end.

Fixpoint assoc (k : string) (fields : list (string * val)) : val :=
  match fields with
  | (k', v) :: rest => if String.eqb k k' then v else assoc k rest
  | [] => VUndefined
  end.

(** [v.length]; reading a property of [undefined] or [null] throws, which
    is [None]. *)
Definition length_of (v : val) : option val :=
  match v with
  | VUndefined | VNull => None
  | VStr s => Some (VNum (Z.of_nat (String.length s)))
  | VArr l => Some (VNum (Z.of_nat (length l)))
  | VObj fields => Some (assoc "length" fields)
  | VBool _ | VNum _ => Some VUndefined
  end.

(** [v.k] for a key [k] other than [length] and the indices; [None]: throws. *)
Definition prop (k : string) (v : val) : option val :=
  match v with
  | VUndefined | VNull => None
  | VObj fields => Some (assoc k fields)
  | _ => Some VUndefined
  end.

(** [v[0]]; [None]: throws. *)
Definition first (v : val) : option val :=
  match v with
  | VUndefined | VNull => None
  | VArr l => Some (default VUndefined (head l))
  | VStr (String c _) => Some (VStr (String c ""))
  | VObj fields => Some (assoc "0" fields)
  | _ => Some VUndefined
  end.

(** ** Records *)

(** [interface WordData]; a member that is absent is [VUndefined]. *)
Record WordData : Type := {
  id : val;
  date : string;
  word : val;
  phonetic : val;
  definition : val;
  translation : val;
  examples : val;
  level : val;
  source : val;
  created_at : val;
  updated_at : val
}.

(** [interface GeneratedWord]. *)
Record GeneratedWord : Type := {
  g_word : val;
  g_phonetic : val;
  g_definition : val;
  g_translation : val;
  g_examples : val;
  g_level : val
}.

(** [{ ...w, source: s }]. *)
Definition with_source (w : WordData) (s : string) : WordData :=
  {| id := id w; date := date w; word := word w; phonetic := phonetic w;
     definition := definition w; translation := translation w;
     examples := examples w; level := level w; source := VStr s;
     created_at := created_at w; updated_at := updated_at w |}.

(** [{ ...w, date }]; [w] may be [undefined], and spreading [undefined]
    adds nothing. *)
Definition with_date (w : option WordData) (d : string) : WordData :=
  match w with
  | Some w =>
      {| id := id w; date := d; word := word w; phonetic := phonetic w;
         definition := definition w; translation := translation w;
         examples := examples w; level := level w; source := source w;
         created_at := created_at w; updated_at := updated_at w |}
  | None =>
      {| id := VUndefined; date := d; word := VUndefined;
         phonetic := VUndefined; definition := VUndefined;
         translation := VUndefined; examples := VUndefined;
         level := VUndefined; source := VUndefined;
         created_at := VUndefined; updated_at := VUndefined |}
  end.

(** [{ date, word: g.word, ..., level: g.level, source: s }]. *)
Definition candidate (d : string) (g : GeneratedWord) (s : string) : WordData :=
  {| id := VUndefined; date := d; word := g_word g; phonetic := g_phonetic g;
     definition := g_definition g; translation := g_translation g;
     examples := g_examples g; level := g_level g; source := VStr s;
     created_at := VUndefined; updated_at := VUndefined |}.

(** [arr[i]] for a number [i]: [undefined] out of range and at [NaN]. *)
Definition at_index {A : Type} (arr : list A) (i : number) : option A :=
  match i with
  | Some i => if i <? 0 then None else arr !! Z.to_nat i
  | None => None
  end.

(** [a % n]; the remainder takes the sign of [a], and [% 0] is [NaN]. *)
Definition js_rem (a : number) (n : Z) : number :=
  match a with
  | Some a => if n =? 0 then None else Some (Z.rem a n)
  | None => None
  end.

Definition js_add (a b : number) : number :=
  match a, b with
  | Some a, Some b => Some (a + b)
  | _, _ => None
  end.

(** [Math.min(a, b)]. *)
Definition js_min (a b : number) : number :=
  match a, b with
  | Some a, Some b => Some (Z.min a b)
  | _, _ => None
  end.

(** [arr.slice(0, e)]: a negative [e] counts from the end, [NaN] is [0]. *)
Definition slice0 {A : Type} (arr : list A) (e : number) : list A :=
  match e with
  | Some e =>
      if e <? 0 then take (Z.to_nat (Z.max (Z.of_nat (length arr) + e) 0)) arr
      else take (Z.to_nat e) arr
  | None => []
  end.

(** [date.split("-").reduce((acc, part) => acc + Number.parseInt(part), 0)]. *)
Definition dateHash (date : string) : number :=
  fold_left (fun acc part => js_add acc (Str.parseInt part))
            (Str.split "-" date) (Some 0).

(** [/^\d{4}-\d{2}-\d{2}$/.test(date)]. *)
Definition is_date_format (date : string) : bool :=
  match list_ascii_of_string date with
  | [y1; y2; y3; y4; h1; m1; m2; h2; d1; d2] =>
      forallb Str.is_digit [y1; y2; y3; y4; m1; m2; d1; d2]
      && Ascii.eqb h1 "-" && Ascii.eqb h2 "-"
  | _ => false
  end.

(** ** Computations *)

(** The outcome of a piece of code that may throw. *)
Inductive result (A : Type) : Type :=
| Returns (a : A)
| Throws.
Arguments Returns {A} a.
Arguments Throws {A}.

(** [try { body } catch { handler }] for code that touches no state. *)
Definition catch {A : Type} (body : result A) (handler : result A) : result A :=
  match body with
  | Returns a => Returns a
  | Throws => handler
  end.

Definition and_then {A B : Type} (r : result A) (k : A -> result B) : result B :=
  match r with
  | Returns a => k a
  | Throws => Throws
  end.

(** An access that throws on [undefined] and [null]. *)
Definition access {A : Type} (o : option A) : result A :=
  match o with
  | Some a => Returns a
  | None => Throws
  end.

(** One outbound call. *)
Inductive Call : Type :=
| SelectCount
| SelectByDate (d : string)
| Upsert (w : WordData)
| SelectRecent (limit : number)
| SearchRows (q : string)
| RandomWordApi
| ChatCompletion (prompt : string)
| InferenceApi.

(** The rows of [daily_words], keyed by their unique [date], and the calls
    made so far, oldest first. *)
Record World : Type := {
  table : gmap string WordData;
  calls : list Call
}.

(** How a call to the store goes wrong: the promise rejects, or it resolves
    to an [error] with a [code]. *)
Inductive Fault : Type :=
| Rejected
| Failed (code : string).

(** The reply to a [fetch]: it rejects, or there is a response with its
    [ok] flag and the value of [response.json()] ([None]: that throws). *)
Inductive FetchReply : Type :=
| FetchRejects
| FetchResponds (ok : bool) (json : option val).

Inductive ChatReply : Type :=
| ChatRejects
| ChatResolves (completion : val).

(** What the process is given.  The replies are indexed by the number of
    calls made before them. *)
Record Env : Type := {
  (** [NEXT_PUBLIC_SUPABASE_URL && NEXT_PUBLIC_SUPABASE_ANON_KEY] *)
  supabase : bool;
  (** [process.env.HUGGINGFACE_API_KEY] is set, so [hf] is a client *)
  hf : bool;
  (** [JSON.parse]; [None]: a [SyntaxError] *)
  JSON_parse : string -> option val;
  store_fault : nat -> option Fault;
  (** [gen_random_uuid()] and [NOW()] of the store *)
  store_uuid : nat -> val;
  store_now : nat -> val;
  (** [order("date", desc).limit(n)] over the rows; [None]: [data] is null *)
  store_recent : gmap string WordData -> number -> option (list WordData);
  (** the [ilike] filter, ordered and limited to 50, over the rows *)
  store_search : gmap string WordData -> string -> option (list WordData);
  random_word_api : nat -> FetchReply;
  chat_completion : nat -> string -> ChatReply;
  inference_api : nat -> FetchReply
}.

(** An [async] function body. *)
Definition M (A : Type) : Type := World -> result A * World.

Definition ret {A : Type} (a : A) : M A := fun w => (Returns a, w).

Definition throw {A : Type} : M A := fun w => (Throws, w).

Definition bind {A B : Type} (m : M A) (k : A -> M B) : M B :=
  fun w =>
    match m w with
    | (Returns a, w') => k a w'
    | (Throws, w') => (Throws, w')
    end.

(** [try { body } catch { handler }]. *)
Definition try_catch {A : Type} (body : M A) (handler : M A) : M A :=
  fun w =>
    match body w with
    | (Returns a, w') => (Returns a, w')
    | (Throws, w') => handler w'
    end.

Definition lift {A : Type} (r : result A) : M A := fun w => (r, w).

Definition rows : M (gmap string WordData) := fun w => (Returns (table w), w).

Definition write (d : string) (row : WordData) : M unit :=
  fun w => (Returns tt, {| table := <[d := row]> (table w); calls := calls w |}).

(** Record the call; the result is its index. *)
Definition call (c : Call) : M nat :=
  fun w => (Returns (length (calls w)),
            {| table := table w; calls := calls w ++ [c] |}).

Declare Scope js_scope.
Delimit Scope js_scope with js.
Notation "'let!' x ':=' m 'in' k" := (bind m (fun x => k))
  (at level 10, x pattern, m at level 100, k at level 200) : js_scope.
Notation "'try!' x ':=' r 'in' k" := (and_then r (fun x => k))
  (at level 10, x pattern, r at level 100, k at level 200) : js_scope.
Open Scope js_scope.

(** ** The store client *)

(** [{ data, error }]. *)
Record reply (A : Type) : Type := { data : option A; error : option string }.
Arguments data {A} r.
Arguments error {A} r.

Module Supabase.
Section Client.
Context (env : Env).

Definition answer {A : Type} (t : nat) (ok : M (reply A)) : M (reply A) :=
  match store_fault env t with
  | Some Rejected => throw
  | Some (Failed code) => ret {| data := None; error := Some code |}
  | None => ok
  end.

(** [from("daily_words").select("count", { count: "exact", head: true })] *)
Definition select_count : M (reply unit) :=
  let! t := call SelectCount in
  answer t (ret {| data := Some tt; error := None |}).

(** [from("daily_words").select("*").eq("date", date).single()] *)
Definition select_by_date (date : string) : M (reply WordData) :=
  let! t := call (SelectByDate date) in
  answer t (
    let! tbl := rows in
    match tbl !! date with
    | Some row => ret {| data := Some row; error := None |}
    | None => ret {| data := None; error := Some "PGRST116" |}
    end).

(** The row that an upsert leaves in the table: the columns sent, the
    identifier and creation time of the row it replaces or fresh ones, and
    [updated_at] refreshed. *)
Definition stored (t : nat) (old : option WordData) (wordData : WordData)
    : WordData :=
  {| id := match old with Some o => id o | None => store_uuid env t end;
     date := date wordData; word := word wordData;
     phonetic := phonetic wordData; definition := definition wordData;
     translation := translation wordData; examples := examples wordData;
     level := level wordData; source := source wordData;
     created_at :=
       match old with Some o => created_at o | None => store_now env t end;
     updated_at := store_now env t |}.

(** [from("daily_words").upsert(wordData, { onConflict: "date",
    ignoreDuplicates: false }).select().single()] *)
Definition upsert (wordData : WordData) : M (reply WordData) :=
  let! t := call (Upsert wordData) in
  answer t (
    let! tbl := rows in
    let row := stored t (tbl !! date wordData) wordData in
    let! _ := write (date wordData) row in
    ret {| data := Some row; error := None |}).

(** [from("daily_words").select("*").order("date", { ascending: false })
    .limit(limit)] *)
Definition select_recent (limit : number) : M (reply (list WordData)) :=
  let! t := call (SelectRecent limit) in
  answer t (
    let! tbl := rows in
    ret {| data := store_recent env tbl limit; error := None |}).

(** [from("daily_words").select("*").or(...ilike...).order(...).limit(50)] *)
Definition search (query : string) : M (reply (list WordData)) :=
  let! t := call (SearchRows query) in
  answer t (
    let! tbl := rows in
    ret {| data := store_search env tbl query; error := None |}).

End Client.
End Supabase.

(** ** [class WordsDatabase] *)

Module WordsDatabase.
Section Gateway.
Context (env : Env).

Definition checkConnection : M bool :=
  if negb (supabase env) then ret false
  else
    try_catch
      (let! r := Supabase.select_count env in
       match error r with
       | Some _ => ret false
       | None => ret true
       end)
      (ret false).

Definition getWordByDate (date : string) : M (option WordData) :=
  if negb (supabase env) then ret None
  else
    try_catch
      (let! r := Supabase.select_by_date env date in
       match error r with
       | Some code =>
           if String.eqb code "PGRST116" then ret None
           else if String.eqb code "42P01" then ret None
           else ret None
       | None => ret (data r)
       end)
      (ret None).

Definition saveWord (wordData : WordData) : M (option WordData) :=
  if negb (supabase env) then ret None
  else
    try_catch
      (let! r := Supabase.upsert env wordData in
       match error r with
       | Some _ => ret None
       | None =>
           (* console.log("Word saved successfully:", data.word) *)
           let! d := lift (access (data r)) in
           ret (Some d)
       end)
      (ret None).

Definition getRecentWords (limit : number) : M (list WordData) :=
  if negb (supabase env) then ret []
  else
    try_catch
      (let! r := Supabase.select_recent env limit in
       match error r with
       | Some code =>
           if String.eqb code "42P01" then ret [] else ret []
       | None => ret (default [] (data r))
       end)
      (ret []).

Definition searchWords (query : string) : M (list WordData) :=
  if negb (supabase env) then ret []
  else
    try_catch
      (let! r := Supabase.search env query in
       match error r with
       | Some code =>
           if String.eqb code "42P01" then ret [] else ret []
       | None => ret (default [] (data r))
       end)
      (ret []).

End Gateway.
End WordsDatabase.

(** ** [class FallbackWordsSystem] *)

(** A catalog entry, written as in the source. *)
Definition entry (date word phonetic definition translation : string)
    (examples : list string) (level source : string) : WordData :=
  {| id := VUndefined; date := date; word := VStr word;
     phonetic := VStr phonetic; definition := VStr definition;
     translation := VStr translation; examples := VArr (VStr <$> examples);
     level := VStr level; source := VStr source;
     created_at := VUndefined; updated_at := VUndefined |}.

Definition generated (word phonetic definition translation : string)
    (examples : list string) (level : string) : GeneratedWord :=
  {| g_word := VStr word; g_phonetic := VStr phonetic;
     g_definition := VStr definition; g_translation := VStr translation;
     g_examples := VArr (VStr <$> examples); g_level := VStr level |}.

(** [s.toLowerCase()] as a method call: it throws unless [s] is a string. *)
Definition toLowerCase (v : val) : result string :=
  match v with
  | VStr s => Returns (Str.toLowerCase s)
  | _ => Throws
  end.

(** [arr.filter(p)] for a predicate that may throw. *)
Fixpoint filter_with {A : Type} (p : A -> result bool) (arr : list A)
    : result (list A) :=
  match arr with
  | x :: rest =>
      try! keep := p x in
      try! rest' := filter_with p rest in
      Returns (if keep then x :: rest' else rest')
  | [] => Returns []
  end.

Module FallbackWordsSystem.

Definition fallbackWords : list WordData := [
  entry "2024-01-01" "serendipity"
    "/ˌserənˈdɪpɪti/"
    "The occurrence of events by chance in a happy or beneficial way"
    "casualidad afortunada, chiripa"
    ["Meeting you here was pure serendipity!";
     "It was serendipity that led me to find this amazing café.";
     "Sometimes the best discoveries happen through serendipity."]
    "C1" "manual";
  entry "2024-01-02" "procrastinate"
    "/prəˈkræstɪneɪt/"
    "To delay or postpone action; to put off doing something"
    "procrastinar, postergar"
    ["I tend to procrastinate when I have difficult tasks.";
     "Don't procrastinate on your homework anymore!";
     "She always procrastinates until the last minute."]
    "B2" "manual";
  entry "2024-01-03" "eloquent"
    "/ˈeləkwənt/"
    "Fluent and persuasive in speaking or writing"
    "elocuente, persuasivo"
    ["Her eloquent speech moved the entire audience.";
     "He's quite eloquent when discussing his passions.";
     "The lawyer made an eloquent argument in court."]
    "C1" "manual";
  entry "2024-01-04" "resilient"
    "/rɪˈzɪliənt/"
    "Able to recover quickly from difficult conditions"
    "resistente, resiliente"
    ["Children are remarkably resilient creatures.";
     "The city proved resilient after the natural disaster.";
     "You need to be resilient to succeed in business."]
    "B2" "manual";
  entry "2024-01-05" "ubiquitous"
    "/juːˈbɪkwɪtəs/"
    "Present, appearing, or found everywhere"
    "omnipresente, ubicuo"
    ["Smartphones have become ubiquitous in modern society.";
     "Coffee shops are ubiquitous in this neighborhood.";
     "Social media is ubiquitous among young people."]
    "C1" "manual";
  entry "2024-01-06" "ambiguous"
    "/æmˈbɪɡjuəs/"
    "Open to more than one interpretation; not having one obvious meaning"
    "ambiguo, poco claro"
    ["His response was deliberately ambiguous.";
     "The contract terms are too ambiguous.";
     "She gave an ambiguous answer to avoid conflict."]
    "B2" "manual";
  entry "2024-01-07" "ephemeral"
    "/ɪˈfemərəl/"
    "Lasting for a very short time"
    "efímero, pasajero"
    ["The beauty of cherry blossoms is ephemeral.";
     "Fame can be quite ephemeral in today's world.";
     "Their happiness felt ephemeral but intense."]
    "C1" "manual";
  entry "2024-01-08" "meticulous"
    "/mɪˈtɪkjələs/"
    "Showing great attention to detail; very careful and precise"
    "meticuloso, minucioso"
    ["She's meticulous about keeping her workspace organized.";
     "The detective conducted a meticulous investigation.";
     "His meticulous planning ensured the project's success."]
    "B2" "manual";
  entry "2024-01-09" "pragmatic"
    "/præɡˈmætɪk/"
    "Dealing with things sensibly and realistically"
    "pragmático, práctico"
    ["We need a pragmatic approach to solve this problem.";
     "She's very pragmatic when making business decisions.";
     "His pragmatic advice helped us avoid costly mistakes."]
    "C1" "manual";
  entry "2024-01-10" "versatile"
    "/ˈvɜːrsətaɪl/"
    "Able to adapt or be adapted to many different functions or activities"
    "versátil, polivalente"
    ["This versatile tool can be used for many tasks.";
     "She's a versatile actress who can play any role.";
     "The versatile ingredient works in both sweet and savory dishes."]
    "B2" "manual";
  entry "2024-01-11" "innovative"
    "/ˈɪnəveɪtɪv/"
    "Featuring new methods; advanced and original"
    "innovador, novedoso"
    ["The company is known for its innovative approach to technology.";
     "She came up with an innovative solution to the problem.";
     "This innovative design has revolutionized the industry."]
    "B2" "manual";
  entry "2024-01-12" "sophisticated"
    "/səˈfɪstɪkeɪtɪd/"
    "Having great knowledge or experience; complex and refined"
    "sofisticado, refinado"
    ["The restaurant offers sophisticated cuisine from around the world.";
     "She has a sophisticated understanding of international politics.";
     "The software uses sophisticated algorithms to analyze data."]
    "C1" "manual"
].

Section Catalog.
(** [this.fallbackWords] *)
Context (fallbackWords : list WordData).

Definition getWordByDate (date : string) : WordData :=
  let dateHash := dateHash date in
  let selectedWord :=
    at_index fallbackWords (js_rem dateHash (Z.of_nat (length fallbackWords))) in
  with_date selectedWord date.

Definition getRecentWords (days : number) : list WordData :=
  slice0 fallbackWords (js_min days (Some (Z.of_nat (length fallbackWords)))).

Definition searchWords (query : string) : result (list WordData) :=
  let lowerQuery := Str.toLowerCase query in
  filter_with
    (fun w =>
       try! lowerWord := toLowerCase (word w) in
       if Str.includes lowerQuery lowerWord then Returns true
       else
         try! lowerDefinition := toLowerCase (definition w) in
         if Str.includes lowerQuery lowerDefinition then Returns true
         else
           try! lowerTranslation := toLowerCase (translation w) in
           Returns (Str.includes lowerQuery lowerTranslation))
    fallbackWords.

End Catalog.
End FallbackWordsSystem.

(** ** [class SmartWordBank] *)

Module SmartWordBank.

Definition words : list GeneratedWord := [
  generated "articulate"
    "/톔틣r틛t톩kj톛l톛t/"
    "Having or showing the ability to speak fluently and coherently"
    "articulado, elocuente"
    ["She's very articulate when explaining complex topics.";
     "The speaker gave an articulate presentation on climate change.";
     "He struggled to articulate his feelings about the situation."]
    "C1";
  generated "comprehensive"
    "/틟k톔틣mpr톩틛hens톩v/"
    "Complete and including everything that is necessary"
    "completo, exhaustivo"
    ["The report provides a comprehensive analysis of the market.";
     "She has comprehensive knowledge of European history.";
     "The insurance policy offers comprehensive coverage."]
    "B2";
  generated "substantial"
    "/s톛b틛st칝n툮톛l/"
    "Of considerable importance, size, or worth"
    "sustancial, considerable"
    ["There has been substantial progress in medical research.";
     "The company made substantial investments in new technology.";
     "She received a substantial salary increase this year."]
    "B2";
  generated "inevitable"
    "/톩n틛ev톩t톛b톛l/"
    "Certain to happen; unavoidable"
    "inevitable, ineludible"
    ["Change is inevitable in any growing organization.";
     "It was inevitable that they would eventually meet.";
     "The economic downturn seemed inevitable after the crisis."]
    "C1";
  generated "contemporary"
    "/k톛n틛temp톛reri/"
    "Belonging to or occurring in the present time"
    "contempor치neo, actual"
    ["Contemporary art often challenges traditional concepts.";
     "She studies contemporary literature at university.";
     "The building combines classical and contemporary styles."]
    "C1";
  generated "fundamental"
    "/틟f툷nd톛틛ment톛l/"
    "Forming a necessary base or core; of central importance"
    "fundamental, b치sico"
    ["Reading is fundamental to academic success.";
     "There are fundamental differences between the approaches.";
     "Understanding grammar is fundamental to learning languages."]
    "B2";
  generated "significant"
    "/s톩토틛n톩f톩k톛nt/"
    "Sufficiently great or important to be worthy of attention"
    "significativo, importante"
    ["There was a significant improvement in her performance.";
     "The discovery has significant implications for medicine.";
     "He made significant contributions to physics."]
    "B2";
  generated "elaborate"
    "/톩틛l칝b톛r톛t/"
    "Involving many carefully arranged parts or details"
    "elaborado, detallado"
    ["She prepared an elaborate dinner for the guests.";
     "The plan was too elaborate to implement easily.";
     "Could you elaborate on your previous statement?"]
    "C1";
  generated "authentic"
    "/톖틣틛풪ent톩k/"
    "Of undisputed origin; genuine"
    "aut칠ntico, genuino"
    ["The restaurant serves authentic Italian cuisine.";
     "She has an authentic passion for helping others.";
     "The painting was confirmed to be authentic."]
    "B2";
  generated "prominent"
    "/틛pr톔틣m톩n톛nt/"
    "Important; famous; standing out so as to be seen easily"
    "prominente, destacado"
    ["She's a prominent figure in the tech industry.";
     "The building has a prominent position downtown.";
     "Environmental issues played a prominent role."]
    "C1";
  generated "coherent"
    "/ko툵틛h톩r톛nt/"
    "Logical and consistent; easy to understand"
    "coherente, l칩gico"
    ["She presented a coherent argument for the proposal.";
     "The book lacks a coherent structure.";
     "His explanation was clear and coherent."]
    "C1";
  generated "persistent"
    "/p톛r틛s톩st톛nt/"
    "Continuing firmly despite difficulty or opposition"
    "persistente, constante"
    ["She was persistent in her efforts to learn.";
     "The persistent rain caused flooding.";
     "His persistent questions got him answers."]
    "B2";
  generated "versatile"
    "/틛v톞틣rs톛ta톩l/"
    "Able to adapt to many different functions or activities"
    "vers치til, polivalente"
    ["This versatile tool can be used for many tasks.";
     "She's a versatile actress who can play any role.";
     "The ingredient works in sweet and savory dishes."]
    "B2";
  generated "innovative"
    "/틛톩n톛ve톩t톩v/"
    "Featuring new methods; advanced and original"
    "innovador, novedoso"
    ["The company has an innovative approach to technology.";
     "She came up with an innovative solution.";
     "This innovative design revolutionized the industry."]
    "B2";
  generated "sophisticated"
    "/s톛틛f톩st톩ke톩t톩d/"
    "Having great knowledge or experience; complex and refined"
    "sofisticado, refinado"
    ["The restaurant offers sophisticated cuisine.";
     "She has sophisticated understanding of politics.";
     "The software uses sophisticated algorithms."]
    "C1";
  generated "compelling"
    "/k톛m틛pel톩콂/"
    "Evoking interest, attention, or admiration powerfully"
    "convincente, atractivo"
    ["She made a compelling argument for change.";
     "The documentary presents compelling evidence.";
     "His story was compelling and moving."]
    "C1";
  generated "distinctive"
    "/d톩틛st톩콂kt톩v/"
    "Characteristic of one person or thing; distinguishing"
    "distintivo, caracter칤stico"
    ["The building has a distinctive architectural style.";
     "She has a distinctive way of speaking.";
     "The wine has a distinctive flavor."]
    "B2";
  generated "exceptional"
    "/톩k틛sep툮톛n톛l/"
    "Unusually good; outstanding"
    "excepcional, extraordinario"
    ["She showed exceptional talent in mathematics.";
     "The service at the restaurant was exceptional.";
     "These are exceptional circumstances."]
    "B2";
  generated "magnificent"
    "/m칝토틛n톩f톩s톛nt/"
    "Extremely beautiful, elaborate, or impressive"
    "magn칤fico, espl칠ndido"
    ["The cathedral has a magnificent interior.";
     "She gave a magnificent performance.";
     "The view from the mountain was magnificent."]
    "B2";
  generated "tremendous"
    "/tr톩틛mend톛s/"
    "Very great in amount, scale, or intensity"
    "tremendo, enorme"
    ["The project required tremendous effort.";
     "She has tremendous respect for her mentor.";
     "There was tremendous excitement in the crowd."]
    "B2";
  generated "extraordinary"
    "/톩k틛str톖틣rd톛neri/"
    "Very unusual or remarkable"
    "extraordinario, excepcional"
    ["She has extraordinary musical talent.";
     "The rescue was an extraordinary feat.";
     "These are extraordinary times."]
    "C1";
  generated "remarkable"
    "/r톩틛m톔틣rk톛b톛l/"
    "Worthy of attention; striking"
    "notable, extraordinario"
    ["She made remarkable progress in just one year.";
     "The recovery was remarkable.";
     "He has a remarkable memory for details."]
    "B2";
  generated "outstanding"
    "/a툵t틛st칝nd톩콂/"
    "Exceptionally good; clearly noticeable"
    "destacado, sobresaliente"
    ["She received an award for outstanding service.";
     "The team's performance was outstanding.";
     "There are still outstanding issues to resolve."]
    "B2";
  generated "phenomenal"
    "/f톛틛n톔틣m톛n톛l/"
    "Very remarkable; extraordinary"
    "fenomenal, extraordinario"
    ["The athlete's speed is phenomenal.";
     "The company achieved phenomenal growth.";
     "She has a phenomenal ability to learn languages."]
    "C1";
  generated "spectacular"
    "/spek틛t칝kj톛l톛r/"
    "Beautiful in a dramatic and eye-catching way"
    "espectacular, impresionante"
    ["The sunset was absolutely spectacular.";
     "The fireworks display was spectacular.";
     "She made a spectacular comeback."]
    "B2";
  generated "incredible"
    "/톩n틛kred톛b톛l/"
    "Impossible to believe; extraordinary"
    "incre칤ble, extraordinario"
    ["The view from the top was incredible.";
     "She has incredible patience with children.";
     "The team's comeback was incredible."]
    "B2";
  generated "astonishing"
    "/톛틛st톔틣n톩툮톩콂/"
    "Extremely surprising or impressive"
    "asombroso, sorprendente"
    ["The magician's tricks were astonishing.";
     "She made astonishing progress in her recovery.";
     "The results were absolutely astonishing."]
    "C1";
  generated "breathtaking"
    "/틛bre풪te톩k톩콂/"
    "Astonishing or awe-inspiring in quality"
    "impresionante, que quita el aliento"
    ["The mountain scenery was breathtaking.";
     "She gave a breathtaking performance.";
     "The architecture is absolutely breathtaking."]
    "C1"
].

Section Bank.
(** [this.words] *)
Context (words : list GeneratedWord).

Definition getWordForDate (date : string) : result GeneratedWord :=
  let dateHash := dateHash date in
  let selectedWord :=
    at_index words (js_rem dateHash (Z.of_nat (length words))) in
  (* console.log(`... ${selectedWord.word} (${selectedWord.level})`) *)
  try! selected := access selectedWord in
  Returns selected.

Definition getAllWords : list GeneratedWord := words.

Definition getWordCount : Z := Z.of_nat (length words).

End Bank.
End SmartWordBank.

(** ** [class HuggingFaceWordGenerator] *)

(** The double quote and the line feed. *)
Definition dq : string := String "034"%char "".
Definition nl : string := String "010"%char "".

(** [a && b], where evaluating [b] may throw. *)
Definition js_and (a : val) (b : result val) : result val :=
  if truthy a then b else Returns a.

Module HuggingFaceWordGenerator.

(** The template literal [aiPrompt], line by line. *)
Definition aiPrompt (randomWord : string) : string :=
Str.join nl [
    "You are an English vocabulary teacher. I will give you an English word, and you need to provide detailed information about it in JSON format.";
    "";
    "Word: " +:+ dq +:+ randomWord +:+ dq;
    "";
    "Please respond with ONLY a valid JSON object in this exact format (no additional text, no markdown, no code blocks):";
    "";
    "{";
    "  " +:+ dq +:+ "word" +:+ dq +:+ ": " +:+ dq +:+ randomWord +:+ dq +:+
      ",";
    "  " +:+ dq +:+ "phonetic" +:+ dq +:+ ": " +:+ dq +:+
      "[IPA phonetic transcription with forward slashes]" +:+ dq +:+ ",";
    "  " +:+ dq +:+ "definition" +:+ dq +:+ ": " +:+ dq +:+
      "[clear, concise definition in English]" +:+ dq +:+ ",";
    "  " +:+ dq +:+ "translation" +:+ dq +:+ ": " +:+ dq +:+
      "[Spanish translation]" +:+ dq +:+ ",";
    "  " +:+ dq +:+ "examples" +:+ dq +:+ ": [";
    "    " +:+ dq +:+ "[example sentence using the word]" +:+ dq +:+ ",";
    "    " +:+ dq +:+ "[another example sentence using the word]" +:+ dq +:+
      ",";
    "    " +:+ dq +:+ "[third example sentence using the word]" +:+ dq;
    "  ],";
    "  " +:+ dq +:+ "level" +:+ dq +:+ ": " +:+ dq +:+
      "[B2 or C1 based on word difficulty]" +:+ dq;
    "}";
    "";
    "Requirements:";
    "- Use proper IPA phonetic notation with forward slashes";
    "- Provide a clear, educational definition";
    "- Give accurate Spanish translation";
    "- Create 3 realistic example sentences";
    "- Assign appropriate level (B2 for intermediate-advanced, C1 for advanced)";
    "- Respond with ONLY the JSON object, no other text";
    "";
    "Generate the information for the word " +:+ dq +:+ randomWord +:+ dq +:+
      ":"
  ].

Section Generator.
Context (env : Env).

Definition getRandomWord : M (option string) :=
  try_catch
    (let! t := call RandomWordApi in
     match random_word_api env t with
     | FetchRejects => throw
     | FetchResponds ok json =>
         if negb ok then ret None
         else
           let! data := lift (access json) in
           match data with
           | VArr (VStr s :: _) =>
               (* Array.isArray(data) && data.length > 0
                  && typeof data[0] === "string" *)
               let randomWord := Str.toLowerCase s in
               ret (Some randomWord)
           | _ => ret None
           end
     end)
    (ret None).

(** The text handed to [JSON.parse]: the three assignments to [cleanText]. *)
Definition cleanText (text : string) : string :=
  let cleanText := Str.trim text in
  let cleanText := Str.removeAll "```" (Str.removeAll "```json" cleanText) in
  let jsonStart := Str.indexOf "{" cleanText in
  let jsonEnd := Str.lastIndexOf "}" cleanText in
  match jsonStart, jsonEnd with
  | Some jsonStart, Some jsonEnd =>
      if (jsonStart <? jsonEnd)%nat
      then Str.substring jsonStart (jsonEnd + 1) cleanText
      else cleanText
  | _, _ => cleanText
  end.

(** The validation of [parsed] and the record built from it. *)
Definition validated (parsed : val) : result (option GeneratedWord) :=
  try! p_word := access (prop "word" parsed) in
  try! p_definition := access (prop "definition" parsed) in
  try! p_translation := access (prop "translation" parsed) in
  try! p_examples := access (prop "examples" parsed) in
  if truthy p_word && truthy p_definition && truthy p_translation
     && truthy p_examples && isArray p_examples
  then
    match p_examples with
    | VArr items =>
        if (2 <=? length items)%nat then
          try! p_phonetic := access (prop "phonetic" parsed) in
          try! p_level := access (prop "level" parsed) in
          Returns (Some
            {| g_word := p_word;
               g_phonetic :=
                 js_or p_phonetic (VStr ("/" +:+ ToString p_word +:+ "/"));
               g_definition := p_definition;
               g_translation := p_translation;
               g_examples := VArr (take 3 items);
               g_level := js_or p_level (VStr "B2") |})
        else Returns None
    | _ => Returns None
    end
  else Returns None.

Definition parseJSONResponse (text : val) : option GeneratedWord :=
  let body : result (option GeneratedWord) :=
    try! text :=
      (* text.trim() *)
      match text with VStr s => Returns s | _ => Throws end in
    let cleanText := cleanText text in
    try! parsed := access (JSON_parse env cleanText) in
    validated parsed in
  match catch body (Returns None) with
  | Returns r => r
  | Throws => None
  end.

(** [chatCompletion && chatCompletion.choices && chatCompletion.choices[0]
    && chatCompletion.choices[0].message] *)
Definition message_of (chatCompletion : val) : result val :=
  js_and chatCompletion (
    try! choices := access (prop "choices" chatCompletion) in
    js_and choices (
      try! choice := access (first choices) in
      js_and choice (access (prop "message" choice)))).

Definition generateWord (date : string) : M (option GeneratedWord) :=
  if negb (hf env) then ret None
  else
    let! randomWord := getRandomWord in
    match randomWord with
    | None => ret None
    | Some randomWord =>
        if String.eqb randomWord "" then ret None
        else
          let aiPrompt := aiPrompt randomWord in
          try_catch
            (let! t := call (ChatCompletion aiPrompt) in
             match chat_completion env t aiPrompt with
             | ChatRejects => throw
             | ChatResolves chatCompletion =>
                 let! message := lift (message_of chatCompletion) in
                 if truthy message then
                   let! responseContent := lift (access (prop "content" message)) in
                   if truthy responseContent then
                     match parseJSONResponse responseContent with
                     | Some parsed => ret (Some parsed)
                     | None => ret None
                     end
                   else ret None
                 else ret None
             end)
            (ret None)
    end.

Definition isAvailable : bool := hf env.

End Generator.
End HuggingFaceWordGenerator.

(** ** The request handlers *)

(** [NextResponse.json(body)] and [NextResponse.json({ error }, { status: 400 })]. *)
Inductive Response : Type :=
| Json (body : WordData)
| JsonList (body : list WordData)
| BadRequest (error : string).

(** The literal of the last line of defence. *)
Definition hardcodedWord (date : string) (source : string) : WordData :=
  {| id := VUndefined;
     date := date;
     word := VStr "resilient";
     phonetic := VStr "/rɪˈzɪliənt/";
     definition := VStr "Able to recover quickly from difficult conditions";
     translation := VStr "resistente, resiliente";
     examples := VArr [
       VStr "We need to be resilient in difficult times.";
       VStr "The app is resilient and works even offline.";
       VStr "Your learning journey requires resilient effort."
     ];
     level := VStr "B2";
     source := VStr source;
     created_at := VUndefined; updated_at := VUndefined |}.

(** *** [api/words/[date]/route.ts], the version on the Smart Word Bank *)

Module WordRoute.
Section Handler.
Context (fallbackWords : list WordData) (words : list GeneratedWord).
Context (env : Env).

Definition generateWordWithSmartBank (date : string) : M WordData :=
  let! fromAI :=
    if HuggingFaceWordGenerator.isAvailable env then
      try_catch
        (let! aiWord := HuggingFaceWordGenerator.generateWord env date in
         match aiWord with
         | Some aiWord =>
             (* aiWord && aiWord.word && aiWord.word.length > 3 *)
             if truthy (g_word aiWord) then
               let! len := lift (access (length_of (g_word aiWord))) in
               if js_gt len 3 then ret (Some (candidate date aiWord "ai"))
               else ret None
             else ret None
         | None => ret None
         end)
        (ret None)
    else ret None in
  match fromAI with
  | Some aiCandidate => ret aiCandidate
  | None =>
      let! smartWord := lift (SmartWordBank.getWordForDate words date) in
      ret (candidate date smartWord "curated")
  end.

(** The body of the outer [try]. *)
Definition GET_try (date : string) : M Response :=
  if negb (is_date_format date)
  then ret (BadRequest "Invalid date format. Use YYYY-MM-DD")
  else
    let! isConnected :=
      try_catch (WordsDatabase.checkConnection env) (ret false) in
    if negb isConnected then
      let fallbackWord := FallbackWordsSystem.getWordByDate fallbackWords date in
      let wordWithSource := with_source fallbackWord "database_unavailable" in
      ret (Json wordWithSource)
    else
      let! existingWord :=
        try_catch (WordsDatabase.getWordByDate env date) (ret None) in
      match existingWord with
      | Some existingWord => ret (Json existingWord)
      | None =>
          let! newWordData :=
            try_catch
              (generateWordWithSmartBank date)
              (let fallbackWord :=
                 FallbackWordsSystem.getWordByDate fallbackWords date in
               ret (with_source fallbackWord "generation_error")) in
          let! savedWord :=
            try_catch (WordsDatabase.saveWord env newWordData) (ret None) in
          let wordToReturn :=
            match savedWord with
            | Some savedWord => savedWord
            | None => newWordData
            end in
          ret (Json wordToReturn)
      end.

(** The outer [catch].  It reads [params.date], which by the declared type
    of [params] is the date that the [try] block works on. *)
Definition GET_catch (date : string) : M Response :=
  lift (catch
    (try! emergencyWord := SmartWordBank.getWordForDate words date in
     let wordWithSource := candidate date emergencyWord "emergency" in
     Returns (Json wordWithSource))
    (Returns (Json (hardcodedWord date "hardcoded")))).

(** The handler around a [try] block [body]. *)
Definition handle (body : M Response) (date : string) : M Response :=
  try_catch body (GET_catch date).

Definition GET (date : string) : M Response :=
  handle (GET_try date) date.

End Handler.
End WordRoute.

(** *** [api/words/[date]/route.ts], the version on the inference API *)

Module LegacyRoute.
Section Handler.
Context (fallbackWords : list WordData).
Context (env : Env).

Definition generateWordWithHuggingFace (date : string) : M WordData :=
  if negb (hf env) then
    let fallbackWord := FallbackWordsSystem.getWordByDate fallbackWords date in
    ret (with_source fallbackWord "ai_fallback")
  else
    try_catch
      (let! t := call InferenceApi in
       match inference_api env t with
       | FetchRejects => throw
       | FetchResponds ok json =>
           if negb ok then
             let fallbackWord :=
               FallbackWordsSystem.getWordByDate fallbackWords date in
             ret (with_source fallbackWord "ai_fallback")
           else
             let! _ := lift (access json) in
             let fallbackWord :=
               FallbackWordsSystem.getWordByDate fallbackWords date in
             ret (with_source fallbackWord "ai_fallback")
       end)
      (let fallbackWord := FallbackWordsSystem.getWordByDate fallbackWords date in
       ret (with_source fallbackWord "ai_fallback")).

Definition GET_try (date : string) : M Response :=
  if negb (is_date_format date)
  then ret (BadRequest "Invalid date format. Use YYYY-MM-DD")
  else
    let! isConnected :=
      try_catch (WordsDatabase.checkConnection env) (ret false) in
    if negb isConnected then
      let fallbackWord := FallbackWordsSystem.getWordByDate fallbackWords date in
      let wordWithSource := with_source fallbackWord "database_unavailable" in
      ret (Json wordWithSource)
    else
      let! existingWord :=
        try_catch (WordsDatabase.getWordByDate env date) (ret None) in
      match existingWord with
      | Some existingWord => ret (Json existingWord)
      | None =>
          let! newWordData :=
            try_catch
              (generateWordWithHuggingFace date)
              (ret (FallbackWordsSystem.getWordByDate fallbackWords date)) in
          let! savedWord :=
            try_catch (WordsDatabase.saveWord env newWordData) (ret None) in
          let wordToReturn :=
            match savedWord with
            | Some savedWord => savedWord
            | None => newWordData
            end in
          ret (Json wordToReturn)
      end.

(** The [try]/[catch] inside the outer [catch], for an outcome [selection]
    of the call [FallbackWordsSystem.getWordByDate(params.date)]: the entry
    is answered tagged [emergency]; the [catch] answers with the literal
    record, which this version of the handler tags [emergency] as well. *)
Definition GET_catch_on (selection : result WordData) (date : string)
    : M Response :=
  lift (catch
    (try! emergencyWord := selection in
     let wordWithSource := with_source emergencyWord "emergency" in
     Returns (Json wordWithSource))
    (Returns (Json (hardcodedWord date "emergency")))).

Definition GET_catch (date : string) : M Response :=
  GET_catch_on (Returns (FallbackWordsSystem.getWordByDate fallbackWords date))
               date.

Definition handle (body : M Response) (date : string) : M Response :=
  try_catch body (GET_catch date).

Definition GET (date : string) : M Response :=
  handle (GET_try date) date.

End Handler.
End LegacyRoute.

(** *** [api/words/history/route.ts] *)

Module HistoryRoute.
Section Handler.
Context (fallbackWords : list WordData).
Context (env : Env).

(** [searchParams.get("days") || "30"]; [None] is [null]. *)
Definition days_text (param : option string) : string :=
  match param with
  | Some s => if String.eqb s "" then "30" else s
  | None => "30"
  end.

(** [Math.min(Number.parseInt(searchParams.get("days") || "30"), 60)] *)
Definition days_of (param : option string) : number :=
  js_min (Str.parseInt (days_text param)) (Some 60).

Definition GET (param : option string) : M Response :=
  try_catch
    (let days := days_of param in
     let! isConnected := WordsDatabase.checkConnection env in
     if negb isConnected then
       let fallbackWords' := FallbackWordsSystem.getRecentWords fallbackWords days in
       ret (JsonList fallbackWords')
     else
       let! wordsFromDB := WordsDatabase.getRecentWords env days in
       if (0 <? length wordsFromDB)%nat then ret (JsonList wordsFromDB)
       else
         let fallbackWords' :=
           FallbackWordsSystem.getRecentWords fallbackWords days in
         ret (JsonList fallbackWords'))
    (let fallbackWords' :=
       FallbackWordsSystem.getRecentWords fallbackWords (Some 30) in
     ret (JsonList fallbackWords')).

End Handler.
End HistoryRoute.

(** *** [api/words/search/route.ts] *)

Module SearchRoute.
Section Handler.
Context (fallbackWords : list WordData).
Context (env : Env).

(** [q] is [searchParams.get("q")]; [None] is [null]. *)
Definition GET (q : option string) : M Response :=
  try_catch
    (match q with
     | None => ret (BadRequest "Query must be at least 2 characters long")
     | Some query =>
         if String.eqb query "" || (String.length (Str.trim query) <? 2)%nat
         then ret (BadRequest "Query must be at least 2 characters long")
         else
           let! isConnected := WordsDatabase.checkConnection env in
           if negb isConnected then
             let! fallbackResults :=
               lift (FallbackWordsSystem.searchWords fallbackWords (Str.trim query)) in
             ret (JsonList fallbackResults)
           else
             let! words := WordsDatabase.searchWords env (Str.trim query) in
             if (0 <? length words)%nat then ret (JsonList words)
             else
               let! fallbackResults :=
                 lift (FallbackWordsSystem.searchWords fallbackWords (Str.trim query)) in
               ret (JsonList fallbackResults)
     end)
    (let! fallbackResults :=
       lift (FallbackWordsSystem.searchWords fallbackWords (default "" q)) in
     ret (JsonList fallbackResults)).

End Handler.
End SearchRoute.

(** ** Vocabulary of the properties *)

(** The world after one more call. *)
Definition log (c : Call) (w : World) : World :=
  {| table := table w; calls := calls w ++ [c] |}.

(** The [date] member, for where a date in scope is called [date]. *)
Definition date_of (w : WordData) : string := date w.

(** The calls that go to the random-word service or to the inference
    provider, and their number. *)
Definition is_ai_call (c : Call) : bool :=
  match c with
  | RandomWordApi | ChatCompletion _ | InferenceApi => true
  | _ => false
  end.

Definition ai_calls (w : World) : nat :=
  length (filter (fun c => is_ai_call c = true) (calls w)).

(** The number that a decimal digit stands for, read off the character. *)
Definition numeral (c : ascii) : Z :=
  match c with
  | "0" => 0 | "1" => 1 | "2" => 2 | "3" => 3 | "4" => 4
  | "5" => 5 | "6" => 6 | "7" => 7 | "8" => 8 | "9" => 9
  | _ => 0
  end%char.

(** The number written by the characters of [s] after the digits that gave
    [acc], most significant digit first. *)
Definition positional (acc : Z) (s : string) : Z :=
  fold_left (fun n c => 10 * n + numeral c) (list_ascii_of_string s) acc.

(** The numeric components of a date in [YYYY-MM-DD] form, read by position:
    the year is the number written by the characters 0..3, the month by the
    characters 5..6 and the day by the characters 8..9. *)
Definition year (date : string) : Z :=
  match date with
  | String y1 (String y2 (String y3 (String y4 _))) =>
      1000 * numeral y1 + 100 * numeral y2 + 10 * numeral y3 + numeral y4
  | _ => 0
  end.

Definition month (date : string) : Z :=
  match date with
  | String _ (String _ (String _ (String _ (String _
      (String m1 (String m2 _)))))) =>
      10 * numeral m1 + numeral m2
  | _ => 0
  end.

Definition day (date : string) : Z :=
  match date with
  | String _ (String _ (String _ (String _ (String _ (String _ (String _
      (String _ (String d1 (String d2 _))))))))) =>
      10 * numeral d1 + numeral d2
  | _ => 0
  end.

(** The index that the selectors compute for a date and a catalog size. *)
Definition slot (date : string) (size : nat) : nat :=
  Z.to_nat ((year date + month date + day date) mod Z.of_nat size).

(** [aiWord.word && aiWord.word.length > 3] *)
Definition long_word (aiWord : GeneratedWord) : bool :=
  truthy (g_word aiWord) &&
  match length_of (g_word aiWord) with
  | Some len => js_gt len 3
  | None => false
  end.

(** The seed that a reply of the random-word service yields: the
    lower-cased first element of the payload, where the payload is an array
    and that element is a string that is not empty. *)
Definition seed_of (reply : FetchReply) : option string :=
  match reply with
  | FetchResponds true (Some (VArr (VStr s :: _))) =>
      if String.eqb (Str.toLowerCase s) "" then None
      else Some (Str.toLowerCase s)
  | _ => None
  end.

(** The text of a chat completion, where it has one that is not empty. *)
Definition content_of (reply : ChatReply) : option val :=
  match reply with
  | ChatResolves completion =>
      match HuggingFaceWordGenerator.message_of completion with
      | Returns message =>
          if truthy message then
            match prop "content" message with
            | Some content => if truthy content then Some content else None
            | None => None
            end
          else None
      | Throws => None
      end
  | ChatRejects => None
  end.

(** [x] does not occur in [s]. *)
Fixpoint absent (x : ascii) (s : string) : Prop :=
  match s with
  | String c r => c <> x /\ absent x r
  | EmptyString => True
  end.

(** A scanner state that drops [n + 1] characters blindly fits a text that
    has them. *)
Definition fits (st : Str.scan) (s : string) : Prop :=
  match st with
  | Str.Drop n => (n < String.length s)%nat
  | _ => True
  end.

(** A text with both kinds of fence markers removed. *)
Definition unfenced (s : string) : string :=
  Str.removeAll "```" (Str.removeAll "```json" s).

(** [s] wrapped in a markdown code fence. *)
Definition fenced (s : string) : string :=
  "```json" +:+ nl +:+ s +:+ nl +:+ "```".

(** The three text members of an entry are strings. *)
Definition textual (w : WordData) : Prop :=
  is_string (word w) = true /\ is_string (definition w) = true
  /\ is_string (translation w) = true.

Definition text_of (v : val) : string :=
  match v with VStr s => s | _ => "" end.

(** An entry matches a query: the lower-cased query occurs in the
    lower-cased word, definition or translation. *)
Definition matches (query : string) (w : WordData) : bool :=
  let lowerQuery := Str.toLowerCase query in
  Str.includes lowerQuery (Str.toLowerCase (text_of (word w)))
  || Str.includes lowerQuery (Str.toLowerCase (text_of (definition w)))
  || Str.includes lowerQuery (Str.toLowerCase (text_of (translation w))).

(** ** A concrete environment *)

Module Sample.

Definition w0 : World := {| table := ∅; calls := [] |}.

(** An AI answer whose level is none of the proficiency levels: the text
    between the braces, and the text. *)
Definition answer_members : string :=
  dq +:+ "word" +:+ dq +:+ ":" +:+ dq +:+ "lucid" +:+ dq +:+ ","
  +:+ dq +:+ "definition" +:+ dq +:+ ":" +:+ dq +:+ "clear" +:+ dq +:+ ","
  +:+ dq +:+ "translation" +:+ dq +:+ ":" +:+ dq +:+ "claro" +:+ dq +:+ ","
  +:+ dq +:+ "examples" +:+ dq +:+ ":[" +:+ dq +:+ "a" +:+ dq +:+ ","
  +:+ dq +:+ "b" +:+ dq +:+ "],"
  +:+ dq +:+ "level" +:+ dq +:+ ":" +:+ dq +:+ "X9" +:+ dq.

Definition answer : string := "{" +:+ answer_members +:+ "}".

(** The value of [JSON.parse(answer)]. *)
Definition answer_value : val :=
  VObj [("word", VStr "lucid"); ("definition", VStr "clear");
        ("translation", VStr "claro");
        ("examples", VArr [VStr "a"; VStr "b"]); ("level", VStr "X9")].

Definition parse (s : string) : option val :=
  if String.eqb s answer then Some answer_value else None.

Definition completion : val :=
  VObj [("choices",
         VArr [VObj [("message", VObj [("content", VStr answer)])]])].

(** Store reachable, credential set, the random-word service answers
    [["Lucid", 5]] and the inference provider answers [answer]. *)
Definition env : Env :=
  {| supabase := true; hf := true; JSON_parse := parse;
     store_fault := fun _ => None;
     store_uuid := fun _ => VStr "00000000-0000-0000-0000-000000000000";
     store_now := fun _ => VStr "2025-06-15T00:00:00Z";
     store_recent := fun _ _ => Some [];
     store_search := fun _ _ => Some [];
     random_word_api := fun _ => FetchResponds true (Some (VArr [VStr "Lucid"; VNum 5]));
     chat_completion := fun _ _ => ChatResolves completion;
     inference_api := fun _ => FetchRejects |}.

(** The same with no credential for the inference provider. *)
Definition no_credential : Env :=
  {| supabase := true; hf := false; JSON_parse := parse;
     store_fault := store_fault env; store_uuid := store_uuid env;
     store_now := store_now env; store_recent := store_recent env;
     store_search := store_search env;
     random_word_api := random_word_api env;
     chat_completion := chat_completion env;
     inference_api := inference_api env |}.

(** The same with the store not configured. *)
Definition offline : Env :=
  {| supabase := false; hf := true; JSON_parse := parse;
     store_fault := store_fault env; store_uuid := store_uuid env;
     store_now := store_now env; store_recent := store_recent env;
     store_search := store_search env;
     random_word_api := random_word_api env;
     chat_completion := chat_completion env;
     inference_api := inference_api env |}.

(** The same with every call to the store answered by an error. *)
Definition failing : Env :=
  {| supabase := true; hf := true; JSON_parse := parse;
     store_fault := fun t => match t with
                             | O | S O => None
                             | _ => Some (Failed "42501")
                             end;
     store_uuid := store_uuid env;
     store_now := store_now env; store_recent := store_recent env;
     store_search := store_search env;
     random_word_api := random_word_api env;
     chat_completion := chat_completion env;
     inference_api := inference_api env |}.

(** A catalog of thirty entries, [word0] to [word29]. *)
Definition catalog30 : list GeneratedWord :=
  (fun i : nat => generated ("word" +:+ pretty i) "/w/" "a word" "una palabra"
                    ["one."; "two."; "three."] "B2") <$> seq 0 30.

(** A row of the table. *)
Definition row : WordData :=
  entry "2025-06-15" "lucid" "/lucid/" "clear" "claro" ["a"; "b"] "B2" "ai".

Definition w1 : World := {| table := {[ "2025-06-15" := row ]}; calls := [] |}.

End Sample.

(** ** [api/database-status/route.ts] *)

Module StatusRoute.

(** The body of the response.  [StatusOfError] is the body of the [catch]:
    status [error], no connection, no data and the message of the error. *)
Inductive Body : Type :=
| Status (status : string) (connection hasData : bool) (message : string)
| StatusOfError.

Section Handler.
Context (env : Env).

Definition GET : M Body :=
  try_catch
    (let! isConnected := WordsDatabase.checkConnection env in
     if isConnected then
       let! testWord := WordsDatabase.getWordByDate env "2024-01-01" in
       ret (Status "connected" true
              (* !!testWord *)
              (match testWord with Some _ => true | None => false end)
              "Database is connected and accessible")
     else
       ret (Status "disconnected" false false "Database connection failed"))
    (ret StatusOfError).

End Handler.
End StatusRoute.

(** ** The page: the list of favorites *)

Module DailyEnglishApp.

(** [toggleFavorite]: the new value of [favorites], which is what the
    function stores in the state and in [localStorage]. *)
Definition toggleFavorite (favorites : list string) (word : string)
    : list string :=
  if existsb (String.eqb word) favorites
  then List.filter (fun fav => negb (String.eqb fav word)) favorites
  else favorites ++ [word].

End DailyEnglishApp.

(** ** Further vocabulary *)

(** Every row of the table sits under its own date. *)
Definition keyed (w : World) : Prop :=
  forall d row, table w !! d = Some row -> date row = d.

Definition is_upsert (c : Call) : bool :=
  match c with
  | Upsert _ => true
  | _ => false
  end.

(** [q] occurs in [s]. *)
Definition occurs_in (q s : string) : Prop :=
  exists a b, s = a +:+ q +:+ b.

(** The members of a record that the parser returns are all there. *)
Definition complete (w : WordData) : Prop :=
  truthy (word w) = true /\ truthy (phonetic w) = true
  /\ truthy (definition w) = true /\ truthy (translation w) = true
  /\ truthy (level w) = true
  /\ exists kept, examples w = VArr kept /\ (2 <= length kept <= 3)%nat.

(** * Properties *)

(** ** Text scanning *)

Lemma prefix_empty s : String.prefix "" s = true.
Proof. by destruct s. Qed.

Lemma prefix_closing x pat m tail :
  absent x pat ->
  String.prefix pat (m +:+ String x tail) = String.prefix pat m.
Proof.
  revert m. induction pat as [|a pat IH]; intros m Habs.
  - by rewrite !prefix_empty.
  - destruct Habs as [Hne Habs]. destruct m as [|c m]; simpl.
    + by destruct (ascii_dec a x).
    + destruct (ascii_dec a c); [by apply IH | done].
Qed.

Lemma prefix_length pat s :
  String.prefix pat s = true -> (String.length pat <= String.length s)%nat.
Proof.
  revert s. induction pat as [|a pat IH]; intros s H; simpl; [lia|].
  destruct s as [|c s]; simpl in *; [done|].
  destruct (ascii_dec a c); [|done]. apply IH in H. lia.
Qed.

Lemma remove_closing x p0 pat mid tail st :
  absent x (String p0 pat) -> Str.is_space x = false -> fits st mid ->
  Str.remove (String p0 pat) st (mid +:+ String x tail)
  = Str.remove (String p0 pat) st mid
    +:+ String x (Str.remove (String p0 pat) Str.Copy tail).
Proof.
  intros Habs Hsp. revert st.
  induction mid as [|c mid IH]; intros st Hfit.
  - destruct st as [|n|]; simpl in *; [|lia|].
    + destruct Habs as [Hne _]. by destruct (ascii_dec p0 x).
    + rewrite Hsp. destruct Habs as [Hne _]. by destruct (ascii_dec p0 x).
  - change (String c mid +:+ String x tail) with (String c (mid +:+ String x tail)).
    cbn [Str.remove].
    assert (Hpre : String.prefix (String p0 pat) (String c (mid +:+ String x tail))
                   = String.prefix (String p0 pat) (String c mid))
      by apply (prefix_closing x (String p0 pat) (String c mid) tail Habs).
    assert (Hnext : String.prefix (String p0 pat) (String c mid) = true ->
                    fits (match String.length (String p0 pat) with
                          | S (S n) => Str.Drop n
                          | _ => Str.Spaces
                          end) mid).
    { intros H%prefix_length. simpl in *. destruct pat; simpl in *; [done|lia]. }
    destruct st as [|[|n]|].
    + rewrite Hpre. destruct (String.prefix (String p0 pat) (String c mid)) eqn:E.
      * apply IH. by apply Hnext.
      * change (String c ?a +:+ ?b) with (String c (a +:+ b)). f_equal. by apply IH.
    + by apply IH.
    + apply IH. simpl in *. lia.
    + destruct (Str.is_space c); [by apply IH|].
      rewrite Hpre. destruct (String.prefix (String p0 pat) (String c mid)) eqn:E.
      * apply IH. by apply Hnext.
      * change (String c ?a +:+ ?b) with (String c (a +:+ b)). f_equal. by apply IH.
Qed.


Lemma trimEnd_closing s t :
  t <> "" -> Str.trimEnd t = t -> Str.trimEnd (s +:+ t) = s +:+ t.
Proof.
  intros Hne Ht. induction s as [|c s IH]; [done|].
  change (String c s +:+ t) with (String c (s +:+ t)).
  cbn [Str.trimEnd]. rewrite IH.
  destruct s, t; try done; simpl; by rewrite andb_false_r.
Qed.

Lemma lastIndexOf_closing x a t :
  Str.lastIndexOf x t = None ->
  Str.lastIndexOf x (a +:+ String x t) = Some (String.length a).
Proof.
  intros Ht. induction a as [|c a IH]; simpl.
  - by rewrite Ht, Ascii.eqb_refl.
  - by rewrite IH.
Qed.

Lemma substring_closing a x t :
  String.substring 0 (S (String.length a)) (a +:+ String x t)
  = a +:+ String x "".
Proof.
  induction a as [|c a IH]; simpl; [by destruct t | by rewrite IH].
Qed.

Lemma removeAll_object p0 pat mid tail :
  p0 <> "{"%char -> absent "}" (String p0 pat) ->
  Str.removeAll (String p0 pat) (String "{" (mid +:+ String "}" tail))
  = String "{" (Str.removeAll (String p0 pat) mid
                +:+ String "}" (Str.removeAll (String p0 pat) tail)).
Proof.
  intros Hp Habs. unfold Str.removeAll. cbn [Str.remove].
  replace (String.prefix (String p0 pat) (String "{" (mid +:+ String "}" tail)))
    with false by (simpl; by destruct (ascii_dec p0 "{")).
  f_equal. by apply remove_closing.
Qed.

Lemma extracted m tail :
  Str.indexOf "{" tail = None -> Str.lastIndexOf "}" tail = None ->
  let s := String "{" (m +:+ String "}" tail) in
  match Str.indexOf "{" s, Str.lastIndexOf "}" s with
  | Some jsonStart, Some jsonEnd =>
      if (jsonStart <? jsonEnd)%nat
      then Str.substring jsonStart (jsonEnd + 1) s
      else s
  | _, _ => s
  end = String "{" (m +:+ String "}" "").
Proof.
  intros _ Hlast s. subst s.
  change (String "{" (m +:+ String "}" tail))
    with (String "{" m +:+ String "}" tail).
  rewrite lastIndexOf_closing by done.
  change (String "{" m +:+ String "}" tail)
    with (String "{" (m +:+ String "}" tail)).
  cbn [Str.indexOf]. change (Ascii.eqb "{" "{") with true. cbv iota.
  change (0 <? String.length (String "{" m))%nat with true. cbv iota.
  unfold Str.substring.
  replace (String.length (String "{" m) + 1 - 0)%nat
    with (S (String.length (String "{" m))) by lia.
  apply (substring_closing (String "{" m)).
Qed.

Lemma cleanText_object mid :
  HuggingFaceWordGenerator.cleanText (String "{" (mid +:+ String "}" ""))
  = String "{" (unfenced mid +:+ String "}" "").
Proof.
  unfold HuggingFaceWordGenerator.cleanText, Str.trim.
  cbn [Str.trimStart]. change (Str.is_space "{") with false. cbv iota.
  change (String "{" (mid +:+ String "}" "")) with (String "{" mid +:+ String "}" "").
  rewrite trimEnd_closing by done.
  change (String "{" mid +:+ String "}" "") with (String "{" (mid +:+ String "}" "")).
  rewrite (removeAll_object "`" "``json") by (simpl; intuition congruence).
  rewrite (removeAll_object "`" "``") by (simpl; intuition congruence).
  change (Str.removeAll "```" (Str.removeAll "```json" "")) with "".
  by apply extracted.
Qed.

Lemma append_assoc a b c : (a +:+ b) +:+ c = a +:+ (b +:+ c).
Proof.
  induction a as [|x a IH]; [done|].
  change (String x ((a +:+ b) +:+ c) = String x (a +:+ b +:+ c)).
  by rewrite IH.
Qed.

Lemma cleanText_fenced mid :
  HuggingFaceWordGenerator.cleanText
    ("```json" +:+ nl +:+ String "{" (mid +:+ String "}" "") +:+ nl +:+ "```")
  = String "{" (unfenced mid +:+ String "}" "").
Proof.
  unfold HuggingFaceWordGenerator.cleanText, Str.trim.
  change ("```json" +:+ nl +:+ String "{" (mid +:+ String "}" "") +:+ nl +:+ "```")
    with ("```json" +:+ nl +:+ String "{" ((mid +:+ String "}" "") +:+ nl +:+ "```")).
  rewrite append_assoc.
  change (String "}" "" +:+ nl +:+ "```") with (String "}" (nl +:+ "```")).
  set (f := "```json" +:+ nl +:+ String "{" (mid +:+ String "}" (nl +:+ "```"))).
  assert (Htrim : Str.trimEnd (Str.trimStart f) = f).
  { change (Str.trimStart f) with f. subst f.
    change ("```json" +:+ nl +:+ String "{" (mid +:+ String "}" (nl +:+ "```")))
      with (("```json" +:+ nl +:+ String "{" mid) +:+ String "}" (nl +:+ "```")).
    by apply trimEnd_closing. }
  rewrite Htrim.
  assert (H1 : Str.removeAll "```json" f
               = String "{" (Str.removeAll "```json" mid +:+ String "}" (nl +:+ "```"))).
  { transitivity
      (Str.removeAll "```json" (String "{" (mid +:+ String "}" (nl +:+ "```"))));
      [reflexivity|].
    by rewrite (removeAll_object "`" "``json") by (simpl; intuition congruence). }
  rewrite H1.
  rewrite (removeAll_object "`" "``") by (simpl; intuition congruence).
  change (Str.removeAll "```" (nl +:+ "```")) with nl.
  by apply extracted.
Qed.

(** ** Computations that return *)

Lemma try_catch_returns {A : Type} (body : M A) (a : A) (w : World) :
  exists r w', try_catch body (ret a) w = (Returns r, w').
Proof.
  unfold try_catch, ret. destruct (body w) as [[r|] w']; eauto.
Qed.

Lemma try_catch_of_returns {A : Type} (body handler : M A) a w w' :
  body w = (Returns a, w') -> try_catch body handler w = (Returns a, w').
Proof. intros H. unfold try_catch. by rewrite H. Qed.

Lemma bind_of_returns {A B : Type} (m : M A) (k : A -> M B) a w w' :
  m w = (Returns a, w') -> bind m k w = k a w'.
Proof. intros H. unfold bind. by rewrite H. Qed.

(** ** The gateway *)

Lemma checkConnection_run env w :
  WordsDatabase.checkConnection env w =
  if supabase env then
    (Returns (match store_fault env (length (calls w)) with
              | None => true
              | Some _ => false
              end), log SelectCount w)
  else (Returns false, w).
Proof.
  unfold WordsDatabase.checkConnection.
  destruct (supabase env); [|done]. cbn [negb].
  unfold try_catch, bind, Supabase.select_count, Supabase.answer, call, ret, throw, log.
  cbn. by destruct (store_fault env (length (calls w))) as [[|code]|].
Qed.

Lemma getWordByDate_run env date w :
  WordsDatabase.getWordByDate env date w =
  if supabase env then
    (Returns (match store_fault env (length (calls w)) with
              | None => table w !! date
              | Some _ => None
              end), log (SelectByDate date) w)
  else (Returns None, w).
Proof.
  unfold WordsDatabase.getWordByDate.
  destruct (supabase env); [|done]. cbn [negb].
  unfold try_catch, bind, Supabase.select_by_date, Supabase.answer, call, rows,
    ret, throw, log.
  cbn. destruct (store_fault env (length (calls w))) as [[|code]|]; cbn; try done.
  - by repeat case_match.
  - by destruct (table w !! date).
Qed.

Lemma saveWord_run env wordData w :
  WordsDatabase.saveWord env wordData w =
  if supabase env then
    match store_fault env (length (calls w)) with
    | None =>
        let row := Supabase.stored env (length (calls w))
                     (table w !! date wordData) wordData in
        (Returns (Some row),
         {| table := <[date wordData := row]> (table w);
            calls := calls w ++ [Upsert wordData] |})
    | Some _ => (Returns None, log (Upsert wordData) w)
    end
  else (Returns None, w).
Proof.
  unfold WordsDatabase.saveWord.
  destruct (supabase env); [|done]. cbn [negb].
  unfold try_catch, bind, Supabase.upsert, Supabase.answer, call, rows, write,
    ret, throw, log, lift.
  cbn. by destruct (store_fault env (length (calls w))) as [[|code]|].
Qed.

Lemma getRecentWords_returns env limit w :
  exists l w', WordsDatabase.getRecentWords env limit w = (Returns l, w').
Proof.
  unfold WordsDatabase.getRecentWords.
  destruct (supabase env); cbn [negb]; [apply try_catch_returns | by eexists _, _].
Qed.

Lemma searchWords_run env query w :
  WordsDatabase.searchWords env query w =
  if supabase env then
    (Returns (match store_fault env (length (calls w)) with
              | None => default [] (store_search env (table w) query)
              | Some _ => []
              end), log (SearchRows query) w)
  else (Returns [], w).
Proof.
  unfold WordsDatabase.searchWords.
  destruct (supabase env); [|done]. cbn [negb].
  unfold try_catch, bind, Supabase.search, Supabase.answer, call, rows,
    ret, throw, log.
  cbn. destruct (store_fault env (length (calls w))) as [[|code]|]; cbn; try done.
  by repeat case_match.
Qed.

(** ** The generator *)

Lemma calls_log c w : length (calls (log c w)) = S (length (calls w)).
Proof. unfold log. cbn. rewrite length_app. cbn. lia. Qed.

Lemma getRandomWord_run env w :
  HuggingFaceWordGenerator.getRandomWord env w =
  (Returns (match random_word_api env (length (calls w)) with
            | FetchResponds true (Some (VArr (VStr s :: _))) =>
                Some (Str.toLowerCase s)
            | _ => None
            end), log RandomWordApi w).
Proof.
  unfold HuggingFaceWordGenerator.getRandomWord, try_catch, bind, call, ret,
    throw, lift, log.
  cbn. destruct (random_word_api env (length (calls w))) as [|[|] [data|]]; cbn;
    try done.
  destruct data as [| | | | |[|[] ?]|]; done.
Qed.

Lemma generateWord_run env date w :
  HuggingFaceWordGenerator.generateWord env date w =
  if hf env then
    match seed_of (random_word_api env (length (calls w))) with
    | None => (Returns None, log RandomWordApi w)
    | Some randomWord =>
        let aiPrompt := HuggingFaceWordGenerator.aiPrompt randomWord in
        (Returns
           match content_of (chat_completion env (S (length (calls w))) aiPrompt) with
           | Some content => HuggingFaceWordGenerator.parseJSONResponse env content
           | None => None
           end,
         log (ChatCompletion aiPrompt) (log RandomWordApi w))
    end
  else (Returns None, w).
Proof.
  unfold HuggingFaceWordGenerator.generateWord.
  destruct (hf env); [|done]. cbn [negb].
  unfold bind at 1. rewrite getRandomWord_run. unfold seed_of.
  destruct (random_word_api env (length (calls w))) as [|[|] [data|]]; try done.
  destruct data as [| | | | |[|[] ?]|]; try done.
  destruct (String.eqb (Str.toLowerCase s) "") eqn:E; [done|].
  cbv zeta. unfold try_catch, bind at 1, call. rewrite <- (calls_log RandomWordApi w).
  change {| table := table (log RandomWordApi w);
            calls := calls (log RandomWordApi w) ++
                     [ChatCompletion (HuggingFaceWordGenerator.aiPrompt (Str.toLowerCase s))] |}
    with (log (ChatCompletion (HuggingFaceWordGenerator.aiPrompt (Str.toLowerCase s)))
              (log RandomWordApi w)).
  unfold content_of.
  destruct (chat_completion env _ _) as [|completion]; [done|].
  unfold bind, lift, ret.
  destruct (HuggingFaceWordGenerator.message_of completion) as [message|]; [|done].
  destruct (truthy message) eqn:Hm; [|done].
  destruct (prop "content" message) as [content|]; cbn; [|done].
  destruct (truthy content); [|done].
  by destruct (HuggingFaceWordGenerator.parseJSONResponse env content).
Qed.

(** ** The date hash *)

Lemma digit_cases c :
  Str.is_digit c = true ->
  In c ["0"; "1"; "2"; "3"; "4"; "5"; "6"; "7"; "8"; "9"]%char.
Proof.
  destruct c as [[] [] [] [] [] [] [] []]; intros H;
    try (by vm_compute in H); cbn; tauto.
Qed.

Ltac digit_cases H :=
  apply digit_cases in H; cbn in H;
  repeat (destruct H as [<-|H]); [..|contradiction].

Lemma digit_not_dash c : Str.is_digit c = true -> Ascii.eqb c "-" = false.
Proof. intros H. digit_cases H; reflexivity. Qed.

Lemma digit_value_bounds c :
  Str.is_digit c = true -> 0 <= Str.digit_value c <= 9.
Proof. intros H. digit_cases H; by vm_compute. Qed.

Lemma digits_nonneg s acc : 0 <= acc -> 0 <= Str.digits acc s.
Proof.
  revert acc. induction s as [|c s IH]; intros acc Hacc; cbn; [done|].
  destruct (Str.is_digit c) eqn:E; [|done].
  apply IH. pose proof (digit_value_bounds c E). lia.
Qed.

Lemma numeral_digit_value c :
  Str.is_digit c = true -> Str.digit_value c = numeral c.
Proof. intros H. digit_cases H; reflexivity. Qed.

Lemma numeral_bounds c : Str.is_digit c = true -> 0 <= numeral c <= 9.
Proof. intros H. digit_cases H; by vm_compute. Qed.

Lemma digits_numeral s acc :
  forallb Str.is_digit (list_ascii_of_string s) = true ->
  Str.digits acc s = positional acc s.
Proof.
  revert acc. induction s as [|c s IH]; intros acc H; [reflexivity|].
  cbn [list_ascii_of_string forallb] in H. apply andb_prop in H as [Hc Hs].
  cbn [Str.digits]. rewrite Hc, (numeral_digit_value c Hc).
  unfold positional. cbn [list_ascii_of_string fold_left]. by apply IH.
Qed.

Lemma parseInt_digits c r :
  Str.is_digit c = true ->
  match r with String x _ => Str.is_digit x = true | EmptyString => True end ->
  Str.parseInt (String c r) = Some (Str.digits 0 (String c r)).
Proof.
  intros Hc Hr. digit_cases Hc; try reflexivity.
  destruct r as [|x r]; [reflexivity|]. digit_cases Hr; reflexivity.
Qed.

Lemma split_digit c r :
  Str.is_digit c = true ->
  Str.split "-" (String c r)
  = match Str.split "-" r with
    | p :: ps => String c p :: ps
    | [] => [String c ""]
    end.
Proof. intros H. cbn [Str.split]. by rewrite digit_not_dash. Qed.

Lemma split_dash r : Str.split "-" (String "-" r) = "" :: Str.split "-" r.
Proof. reflexivity. Qed.

Lemma dateHash_of_date date :
  is_date_format date = true ->
  dateHash date = Some (year date + month date + day date)
  /\ 0 <= year date + month date + day date.
Proof.
  intros H. unfold is_date_format in H.
  destruct date as [|y1 [|y2 [|y3 [|y4 [|h1 [|m1 [|m2 [|h2 [|d1 [|d2 [|? ?]]]]]]]]]]];
    try done.
  cbn [list_ascii_of_string forallb] in H.
  repeat match goal with
         | E : _ && _ = true |- _ => apply andb_prop in E as [? ?]
         end.
  repeat match goal with
         | E : Ascii.eqb _ _ = true |- _ => apply Ascii.eqb_eq in E; subst
         end.
  split.
  - unfold dateHash.
    repeat first [rewrite split_digit by done | rewrite split_dash].
    change (Str.split "-" "") with [""].
    cbn [fold_left]. rewrite !parseInt_digits by done.
    cbn [js_add]. unfold year, month, day.
    rewrite !digits_numeral by (cbn [forallb list_ascii_of_string]; by rewrite ?andb_true_iff).
    f_equal. cbn [positional list_ascii_of_string fold_left]. lia.
  - unfold year, month, day.
    repeat match goal with
           | E : Str.is_digit _ = true |- _ => apply numeral_bounds in E
           end.
    lia.
Qed.

Lemma selected_slot {A : Type} (catalog : list A) date :
  is_date_format date = true -> catalog <> [] ->
  exists e,
    catalog !! slot date (length catalog) = Some e
    /\ at_index catalog (js_rem (dateHash date) (Z.of_nat (length catalog))) = Some e.
Proof.
  intros [Hh Hpos]%dateHash_of_date Hne.
  assert (Hlen : 0 < Z.of_nat (length catalog)) by (destruct catalog; [done | cbn; lia]).
  destruct (lookup_lt_is_Some_2 catalog (slot date (length catalog))) as [e He].
  { unfold slot. pose proof (Z.mod_pos_bound (year date + month date + day date) _ Hlen).
    lia. }
  exists e. split; [done|].
  rewrite Hh. unfold js_rem, at_index.
  replace (Z.of_nat (length catalog) =? 0) with false by lia.
  rewrite Z.rem_mod_nonneg by lia.
  pose proof (Z.mod_pos_bound (year date + month date + day date) _ Hlen).
  replace (_ <? 0) with false by lia. exact He.
Qed.

(** ** The handler of a word for a date *)

Lemma GET_try_returns fallbackWords words env date w :
  exists response w',
    WordRoute.GET_try fallbackWords words env date w = (Returns response, w').
Proof.
  unfold WordRoute.GET_try. destruct (is_date_format date); cbn [negb]; [|by eexists _, _].
  unfold bind.
  destruct (try_catch_returns (WordsDatabase.checkConnection env) false w)
    as (isConnected & w1 & ->).
  destruct isConnected; cbn [negb]; [|by eexists _, _].
  destruct (try_catch_returns (WordsDatabase.getWordByDate env date) None w1)
    as ([existingWord|] & w2 & ->); [by eexists _, _|].
  destruct (try_catch_returns
              (WordRoute.generateWordWithSmartBank words env date)
              (with_source (FallbackWordsSystem.getWordByDate fallbackWords date)
                 "generation_error") w2) as (newWordData & w3 & ->).
  destruct (try_catch_returns (WordsDatabase.saveWord env newWordData) None w3)
    as (savedWord & w4 & ->).
  by eexists _, _.
Qed.

Lemma legacy_GET_try_returns fallbackWords env date w :
  exists response w',
    LegacyRoute.GET_try fallbackWords env date w = (Returns response, w').
Proof.
  unfold LegacyRoute.GET_try. destruct (is_date_format date); cbn [negb]; [|by eexists _, _].
  unfold bind.
  destruct (try_catch_returns (WordsDatabase.checkConnection env) false w)
    as (isConnected & w1 & ->).
  destruct isConnected; cbn [negb]; [|by eexists _, _].
  destruct (try_catch_returns (WordsDatabase.getWordByDate env date) None w1)
    as ([existingWord|] & w2 & ->); [by eexists _, _|].
  destruct (try_catch_returns
              (LegacyRoute.generateWordWithHuggingFace fallbackWords env date)
              (FallbackWordsSystem.getWordByDate fallbackWords date) w2)
    as (newWordData & w3 & ->).
  destruct (try_catch_returns (WordsDatabase.saveWord env newWordData) None w3)
    as (savedWord & w4 & ->).
  by eexists _, _.
Qed.

Lemma date_with_source fallbackWords date source :
  date_of (with_source (FallbackWordsSystem.getWordByDate fallbackWords date) source)
  = date.
Proof.
  unfold FallbackWordsSystem.getWordByDate, date_of.
  by destruct (at_index fallbackWords _).
Qed.

(** C1.  The handler of a word for a date never lets an exception through:
    it returns a response for every date, every environment and every state
    of the store.  Whatever [try] block the top-level [catch] guards, an
    exception that reaches it is answered with a record for the date asked
    for: when the Smart Word Bank selects an entry for the date, the record
    has the word, phonetic, definition, translation, examples and level of
    that entry and [source] is [emergency]; when that selection throws as
    well, the record is the literal one of the word "resilient" and [source]
    is [hardcoded].  For a date in [YYYY-MM-DD] form and a bank that is not
    empty the selection returns the entry at the index of the date; for an
    empty bank it throws.  The older version of the handler returns as well;
    it answers an exception with the entry that the fallback catalog holds
    for the date, with [source] set to [emergency], and the literal record
    of its inner [catch] carries the word "resilient" with [source] set to
    [emergency], not [hardcoded]. *)
Theorem word_for_date_never_throws
    (fallbackWords : list WordData) (words : list GeneratedWord)
    (env : Env) (date : string) (w : World) :
  (exists response w',
      WordRoute.GET fallbackWords words env date w = (Returns response, w'))
  /\ (forall (body : M Response) w1,
        body w = (Throws, w1) ->
        exists r,
          WordRoute.handle words body date w = (Returns (Json r), w1)
          /\ date_of r = date
          /\ (forall emergencyWord,
                SmartWordBank.getWordForDate words date = Returns emergencyWord ->
                source r = VStr "emergency"
                /\ word r = g_word emergencyWord
                /\ phonetic r = g_phonetic emergencyWord
                /\ definition r = g_definition emergencyWord
                /\ translation r = g_translation emergencyWord
                /\ examples r = g_examples emergencyWord
                /\ level r = g_level emergencyWord)
          /\ (SmartWordBank.getWordForDate words date = Throws ->
                source r = VStr "hardcoded"
                /\ word r = VStr "resilient"
                /\ phonetic r = VStr "/rɪˈzɪliənt/"
                /\ definition r
                   = VStr "Able to recover quickly from difficult conditions"
                /\ translation r = VStr "resistente, resiliente"
                /\ examples r
                   = VArr [VStr "We need to be resilient in difficult times.";
                           VStr "The app is resilient and works even offline.";
                           VStr "Your learning journey requires resilient effort."]
                /\ level r = VStr "B2"))
  /\ (is_date_format date = true -> words <> [] ->
      exists emergencyWord,
        words !! slot date (length words) = Some emergencyWord
        /\ SmartWordBank.getWordForDate words date = Returns emergencyWord)
  /\ (words = [] -> SmartWordBank.getWordForDate words date = Throws)
  /\ (exists response w',
        LegacyRoute.GET fallbackWords env date w = (Returns response, w'))
  /\ (forall (body : M Response) w1,
        body w = (Throws, w1) ->
        exists r,
          LegacyRoute.handle fallbackWords body date w = (Returns (Json r), w1)
          /\ date_of r = date
          /\ source r = VStr "emergency"
          /\ word r = word (FallbackWordsSystem.getWordByDate fallbackWords date)
          /\ phonetic r
             = phonetic (FallbackWordsSystem.getWordByDate fallbackWords date)
          /\ definition r
             = definition (FallbackWordsSystem.getWordByDate fallbackWords date)
          /\ translation r
             = translation (FallbackWordsSystem.getWordByDate fallbackWords date)
          /\ examples r
             = examples (FallbackWordsSystem.getWordByDate fallbackWords date)
          /\ level r = level (FallbackWordsSystem.getWordByDate fallbackWords date)
          /\ (is_date_format date = true -> fallbackWords <> [] ->
              exists emergencyWord,
                fallbackWords !! slot date (length fallbackWords)
                = Some emergencyWord
                /\ word r = word emergencyWord))
  /\ (forall w1,
        exists r,
          LegacyRoute.GET_catch_on Throws date w1 = (Returns (Json r), w1)
          /\ date_of r = date
          /\ source r = VStr "emergency"
          /\ word r = VStr "resilient").
Proof.
  split; [|split; [|split; [|split; [|split; [|split]]]]].
  - unfold WordRoute.GET, WordRoute.handle, try_catch.
    destruct (GET_try_returns fallbackWords words env date w) as (r & w' & ->).
    by eexists _, _.
  - intros body w1 Hbody.
    unfold WordRoute.handle, try_catch, WordRoute.GET_catch, lift. rewrite Hbody.
    destruct (SmartWordBank.getWordForDate words date) as [e|]; cbn [catch].
    + exists (candidate date e "emergency"). split; [done|]. split; [done|].
      split; [|done]. by intros ? [= <-].
    + exists (hardcodedWord date "hardcoded"). by repeat split.
  - intros Hdate Hwords.
    destruct (selected_slot words date Hdate Hwords) as (e & He & Hat).
    exists e. split; [done|].
    unfold SmartWordBank.getWordForDate. by rewrite Hat.
  - intros ->. unfold SmartWordBank.getWordForDate, at_index.
    by destruct (js_rem _ _) as [i|]; [destruct (i <? 0)|].
  - unfold LegacyRoute.GET, LegacyRoute.handle, try_catch.
    destruct (legacy_GET_try_returns fallbackWords env date w) as (r & w' & ->).
    by eexists _, _.
  - intros body w1 Hbody.
    unfold LegacyRoute.handle, try_catch, LegacyRoute.GET_catch,
      LegacyRoute.GET_catch_on, lift.
    rewrite Hbody. cbn [catch].
    exists (with_source (FallbackWordsSystem.getWordByDate fallbackWords date)
              "emergency").
    split; [done|]. split; [apply date_with_source|].
    repeat (split; [done|]).
    intros Hdate Hne.
    destruct (selected_slot fallbackWords date Hdate Hne) as (e & He & Hat).
    exists e. split; [done|].
    unfold FallbackWordsSystem.getWordByDate. by rewrite Hat.
  - intros w1. exists (hardcodedWord date "emergency"). by repeat split.
Qed.

Lemma ai_calls_log c w :
  ai_calls (log c w) = (ai_calls w + if is_ai_call c then 1 else 0)%nat.
Proof.
  unfold ai_calls, log. cbn [calls]. rewrite filter_app, length_app.
  f_equal. rewrite filter_cons, filter_nil. by destruct (is_ai_call c).
Qed.

(** C2.  For a date in [YYYY-MM-DD] form, when the connectivity check fails
    (no client, or the check rejects or reports an error), both versions of
    the handler return the entry that the fallback catalog holds for the
    date, tagged [database_unavailable].  The only call made is the check
    itself: no call to the random-word service or the inference provider,
    no query, no upsert, and the table is as it was. *)
Theorem disconnected_store_skips_generation
    (fallbackWords : list WordData) (words : list GeneratedWord)
    (env : Env) (date : string) (w : World) :
  is_date_format date = true ->
  supabase env = false \/ store_fault env (length (calls w)) <> None ->
  let selected :=
    with_source (FallbackWordsSystem.getWordByDate fallbackWords date)
      "database_unavailable" in
  let w' := if supabase env then log SelectCount w else w in
  WordRoute.GET fallbackWords words env date w = (Returns (Json selected), w')
  /\ LegacyRoute.GET fallbackWords env date w = (Returns (Json selected), w')
  /\ source selected = VStr "database_unavailable"
  /\ date_of selected = date
  /\ ai_calls w' = ai_calls w
  /\ table w' = table w.
Proof.
  intros Hdate Hdown selected w'.
  assert (Hcheck : WordsDatabase.checkConnection env w = (Returns false, w')).
  { rewrite checkConnection_run. subst w'.
    destruct (supabase env); [|done].
    destruct Hdown as [|Hdown]; [done|].
    by destruct (store_fault env (length (calls w))). }
  repeat split.
  - unfold WordRoute.GET, WordRoute.handle, WordRoute.GET_try.
    rewrite Hdate. cbn [negb]. unfold try_catch, bind. by rewrite Hcheck.
  - unfold LegacyRoute.GET, LegacyRoute.handle, LegacyRoute.GET_try.
    rewrite Hdate. cbn [negb]. unfold try_catch, bind. by rewrite Hcheck.
  - apply date_with_source.
  - subst w'. destruct (supabase env); [|done].
    rewrite ai_calls_log. cbn. lia.
  - subst w'. by destruct (supabase env).
Qed.

(** C3.  For a date in [YYYY-MM-DD] form, with the store reachable and a
    row for the date in the table, the handler returns that row as it is.
    Asked again it returns the same row.  Both requests only check the
    connection and query the date: no call to the random-word service or
    the inference provider, and the table is as it was. *)
Theorem stored_word_is_returned
    (fallbackWords : list WordData) (words : list GeneratedWord)
    (env : Env) (date : string) (row : WordData) (w : World) :
  is_date_format date = true ->
  supabase env = true ->
  (forall t, (length (calls w) <= t < length (calls w) + 4)%nat ->
             store_fault env t = None) ->
  table w !! date = Some row ->
  let w1 := log (SelectByDate date) (log SelectCount w) in
  let w2 := log (SelectByDate date) (log SelectCount w1) in
  WordRoute.GET fallbackWords words env date w = (Returns (Json row), w1)
  /\ WordRoute.GET fallbackWords words env date w1 = (Returns (Json row), w2)
  /\ table w2 = table w
  /\ ai_calls w2 = ai_calls w.
Proof.
  intros Hdate Hup Hok Hrow w1 w2.
  assert (Hget : forall v, table v = table w ->
            (forall t, (length (calls v) <= t < length (calls v) + 2)%nat ->
                       store_fault env t = None) ->
            WordRoute.GET fallbackWords words env date v
            = (Returns (Json row), log (SelectByDate date) (log SelectCount v))).
  { intros v Htab Hv.
    unfold WordRoute.GET, WordRoute.handle, WordRoute.GET_try.
    rewrite Hdate. cbn [negb]. unfold try_catch, bind.
    rewrite checkConnection_run, Hup.
    rewrite (Hv (length (calls v))) by lia. cbn [negb].
    rewrite getWordByDate_run, Hup, calls_log.
    rewrite (Hv (S (length (calls v)))) by lia.
    cbn [table log]. by rewrite Htab, Hrow. }
  repeat split.
  - apply Hget; [done|]. intros t Ht. apply Hok. lia.
  - apply Hget; [done|]. intros t Ht. apply Hok.
    subst w1. rewrite !calls_log in Ht. lia.
  - subst w2 w1. rewrite !ai_calls_log. cbn. lia.
Qed.

Lemma generateWord_returns env date w :
  exists aiWord w1,
    HuggingFaceWordGenerator.generateWord env date w = (Returns aiWord, w1).
Proof.
  rewrite generateWord_run. destruct (hf env); [|by eexists _, _].
  destruct (seed_of _); by eexists _, _.
Qed.

Lemma smart_bank_ai words env date w aiWord w1 :
  hf env = true ->
  HuggingFaceWordGenerator.generateWord env date w = (Returns (Some aiWord), w1) ->
  long_word aiWord = true ->
  WordRoute.generateWordWithSmartBank words env date w
  = (Returns (candidate date aiWord "ai"), w1).
Proof.
  intros Hhf Hgen [Htruthy Hlong]%andb_prop.
  unfold WordRoute.generateWordWithSmartBank, HuggingFaceWordGenerator.isAvailable.
  rewrite Hhf. unfold bind at 1, try_catch, bind at 1. rewrite Hgen, Htruthy.
  unfold bind, lift, ret.
  destruct (length_of (g_word aiWord)) as [len|]; [|done]. cbn [access].
  by rewrite Hlong.
Qed.

Lemma smart_bank_curated words env date w r w1 :
  HuggingFaceWordGenerator.generateWord env date w = (r, w1) ->
  hf env = false \/ r = Returns None \/ r = Throws
  \/ (exists aiWord, r = Returns (Some aiWord) /\ long_word aiWord = false) ->
  WordRoute.generateWordWithSmartBank words env date w
  = (match SmartWordBank.getWordForDate words date with
     | Returns smartWord => Returns (candidate date smartWord "curated")
     | Throws => Throws
     end, if hf env then w1 else w).
Proof.
  intros Hgen Hcase.
  unfold WordRoute.generateWordWithSmartBank, HuggingFaceWordGenerator.isAvailable.
  destruct (hf env).
  - unfold bind at 1, try_catch, bind at 1. rewrite Hgen.
    destruct Hcase as [|[->|[->|(aiWord & -> & Hlong)]]]; try done.
    + unfold ret, lift. by destruct (SmartWordBank.getWordForDate words date).
    + unfold ret, lift. by destruct (SmartWordBank.getWordForDate words date).
    + unfold long_word in Hlong. unfold bind, lift, ret.
      destruct (truthy (g_word aiWord)); cbn [andb] in Hlong.
      * destruct (length_of (g_word aiWord)) as [len|]; cbn [access].
        -- rewrite Hlong. by destruct (SmartWordBank.getWordForDate words date).
        -- by destruct (SmartWordBank.getWordForDate words date).
      * by destruct (SmartWordBank.getWordForDate words date).
  - unfold bind, ret, lift.
    by destruct (SmartWordBank.getWordForDate words date).
Qed.

Lemma long_word_of_string aiWord s :
  g_word aiWord = VStr s -> long_word aiWord = (3 <? String.length s)%nat.
Proof.
  intros Hs. unfold long_word. rewrite Hs. cbn [truthy length_of].
  unfold js_gt. cbn [ToNumber]. destruct s as [|c s]; [done|].
  cbn [String.eqb negb andb].
  destruct (Nat.ltb_spec 3 (String.length (String c s))); lia.
Qed.

(** C4, as the code has it.  For a date in [YYYY-MM-DD] form and a bank
    that is not empty: when the generator is available and returns a record
    whose word is truthy and longer than 3, the candidate is that record
    under the date, tagged [ai]; in every other case (no credential, a null
    result, a word that is empty or of length at most 3) it is the entry of
    the bank at index (year + month + day) mod (size of the bank), tagged
    [curated].  For a word that is a string, longer than 3 is by the number
    of its characters.  For 2025-06-15 and a bank of 30 entries that index is
    2046 mod 30 = 6: with the store reachable, no row for the date and no
    credential, the response is tagged [curated] and carries the word of
    entry 6. *)
Theorem candidate_source
    (fallbackWords : list WordData) (words : list GeneratedWord)
    (env : Env) (date : string) (w : World) :
  is_date_format date = true ->
  words <> [] ->
  exists smartWord,
    words !! slot date (length words) = Some smartWord
    /\ (forall aiWord w1,
          hf env = true ->
          HuggingFaceWordGenerator.generateWord env date w
          = (Returns (Some aiWord), w1) ->
          long_word aiWord = true ->
          WordRoute.generateWordWithSmartBank words env date w
          = (Returns (candidate date aiWord "ai"), w1))
    /\ (forall r w1,
          HuggingFaceWordGenerator.generateWord env date w = (r, w1) ->
          hf env = false \/ r = Returns None \/ r = Throws
          \/ (exists aiWord, r = Returns (Some aiWord) /\ long_word aiWord = false) ->
          WordRoute.generateWordWithSmartBank words env date w
          = (Returns (candidate date smartWord "curated"),
             if hf env then w1 else w))
    /\ (forall aiWord s,
          g_word aiWord = VStr s ->
          long_word aiWord = (3 <? String.length s)%nat)
    /\ (date = "2025-06-15" -> length words = 30%nat ->
        hf env = false -> supabase env = true ->
        store_fault env (length (calls w)) = None ->
        store_fault env (S (length (calls w))) = None ->
        table w !! date = None ->
        slot date (length words) = 6%nat
        /\ exists response w',
             WordRoute.GET fallbackWords words env date w
             = (Returns (Json response), w')
             /\ source response = VStr "curated"
             /\ word response = g_word smartWord).
Proof.
  intros Hdate Hwords.
  destruct (selected_slot words date Hdate Hwords) as (smartWord & Hslot & Hat).
  assert (Hsel : SmartWordBank.getWordForDate words date = Returns smartWord).
  { unfold SmartWordBank.getWordForDate. by rewrite Hat. }
  exists smartWord. split; [done|]. split; [|split; [|split]].
  - intros aiWord w1. apply smart_bank_ai.
  - intros r w1 Hgen Hcase.
    rewrite (smart_bank_curated words env date w r w1 Hgen Hcase). by rewrite Hsel.
  - intros aiWord s Hs. apply long_word_of_string, Hs.
  - intros -> Hlen Hhf Hup Hc Hq Hrow. split; [by rewrite Hlen|].
    destruct (generateWord_returns env "2025-06-15" (log (SelectByDate "2025-06-15") (log SelectCount w)))
      as (aiWord & w1 & Hgen).
    pose proof (smart_bank_curated words env _ _ _ _ Hgen (or_introl Hhf)) as Hcur.
    rewrite Hsel, Hhf in Hcur.
    unfold WordRoute.GET, WordRoute.handle, WordRoute.GET_try.
    rewrite Hdate. cbn [negb]. unfold try_catch, bind.
    rewrite checkConnection_run, Hup, Hc. cbn [negb].
    rewrite getWordByDate_run, Hup, calls_log, Hq. cbn [table log]. rewrite Hrow.
    change {| table := table w; calls := (calls w ++ [SelectCount]) ++ [SelectByDate "2025-06-15"] |}
      with (log (SelectByDate "2025-06-15") (log SelectCount w)).
    rewrite Hcur, saveWord_run, Hup.
    destruct (store_fault env (length (calls (log _ _))));
      unfold ret; cbv zeta; eexists _, _;
      (split; [reflexivity|by split]).
Qed.

Lemma check_ok env w :
  supabase env = true -> store_fault env (length (calls w)) = None ->
  try_catch (WordsDatabase.checkConnection env) (ret false) w
  = (Returns true, log SelectCount w).
Proof.
  intros Hup Hc. apply try_catch_of_returns.
  by rewrite checkConnection_run, Hup, Hc.
Qed.

Lemma query_none env date w :
  supabase env = true -> store_fault env (length (calls w)) = None ->
  table w !! date = None ->
  try_catch (WordsDatabase.getWordByDate env date) (ret None) w
  = (Returns None, log (SelectByDate date) w).
Proof.
  intros Hup Hc Hrow. apply try_catch_of_returns.
  by rewrite getWordByDate_run, Hup, Hc, Hrow.
Qed.

(** C5.  For a date in [YYYY-MM-DD] form, with the store reachable and no
    row for the date, the generation step yields a candidate; whenever the
    save of that candidate returns null or throws, and in particular
    whenever the upsert rejects or reports an error, the handler returns the
    candidate itself, so with the source it was given before the save. *)
Theorem failed_save_returns_candidate
    (fallbackWords : list WordData) (words : list GeneratedWord)
    (env : Env) (date : string) (w : World) :
  is_date_format date = true ->
  supabase env = true ->
  store_fault env (length (calls w)) = None ->
  store_fault env (S (length (calls w))) = None ->
  table w !! date = None ->
  let w2 := log (SelectByDate date) (log SelectCount w) in
  exists newWordData w3,
    try_catch
      (WordRoute.generateWordWithSmartBank words env date)
      (ret (with_source (FallbackWordsSystem.getWordByDate fallbackWords date)
              "generation_error")) w2
    = (Returns newWordData, w3)
    /\ (forall saved w4,
          WordsDatabase.saveWord env newWordData w3 = (saved, w4) ->
          saved = Returns None \/ saved = Throws ->
          WordRoute.GET fallbackWords words env date w
          = (Returns (Json newWordData), w4))
    /\ (store_fault env (length (calls w3)) <> None ->
        WordsDatabase.saveWord env newWordData w3
        = (Returns None, log (Upsert newWordData) w3)).
Proof.
  intros Hdate Hup Hc Hq Hrow w2.
  destruct (try_catch_returns
              (WordRoute.generateWordWithSmartBank words env date)
              (with_source (FallbackWordsSystem.getWordByDate fallbackWords date)
                 "generation_error") w2) as (newWordData & w3 & Hgen).
  exists newWordData, w3. split; [done|]. split.
  - intros saved w4 Hsave Hfail.
    unfold WordRoute.GET, WordRoute.handle, WordRoute.GET_try.
    rewrite Hdate. cbn [negb]. cbv zeta.
    unfold try_catch at 1. unfold bind at 1.
    rewrite (check_ok env w Hup Hc). cbn [negb].
    unfold bind at 1.
    rewrite (query_none env date (log SelectCount w)) by (by rewrite ?calls_log).
    unfold bind at 1. fold w2. rewrite Hgen.
    unfold bind at 1. unfold try_catch. rewrite Hsave.
    by destruct Hfail as [->| ->].
  - intros Hfault. rewrite saveWord_run, Hup.
    by destruct (store_fault env (length (calls w3))).
Qed.

(** C6, as the code has it.  The generator never throws: for every date,
    environment and state it returns, it leaves the table alone, and it
    calls the random-word service at most once and the inference provider
    at most once, in that order.  It returns null without any call when no
    credential is configured; after the one call to the random-word service
    when that service yields no seed, which is so when the fetch rejects,
    the status is not a success, the body is no JSON, or the payload is not
    an array whose first element is a string that is not empty (the
    elements after the first are not looked at); and after the one call to
    the inference provider when that call rejects, the completion holds no
    text, or the text does not parse to a valid record. *)
Theorem generator_never_throws (env : Env) (date : string) (w : World) :
  (exists aiWord w1,
      HuggingFaceWordGenerator.generateWord env date w = (Returns aiWord, w1)
      /\ table w1 = table w
      /\ (w1 = w \/ w1 = log RandomWordApi w
          \/ exists aiPrompt,
               w1 = log (ChatCompletion aiPrompt) (log RandomWordApi w)))
  /\ (hf env = false ->
      HuggingFaceWordGenerator.generateWord env date w = (Returns None, w))
  /\ (hf env = true ->
      seed_of (random_word_api env (length (calls w))) = None ->
      HuggingFaceWordGenerator.generateWord env date w
      = (Returns None, log RandomWordApi w))
  /\ (forall randomWord,
        hf env = true ->
        seed_of (random_word_api env (length (calls w))) = Some randomWord ->
        let aiPrompt := HuggingFaceWordGenerator.aiPrompt randomWord in
        let reply := chat_completion env (S (length (calls w))) aiPrompt in
        content_of reply = None
        \/ (exists content,
              content_of reply = Some content
              /\ HuggingFaceWordGenerator.parseJSONResponse env content = None) ->
        HuggingFaceWordGenerator.generateWord env date w
        = (Returns None, log (ChatCompletion aiPrompt) (log RandomWordApi w)))
  /\ seed_of FetchRejects = None
  /\ (forall json, seed_of (FetchResponds false json) = None)
  /\ seed_of (FetchResponds true None) = None
  /\ (forall data,
        (forall s rest, data <> VArr (VStr s :: rest)) ->
        seed_of (FetchResponds true (Some data)) = None)
  /\ (forall rest, seed_of (FetchResponds true (Some (VArr (VStr "" :: rest)))) = None)
  /\ content_of ChatRejects = None.
Proof.
  split; [|split; [|split; [|split]]].
  - rewrite generateWord_run. destruct (hf env); [|eexists _, _; eauto].
    destruct (seed_of _); eexists _, _; eauto 10.
  - intros Hhf. by rewrite generateWord_run, Hhf.
  - intros Hhf Hseed. by rewrite generateWord_run, Hhf, Hseed.
  - intros randomWord Hhf Hseed aiPrompt reply Hfail.
    rewrite generateWord_run, Hhf, Hseed. cbv zeta. fold aiPrompt reply.
    by destruct Hfail as [->|(content & -> & ->)].
  - repeat split; try done.
    intros data Hdata. cbn.
    destruct data as [| | | | |[|[] rest]|]; try done. by destruct (Hdata s rest).
Qed.

(** ** The response parser *)

Lemma length_append a b :
  String.length (a +:+ b) = (String.length a + String.length b)%nat.
Proof.
  induction a as [|x a IH]; [done|].
  change (String x a +:+ b) with (String x (a +:+ b)). cbn. by rewrite IH.
Qed.

Lemma indexOf_absent x a r :
  absent x a -> Str.indexOf x (a +:+ String x r) = Some (String.length a).
Proof.
  induction a as [|c a IH]; intros Habs.
  - change ("" +:+ String x r) with (String x r).
    cbn [Str.indexOf]. by rewrite Ascii.eqb_refl.
  - destruct Habs as [Hne Habs].
    change (String c a +:+ String x r) with (String c (a +:+ String x r)).
    cbn [Str.indexOf]. rewrite IH by done.
    by replace (Ascii.eqb x c) with false by (symmetry; by apply Ascii.eqb_neq).
Qed.

Lemma lastIndexOf_absent x c : absent x c -> Str.lastIndexOf x c = None.
Proof.
  induction c as [|d c IH]; [done|]. intros [Hne Habs]. cbn [Str.lastIndexOf].
  rewrite IH by done.
  by replace (Ascii.eqb x d) with false by (symmetry; by apply Ascii.eqb_neq).
Qed.

Lemma substring_skip a n r :
  String.substring (String.length a) n (a +:+ r) = String.substring 0 n r.
Proof. induction a as [|c a IH]; [done|]. exact IH. Qed.

Lemma cleanText_between text a b c :
  unfenced (Str.trim text) = a +:+ String "{" (b +:+ String "}" c) ->
  absent "{" a -> absent "}" c ->
  HuggingFaceWordGenerator.cleanText text = String "{" (b +:+ String "}" "").
Proof.
  intros Hu Ha Hc. unfold HuggingFaceWordGenerator.cleanText.
  fold (unfenced (Str.trim text)). rewrite Hu.
  rewrite indexOf_absent by done.
  replace (a +:+ String "{" (b +:+ String "}" c))
    with ((a +:+ String "{" b) +:+ String "}" c)
    by (by rewrite append_assoc).
  rewrite lastIndexOf_closing by (by apply lastIndexOf_absent).
  rewrite length_append. cbn [String.length].
  replace (String.length a <? String.length a + S (String.length b))%nat
    with true by (symmetry; apply Nat.ltb_lt; lia).
  unfold Str.substring. rewrite append_assoc.
  change (String "{" b +:+ String "}" c) with (String "{" (b +:+ String "}" c)).
  rewrite substring_skip.
  replace (String.length a + S (String.length b) + 1 - String.length a)%nat
    with (S (String.length (String "{" b))) by (cbn; lia).
  apply (substring_closing (String "{" b)).
Qed.

Lemma validated_accepts parsed g :
  HuggingFaceWordGenerator.validated parsed = Returns (Some g) <->
  exists fields items,
    parsed = VObj fields
    /\ truthy (assoc "word" fields) = true
    /\ truthy (assoc "definition" fields) = true
    /\ truthy (assoc "translation" fields) = true
    /\ assoc "examples" fields = VArr items
    /\ (2 <= length items)%nat
    /\ g = {| g_word := assoc "word" fields;
              g_phonetic :=
                if truthy (assoc "phonetic" fields) then assoc "phonetic" fields
                else VStr ("/" +:+ ToString (assoc "word" fields) +:+ "/");
              g_definition := assoc "definition" fields;
              g_translation := assoc "translation" fields;
              g_examples := VArr (take 3 items);
              g_level :=
                if truthy (assoc "level" fields) then assoc "level" fields
                else VStr "B2" |}.
Proof.
  unfold HuggingFaceWordGenerator.validated. split.
  - destruct parsed as [| | | | | |fields]; try done. cbn [prop access and_then].
    destruct (truthy (assoc "word" fields)) eqn:Hw; [|done].
    destruct (truthy (assoc "definition" fields)) eqn:Hd; [|done].
    destruct (truthy (assoc "translation" fields)) eqn:Ht; [|done].
    destruct (assoc "examples" fields) as [| | | | |items|] eqn:He;
      cbn [isArray andb]; rewrite ?andb_false_r; try done.
    cbn [truthy isArray andb].
    destruct (2 <=? length items)%nat eqn:Hlen; [|done].
    intros [= <-]. exists fields, items. unfold js_or.
    repeat split; try done. by apply Nat.leb_le.
  - intros (fields & items & -> & Hw & Hd & Ht & He & Hlen & ->).
    cbn [prop access and_then]. rewrite Hw, Hd, Ht, He. cbn [truthy isArray andb].
    by replace (2 <=? length items)%nat with true by (symmetry; by apply Nat.leb_le).
Qed.

Lemma parseJSONResponse_run env text :
  HuggingFaceWordGenerator.parseJSONResponse env text =
  match text with
  | VStr s =>
      match JSON_parse env (HuggingFaceWordGenerator.cleanText s) with
      | Some parsed =>
          match HuggingFaceWordGenerator.validated parsed with
          | Returns r => r
          | Throws => None
          end
      | None => None
      end
  | _ => None
  end.
Proof.
  unfold HuggingFaceWordGenerator.parseJSONResponse.
  destruct text; try done. cbn [and_then].
  destruct (JSON_parse env _) as [parsed|]; [|done]. cbn [access and_then].
  by destruct (HuggingFaceWordGenerator.validated parsed) as [[?|]|].
Qed.

(** C7, as the code has it.  The parser removes the fence markers, keeps
    the text from the first [{] to the last [}] and hands it to
    [JSON.parse], so an object wrapped in a code fence parses as the bare
    object does.  It accepts the parsed value exactly when that is an object
    whose [word], [definition] and [translation] are truthy (for strings:
    not empty) and whose [examples] is an array of at least 2 entries.  The
    record then holds these members, the first 3 examples, [phonetic] or
    [/word/] where [phonetic] is absent or falsy, and [level] or [B2] where
    [level] is absent or falsy: a level that is present is kept as it is,
    whatever it says.  In every other case the result is null, so every
    member of a record that is returned is truthy. *)
Theorem parsed_response (env : Env) :
  (forall mid,
      HuggingFaceWordGenerator.parseJSONResponse env
        (VStr (fenced ("{" +:+ mid +:+ "}")))
      = HuggingFaceWordGenerator.parseJSONResponse env
          (VStr ("{" +:+ mid +:+ "}")))
  /\ (forall text a b c,
        unfenced (Str.trim text) = a +:+ "{" +:+ b +:+ "}" +:+ c ->
        absent "{" a -> absent "}" c ->
        HuggingFaceWordGenerator.cleanText text = "{" +:+ b +:+ "}")
  /\ (forall text g,
        HuggingFaceWordGenerator.parseJSONResponse env text = Some g <->
        exists s fields items,
          text = VStr s
          /\ JSON_parse env (HuggingFaceWordGenerator.cleanText s)
             = Some (VObj fields)
          /\ truthy (assoc "word" fields) = true
          /\ truthy (assoc "definition" fields) = true
          /\ truthy (assoc "translation" fields) = true
          /\ assoc "examples" fields = VArr items
          /\ (2 <= length items)%nat
          /\ g = {| g_word := assoc "word" fields;
                    g_phonetic :=
                      if truthy (assoc "phonetic" fields)
                      then assoc "phonetic" fields
                      else VStr ("/" +:+ ToString (assoc "word" fields) +:+ "/");
                    g_definition := assoc "definition" fields;
                    g_translation := assoc "translation" fields;
                    g_examples := VArr (take 3 items);
                    g_level :=
                      if truthy (assoc "level" fields)
                      then assoc "level" fields
                      else VStr "B2" |})
  /\ (forall text g,
        HuggingFaceWordGenerator.parseJSONResponse env text = Some g ->
        truthy (g_word g) = true /\ truthy (g_phonetic g) = true
        /\ truthy (g_definition g) = true /\ truthy (g_translation g) = true
        /\ truthy (g_level g) = true
        /\ exists kept, g_examples g = VArr kept /\ (2 <= length kept <= 3)%nat)
  /\ (forall s, truthy (VStr s) = true <-> s <> "").
Proof.
  assert (Hchar : forall text g,
    HuggingFaceWordGenerator.parseJSONResponse env text = Some g <->
    exists s fields items,
      text = VStr s
      /\ JSON_parse env (HuggingFaceWordGenerator.cleanText s) = Some (VObj fields)
      /\ truthy (assoc "word" fields) = true
      /\ truthy (assoc "definition" fields) = true
      /\ truthy (assoc "translation" fields) = true
      /\ assoc "examples" fields = VArr items
      /\ (2 <= length items)%nat
      /\ g = {| g_word := assoc "word" fields;
                g_phonetic :=
                  if truthy (assoc "phonetic" fields)
                  then assoc "phonetic" fields
                  else VStr ("/" +:+ ToString (assoc "word" fields) +:+ "/");
                g_definition := assoc "definition" fields;
                g_translation := assoc "translation" fields;
                g_examples := VArr (take 3 items);
                g_level :=
                  if truthy (assoc "level" fields)
                  then assoc "level" fields
                  else VStr "B2" |}).
  { intros text g. rewrite parseJSONResponse_run. split.
    - destruct text as [| | | |s| |]; try done.
      destruct (JSON_parse env _) as [parsed|] eqn:Hparse; [|done].
      destruct (HuggingFaceWordGenerator.validated parsed) as [r|] eqn:Hv; [|done].
      intros ->. apply validated_accepts in Hv
        as (fields & items & -> & Hw & Hd & Ht & He & Hlen & ->).
      by exists s, fields, items.
    - intros (s & fields & items & -> & Hparse & Hw & Hd & Ht & He & Hlen & ->).
      rewrite Hparse.
      assert (Hv : HuggingFaceWordGenerator.validated (VObj fields) = Returns (Some
        {| g_word := assoc "word" fields;
           g_phonetic :=
             if truthy (assoc "phonetic" fields) then assoc "phonetic" fields
             else VStr ("/" +:+ ToString (assoc "word" fields) +:+ "/");
           g_definition := assoc "definition" fields;
           g_translation := assoc "translation" fields;
           g_examples := VArr (take 3 items);
           g_level :=
             if truthy (assoc "level" fields) then assoc "level" fields
             else VStr "B2" |}))
        by (apply validated_accepts; by exists fields, items).
      by rewrite Hv. }
  split; [|split; [|split; [|split]]].
  - intros mid. rewrite !parseJSONResponse_run. unfold fenced.
    change ("{" +:+ mid +:+ "}") with (String "{" (mid +:+ String "}" "")).
    by rewrite (cleanText_fenced mid), cleanText_object.
  - intros text a b c. apply cleanText_between.
  - exact Hchar.
  - intros text g (s & fields & items & -> & _ & Hw & Hd & Ht & He & Hlen & ->)%Hchar.
    cbn [g_word g_phonetic g_definition g_translation g_level g_examples].
    repeat split; try done.
    + by destruct (truthy (assoc "phonetic" fields)) eqn:E.
    + by destruct (truthy (assoc "level" fields)) eqn:E.
    + exists (take 3 items). split; [done|]. rewrite length_take. lia.
  - intros s. cbn. destruct s; cbn; split; done.
Qed.

Lemma date_components date :
  is_date_format date = true ->
  0 <= year date <= 9999 /\ 0 <= month date <= 99 /\ 0 <= day date <= 99.
Proof.
  intros H. unfold is_date_format in H.
  destruct date as [|y1 [|y2 [|y3 [|y4 [|h1 [|m1 [|m2 [|h2 [|d1 [|d2 [|? ?]]]]]]]]]]];
    try done.
  cbn [list_ascii_of_string forallb] in H.
  repeat match goal with
         | E : _ && _ = true |- _ => apply andb_prop in E as [? ?]
         end.
  unfold year, month, day.
  repeat match goal with
         | E : Str.is_digit _ = true |- _ => apply numeral_bounds in E
         end.
  lia.
Qed.

(** C8.  For a date in [YYYY-MM-DD] form and a catalog that is not empty,
    the hash of the date is the sum of its year, month and day, where the
    year is the number written by the first four characters, the month by
    the sixth and seventh and the day by the ninth and tenth; both selectors
    take the entry at index (that sum) mod (size of the catalog), which
    exists.  The selector of the fallback catalog returns a copy of that
    entry with [date] set to the date asked for and every other member
    unchanged.  The selector of the Smart Word Bank returns the entry
    itself, never throwing; the entry has no date, so two dates that give
    the same index give the same result. *)
Theorem selector_is_date_hash
    (fallbackWords : list WordData) (words : list GeneratedWord)
    (date : string) :
  is_date_format date = true ->
  fallbackWords <> [] ->
  words <> [] ->
  dateHash date = Some (year date + month date + day date)
  /\ (0 <= year date <= 9999 /\ 0 <= month date <= 99 /\ 0 <= day date <= 99)
  /\ (exists selectedWord,
        fallbackWords !! slot date (length fallbackWords) = Some selectedWord
        /\ FallbackWordsSystem.getWordByDate fallbackWords date
           = with_date (Some selectedWord) date
        /\ date_of (FallbackWordsSystem.getWordByDate fallbackWords date) = date
        /\ word (FallbackWordsSystem.getWordByDate fallbackWords date)
           = word selectedWord
        /\ phonetic (FallbackWordsSystem.getWordByDate fallbackWords date)
           = phonetic selectedWord
        /\ definition (FallbackWordsSystem.getWordByDate fallbackWords date)
           = definition selectedWord
        /\ translation (FallbackWordsSystem.getWordByDate fallbackWords date)
           = translation selectedWord
        /\ examples (FallbackWordsSystem.getWordByDate fallbackWords date)
           = examples selectedWord
        /\ level (FallbackWordsSystem.getWordByDate fallbackWords date)
           = level selectedWord
        /\ source (FallbackWordsSystem.getWordByDate fallbackWords date)
           = source selectedWord)
  /\ (exists selectedWord,
        words !! slot date (length words) = Some selectedWord
        /\ SmartWordBank.getWordForDate words date = Returns selectedWord)
  /\ (forall date',
        is_date_format date' = true ->
        slot date' (length words) = slot date (length words) ->
        SmartWordBank.getWordForDate words date'
        = SmartWordBank.getWordForDate words date).
Proof.
  intros Hdate Hfallback Hwords.
  split; [by apply dateHash_of_date|].
  split; [by apply date_components|]. split; [|split].
  - destruct (selected_slot fallbackWords date Hdate Hfallback) as (e & He & Hat).
    exists e. unfold FallbackWordsSystem.getWordByDate. by rewrite Hat.
  - destruct (selected_slot words date Hdate Hwords) as (e & He & Hat).
    exists e. unfold SmartWordBank.getWordForDate. by rewrite Hat.
  - intros date' Hdate' Hslot.
    destruct (selected_slot words date Hdate Hwords) as (e & He & Hat).
    destruct (selected_slot words date' Hdate' Hwords) as (e' & He' & Hat').
    unfold SmartWordBank.getWordForDate. rewrite Hat, Hat'.
    rewrite Hslot in He'. congruence.
Qed.

(** ** History and search *)

Lemma all_digits_parse s :
  s <> "" -> forallb Str.is_digit (list_ascii_of_string s) = true ->
  Str.parseInt s = Some (Str.digits 0 s) /\ 0 <= Str.digits 0 s.
Proof.
  intros Hne Hall. split; [|by apply digits_nonneg].
  destruct s as [|c r]; [done|]. cbn in Hall.
  apply andb_prop in Hall as [Hc Hr]. apply parseInt_digits; [done|].
  destruct r as [|x r]; [done|]. cbn in Hr. by apply andb_prop in Hr as [? _].
Qed.

(** C9, as the code has it.  The [days] parameter of the history endpoint
    is read with [parseInt] and capped at 60 from above, and only from
    above: it is 30 when the parameter is absent or empty, it lies in
    [0, 60] when the parameter is a string of decimal digits, a negative
    number stays as it is, and a text that is no number gives [NaN].  The
    endpoint never throws and always answers with a list of word records. *)
Theorem history_days
    (fallbackWords : list WordData) (env : Env) (param : option string)
    (w : World) :
  (param = None \/ param = Some "" -> HistoryRoute.days_of param = Some 30)
  /\ (forall n,
        Str.parseInt (HistoryRoute.days_text param) = Some n ->
        HistoryRoute.days_of param = Some (Z.min n 60) /\ Z.min n 60 <= 60)
  /\ (Str.parseInt (HistoryRoute.days_text param) = None ->
      HistoryRoute.days_of param = None)
  /\ (forall s,
        param = Some s -> s <> "" ->
        forallb Str.is_digit (list_ascii_of_string s) = true ->
        exists n, HistoryRoute.days_of param = Some n /\ 0 <= n <= 60)
  /\ (forall s n,
        param = Some s -> Str.parseInt s = Some n -> n < 0 ->
        HistoryRoute.days_of param = Some n)
  /\ (exists words w',
        HistoryRoute.GET fallbackWords env param w = (Returns (JsonList words), w')).
Proof.
  split; [|split; [|split; [|split; [|split]]]].
  - by intros [-> | ->].
  - intros n Hn. unfold HistoryRoute.days_of. rewrite Hn. cbn. split; [done|lia].
  - intros Hn. unfold HistoryRoute.days_of. by rewrite Hn.
  - intros s -> Hne Hall.
    destruct (all_digits_parse s Hne Hall) as [Hparse Hpos].
    unfold HistoryRoute.days_of, HistoryRoute.days_text.
    destruct (String.eqb_spec s ""); [done|]. rewrite Hparse. cbn.
    eexists. split; [done|lia].
  - intros s n -> Hparse Hneg.
    unfold HistoryRoute.days_of, HistoryRoute.days_text.
    destruct (String.eqb_spec s "") as [->|]; [done|]. rewrite Hparse. cbn.
    f_equal. lia.
  - unfold HistoryRoute.GET, try_catch, bind. rewrite checkConnection_run.
    destruct (supabase env); [|by eexists _, _].
    destruct (store_fault env (length (calls w))); cbn [negb]; [by eexists _, _|].
    destruct (getRecentWords_returns env (HistoryRoute.days_of param) (log SelectCount w))
      as (l & w' & ->).
    destruct (0 <? length l)%nat; by eexists _, _.
Qed.

Lemma searchWords_textual fallbackWords query :
  Forall textual fallbackWords ->
  FallbackWordsSystem.searchWords fallbackWords query
  = Returns (List.filter (matches query) fallbackWords).
Proof.
  unfold FallbackWordsSystem.searchWords.
  induction 1 as [|e rest (Hw & Hd & Ht) _ IH]; [done|].
  cbn [filter_with List.filter]. rewrite IH. unfold matches.
  destruct (word e); try done. destruct (definition e); try done.
  destruct (translation e); try done. cbn [toLowerCase and_then text_of].
  destruct (Str.includes _ (Str.toLowerCase s)); [done|].
  destruct (Str.includes _ (Str.toLowerCase s0)); [done|]. cbn [orb and_then].
  by destruct (Str.includes _ (Str.toLowerCase s1)).
Qed.

Lemma fallbackWords_textual : Forall textual FallbackWordsSystem.fallbackWords.
Proof. repeat constructor. Qed.

(** C10, as the code has it.  For a query whose trimmed text has at least 2
    characters, when the store is reachable and the search of the table for
    the trimmed query returns no row, the search endpoint answers with the
    entries of the fallback catalog that match the trimmed query: those
    whose word, definition or translation holds it, letter case apart.  So
    it can answer with records that were never stored. *)
Theorem empty_search_falls_back
    (fallbackWords : list WordData) (env : Env) (query : string)
    (w w1 w2 : World) :
  Forall textual fallbackWords ->
  (2 <= String.length (Str.trim query))%nat ->
  WordsDatabase.checkConnection env w = (Returns true, w1) ->
  WordsDatabase.searchWords env (Str.trim query) w1 = (Returns [], w2) ->
  SearchRoute.GET fallbackWords env (Some query) w
  = (Returns (JsonList (List.filter (matches (Str.trim query)) fallbackWords)), w2).
Proof.
  intros Htext Hlen Hcheck Hsearch. unfold SearchRoute.GET.
  assert (Hne : String.eqb query "" = false).
  { destruct (String.eqb_spec query "") as [->|]; [|done]. cbn in Hlen. lia. }
  rewrite Hne. cbn [orb].
  replace (String.length (Str.trim query) <? 2)%nat with false
    by (symmetry; apply Nat.ltb_ge; lia).
  unfold try_catch, bind. rewrite Hcheck. cbn [negb]. rewrite Hsearch.
  cbn [length Nat.ltb Nat.leb]. unfold lift, ret.
  by rewrite searchWords_textual.
Qed.

(** ** The properties at concrete inputs *)

Lemma word_for_date_never_throws_witness :
  (exists r,
     WordRoute.handle SmartWordBank.words throw "2025-06-15" Sample.w0
     = (Returns (Json r), Sample.w0)
     /\ date_of r = "2025-06-15"
     /\ source r = VStr "emergency"
     /\ word r = VStr "substantial")
  /\ (exists r,
        WordRoute.handle [] throw "2025-06-15" Sample.w0
        = (Returns (Json r), Sample.w0)
        /\ source r = VStr "hardcoded"
        /\ word r = VStr "resilient").
Proof.
  split.
  - destruct (word_for_date_never_throws FallbackWordsSystem.fallbackWords
                SmartWordBank.words Sample.env "2025-06-15" Sample.w0)
      as (_ & Hcatch & _).
    destruct (Hcatch throw Sample.w0 eq_refl) as (r & Hr & Hdate & Hsel & _).
    exists r. split; [exact Hr|]. split; [exact Hdate|].
    destruct (Hsel _ eq_refl) as (Hs & Hw & _). split; [exact Hs | exact Hw].
  - destruct (word_for_date_never_throws FallbackWordsSystem.fallbackWords
                [] Sample.env "2025-06-15" Sample.w0)
      as (_ & Hcatch & _).
    destruct (Hcatch throw Sample.w0 eq_refl) as (r & Hr & _ & _ & Hhard).
    exists r. split; [exact Hr|].
    destruct (Hhard eq_refl) as (Hs & Hw & _). split; [exact Hs | exact Hw].
Defined.

Lemma disconnected_store_skips_generation_witness :
  is_date_format "2025-06-15" = true
  /\ (supabase Sample.offline = false
      \/ store_fault Sample.offline (length (calls Sample.w0)) <> None)
  /\ WordRoute.GET FallbackWordsSystem.fallbackWords SmartWordBank.words
       Sample.offline "2025-06-15" Sample.w0
     = (Returns (Json (with_source
                         (FallbackWordsSystem.getWordByDate
                            FallbackWordsSystem.fallbackWords "2025-06-15")
                         "database_unavailable")), Sample.w0).
Proof.
  split; [reflexivity|]. split; [left; reflexivity|].
  apply (disconnected_store_skips_generation FallbackWordsSystem.fallbackWords
           SmartWordBank.words Sample.offline "2025-06-15" Sample.w0);
    [reflexivity | left; reflexivity].
Defined.

Lemma stored_word_is_returned_witness :
  is_date_format "2025-06-15" = true
  /\ supabase Sample.env = true
  /\ table Sample.w1 !! "2025-06-15" = Some Sample.row
  /\ WordRoute.GET FallbackWordsSystem.fallbackWords SmartWordBank.words
       Sample.env "2025-06-15" Sample.w1
     = (Returns (Json Sample.row),
        log (SelectByDate "2025-06-15") (log SelectCount Sample.w1)).
Proof.
  split; [reflexivity|]. split; [reflexivity|]. split; [by vm_compute|].
  apply (stored_word_is_returned FallbackWordsSystem.fallbackWords
           SmartWordBank.words Sample.env "2025-06-15" Sample.row Sample.w1);
    [reflexivity | reflexivity | intros; reflexivity | by vm_compute].
Defined.

Lemma candidate_source_witness :
  is_date_format "2025-06-15" = true
  /\ Sample.catalog30 <> []
  /\ exists smartWord,
       Sample.catalog30 !! slot "2025-06-15" (length Sample.catalog30)
       = Some smartWord.
Proof.
  split; [reflexivity|]. split; [by vm_compute|].
  destruct (candidate_source FallbackWordsSystem.fallbackWords Sample.catalog30
              Sample.no_credential "2025-06-15" Sample.w0)
    as (smartWord & Hslot & _); [reflexivity | by vm_compute |].
  by exists smartWord.
Defined.

Lemma failed_save_returns_candidate_witness :
  is_date_format "2025-06-15" = true
  /\ supabase Sample.failing = true
  /\ store_fault Sample.failing (length (calls Sample.w0)) = None
  /\ store_fault Sample.failing (S (length (calls Sample.w0))) = None
  /\ table Sample.w0 !! "2025-06-15" = None
  /\ exists newWordData w3,
       try_catch
         (WordRoute.generateWordWithSmartBank SmartWordBank.words
            Sample.failing "2025-06-15")
         (ret (with_source
                 (FallbackWordsSystem.getWordByDate
                    FallbackWordsSystem.fallbackWords "2025-06-15")
                 "generation_error"))
         (log (SelectByDate "2025-06-15") (log SelectCount Sample.w0))
       = (Returns newWordData, w3).
Proof.
  repeat (split; [reflexivity|]).
  destruct (failed_save_returns_candidate FallbackWordsSystem.fallbackWords
              SmartWordBank.words Sample.failing "2025-06-15" Sample.w0)
    as (newWordData & w3 & Hgen & _); try reflexivity.
  by exists newWordData, w3.
Defined.

Lemma generator_never_throws_witness :
  HuggingFaceWordGenerator.generateWord Sample.no_credential "2025-06-15"
    Sample.w0 = (Returns None, Sample.w0).
Proof.
  apply (generator_never_throws Sample.no_credential "2025-06-15" Sample.w0).
  reflexivity.
Defined.

Lemma parsed_response_witness :
  HuggingFaceWordGenerator.parseJSONResponse Sample.env
    (VStr (fenced Sample.answer))
  = HuggingFaceWordGenerator.parseJSONResponse Sample.env (VStr Sample.answer).
Proof.
  exact (proj1 (parsed_response Sample.env) Sample.answer_members).
Defined.

Lemma selector_is_date_hash_witness :
  is_date_format "2025-06-15" = true
  /\ FallbackWordsSystem.fallbackWords <> []
  /\ SmartWordBank.words <> []
  /\ dateHash "2025-06-15" = Some 2046
  /\ slot "2025-06-15" (length FallbackWordsSystem.fallbackWords) = 6%nat
  /\ slot "2025-06-15" (length SmartWordBank.words) = 2%nat
  /\ word (FallbackWordsSystem.getWordByDate FallbackWordsSystem.fallbackWords
             "2025-06-15") = VStr "ephemeral"
  /\ date_of (FallbackWordsSystem.getWordByDate FallbackWordsSystem.fallbackWords
                "2025-06-15") = "2025-06-15"
  /\ (exists selectedWord,
        SmartWordBank.getWordForDate SmartWordBank.words "2025-06-15"
        = Returns selectedWord
        /\ g_word selectedWord = VStr "substantial").
Proof.
  assert (Hf : FallbackWordsSystem.fallbackWords <> []) by done.
  assert (Hw : SmartWordBank.words <> []) by done.
  destruct (selector_is_date_hash FallbackWordsSystem.fallbackWords
              SmartWordBank.words "2025-06-15" eq_refl Hf Hw)
    as (Hhash & _ & (e & He & _ & Hdate & Hword & _) & (g & Hg & Hsel) & _).
  split; [reflexivity|]. split; [exact Hf|]. split; [exact Hw|].
  split; [exact Hhash|]. split; [reflexivity|]. split; [reflexivity|].
  split; [|split; [exact Hdate|]].
  - rewrite Hword. vm_compute in He. by injection He as <-.
  - exists g. split; [exact Hsel|]. vm_compute in Hg. by injection Hg as <-.
Defined.

Lemma history_days_witness :
  HistoryRoute.days_of (Some "7") = Some (Z.min 7 60) /\ Z.min 7 60 <= 60.
Proof.
  apply (history_days FallbackWordsSystem.fallbackWords Sample.env (Some "7")
           Sample.w0).
  reflexivity.
Defined.

Lemma empty_search_falls_back_witness :
  Forall textual FallbackWordsSystem.fallbackWords
  /\ (2 <= String.length (Str.trim " Eloq "))%nat
  /\ WordsDatabase.checkConnection Sample.env Sample.w0
     = (Returns true, log SelectCount Sample.w0)
  /\ WordsDatabase.searchWords Sample.env (Str.trim " Eloq ")
       (log SelectCount Sample.w0)
     = (Returns [], log (SearchRows "Eloq") (log SelectCount Sample.w0))
  /\ SearchRoute.GET FallbackWordsSystem.fallbackWords Sample.env
       (Some " Eloq ") Sample.w0
     = (Returns (JsonList
                   (List.filter (matches (Str.trim " Eloq "))
                      FallbackWordsSystem.fallbackWords)),
        log (SearchRows "Eloq") (log SelectCount Sample.w0)).
Proof.
  split; [repeat constructor|]. split; [vm_compute; repeat constructor|].
  split; [reflexivity|]. split; [reflexivity|].
  apply (empty_search_falls_back FallbackWordsSystem.fallbackWords Sample.env
           " Eloq " Sample.w0 (log SelectCount Sample.w0));
    [repeat constructor | vm_compute; repeat constructor
     | reflexivity | reflexivity].
Defined.

(** ** Where the design document and the code part *)

(** C1.  In the older version of the handler, when the selection inside the
    top-level [catch] throws, the record answered is the literal one of the
    word "resilient" with [source] set to [emergency]; it is not tagged
    [hardcoded]. *)
Lemma word_for_date_never_throws_counterexample :
  exists r,
    LegacyRoute.GET_catch_on Throws "2025-06-15" Sample.w0
    = (Returns (Json r), Sample.w0)
    /\ word r = VStr "resilient"
    /\ source r = VStr "emergency"
    /\ source r <> VStr "hardcoded".
Proof. eexists. by repeat split. Qed.

(** C4.  With the store reachable and empty, no credential and a bank of
    thirty entries, the word for 2025-06-15 is the word of entry 6
    (2046 mod 30), which is not that of entry 16. *)
Lemma candidate_source_counterexample :
  length Sample.catalog30 = 30%nat
  /\ exists response w',
       WordRoute.GET FallbackWordsSystem.fallbackWords Sample.catalog30
         Sample.no_credential "2025-06-15" Sample.w0
       = (Returns (Json response), w')
       /\ source response = VStr "curated"
       /\ word response = VStr "word6"
       /\ g_word <$> Sample.catalog30 !! 6%nat = Some (VStr "word6")
       /\ g_word <$> Sample.catalog30 !! 16%nat = Some (VStr "word16")
       /\ g_word <$> Sample.catalog30 !! 16%nat <> Some (word response).
Proof.
  split; [reflexivity|]. eexists _, _.
  split; [vm_compute; reflexivity|]. by vm_compute.
Qed.

(** C6.  The payload [["Lucid", 5]] of the random-word service is not an
    array of strings, and the generator does not return null: it goes on
    with the first element and returns the record of the word. *)
Lemma generator_never_throws_counterexample :
  random_word_api Sample.env (length (calls Sample.w0))
  = FetchResponds true (Some (VArr [VStr "Lucid"; VNum 5]))
  /\ forallb is_string [VStr "Lucid"; VNum 5] = false
  /\ exists aiWord w',
       HuggingFaceWordGenerator.generateWord Sample.env "2025-06-15" Sample.w0
       = (Returns (Some aiWord), w')
       /\ g_word aiWord = VStr "lucid"
       /\ calls w'
          = [RandomWordApi;
             ChatCompletion (HuggingFaceWordGenerator.aiPrompt "lucid")].
Proof.
  split; [reflexivity|]. split; [reflexivity|]. eexists _, _.
  split; [vm_compute; reflexivity|]. by vm_compute.
Qed.

(** C7.  An answer whose level is [X9], which is none of the proficiency
    levels, is accepted with that level: it is not replaced by [B2]. *)
Lemma parsed_response_counterexample :
  JSON_parse Sample.env Sample.answer = Some Sample.answer_value
  /\ assoc "level" [("level", VStr "X9")] = VStr "X9"
  /\ exists aiWord,
       HuggingFaceWordGenerator.parseJSONResponse Sample.env (VStr Sample.answer)
       = Some aiWord
       /\ g_level aiWord = VStr "X9"
       /\ g_level aiWord <> VStr "B2".
Proof.
  split; [reflexivity|]. split; [reflexivity|]. eexists.
  split; [vm_compute; reflexivity|]. by vm_compute.
Qed.

(** C8.  The dates 2025-06-15 and 2025-07-14 both sum to 2046.  For both
    the selector of the Smart Word Bank returns entry 2 of the bank as it
    is: the result carries no date and is the same for the two dates, while
    the records that the selector of the fallback catalog returns differ in
    their date. *)
Lemma selector_is_date_hash_counterexample :
  "2025-06-15" <> "2025-07-14"
  /\ is_date_format "2025-06-15" = true
  /\ is_date_format "2025-07-14" = true
  /\ (exists selectedWord,
        SmartWordBank.words !! 2%nat = Some selectedWord
        /\ SmartWordBank.getWordForDate SmartWordBank.words "2025-06-15"
           = Returns selectedWord
        /\ SmartWordBank.getWordForDate SmartWordBank.words "2025-07-14"
           = Returns selectedWord)
  /\ date_of (FallbackWordsSystem.getWordByDate FallbackWordsSystem.fallbackWords
                "2025-06-15")
     <> date_of (FallbackWordsSystem.getWordByDate
                   FallbackWordsSystem.fallbackWords "2025-07-14").
Proof.
  split; [done|]. split; [reflexivity|]. split; [reflexivity|]. split.
  - eexists. split; [reflexivity|]. split; reflexivity.
  - by vm_compute.
Qed.

(** C9.  [days=-5] is not brought up to 0: the table is asked for [-5]
    rows, and with the store not configured the answer is the fallback
    catalog without its last 5 entries. *)
Lemma history_days_counterexample :
  HistoryRoute.days_of (Some "-5") = Some (-5)
  /\ ~ (0 <= -5 <= 60)
  /\ calls (snd (HistoryRoute.GET FallbackWordsSystem.fallbackWords Sample.env
                   (Some "-5") Sample.w0))
     = [SelectCount; SelectRecent (Some (-5))]
  /\ exists words,
       HistoryRoute.GET FallbackWordsSystem.fallbackWords Sample.offline
         (Some "-5") Sample.w0
       = (Returns (JsonList words), Sample.w0)
       /\ length words = 7%nat.
Proof.
  split; [reflexivity|]. split; [lia|]. split; [reflexivity|]. eexists.
  split; [vm_compute; reflexivity|]. reflexivity.
Qed.

(** C10.  The query ["a "] has length 2, the store is reachable and its
    search returns no row, and the endpoint answers 400, not the matches of
    the fallback catalog. *)
Lemma empty_search_falls_back_counterexample :
  String.length "a " = 2%nat
  /\ WordsDatabase.checkConnection Sample.env Sample.w0
     = (Returns true, log SelectCount Sample.w0)
  /\ (forall query,
        store_search Sample.env (table Sample.w0) query = Some [])
  /\ SearchRoute.GET FallbackWordsSystem.fallbackWords Sample.env (Some "a ")
       Sample.w0
     = (Returns (BadRequest "Query must be at least 2 characters long"),
        Sample.w0).
Proof. repeat split; reflexivity. Qed.

(** * Further properties *)

(** ** The gateway *)

Lemma getRecentWords_run env limit w :
  WordsDatabase.getRecentWords env limit w =
  if supabase env then
    (Returns (match store_fault env (length (calls w)) with
              | None => default [] (store_recent env (table w) limit)
              | Some _ => []
              end), log (SelectRecent limit) w)
  else (Returns [], w).
Proof.
  unfold WordsDatabase.getRecentWords.
  destruct (supabase env); [|done]. cbn [negb].
  unfold try_catch, bind, Supabase.select_recent, Supabase.answer, call, rows,
    ret, throw, log.
  cbn. destruct (store_fault env (length (calls w))) as [[|code]|]; cbn; try done.
  by repeat case_match.
Qed.

(** X1.  No operation of the gateway throws.  Without a client each one
    returns its neutral value ([false], [null], [null], [[]], [[]]) and
    makes no call.  With a client each one makes exactly one call, and when
    that call rejects or reports an error, whatever its code, the result is
    the same neutral value.  Only a save that succeeds changes the table. *)
Theorem gateway_never_throws
    (env : Env) (date query : string) (limit : number) (wordData : WordData)
    (w : World) :
  (exists b w', WordsDatabase.checkConnection env w = (Returns b, w')
      /\ table w' = table w
      /\ (supabase env = false -> b = false /\ w' = w)
      /\ (supabase env = true -> w' = log SelectCount w)
      /\ (store_fault env (length (calls w)) <> None -> b = false))
  /\ (exists r w', WordsDatabase.getWordByDate env date w = (Returns r, w')
      /\ table w' = table w
      /\ (supabase env = false -> r = None /\ w' = w)
      /\ (supabase env = true -> w' = log (SelectByDate date) w)
      /\ (store_fault env (length (calls w)) <> None -> r = None))
  /\ (exists r w', WordsDatabase.saveWord env wordData w = (Returns r, w')
      /\ (r = None -> table w' = table w)
      /\ (supabase env = false -> r = None /\ w' = w)
      /\ (supabase env = true -> calls w' = calls (log (Upsert wordData) w))
      /\ (store_fault env (length (calls w)) <> None -> r = None))
  /\ (exists r w', WordsDatabase.getRecentWords env limit w = (Returns r, w')
      /\ table w' = table w
      /\ (supabase env = false -> r = [] /\ w' = w)
      /\ (supabase env = true -> w' = log (SelectRecent limit) w)
      /\ (store_fault env (length (calls w)) <> None -> r = []))
  /\ (exists r w', WordsDatabase.searchWords env query w = (Returns r, w')
      /\ table w' = table w
      /\ (supabase env = false -> r = [] /\ w' = w)
      /\ (supabase env = true -> w' = log (SearchRows query) w)
      /\ (store_fault env (length (calls w)) <> None -> r = [])).
Proof.
  rewrite checkConnection_run, getWordByDate_run, saveWord_run,
    getRecentWords_run, searchWords_run.
  destruct (supabase env), (store_fault env (length (calls w))) as [f|];
    repeat split; eexists _, _; repeat split; intros; try done;
    cbv zeta in *; try congruence.
Qed.

(** X2.  Insert and look up: with the store reachable, a save that meets
    no fault returns a row, and the next query for the date of that row
    returns the very same row.  The row carries the date, word and source
    that were sent, and the rows of all other dates are as before. *)
Theorem saved_word_is_found (env : Env) (wordData : WordData) (w : World) :
  supabase env = true ->
  store_fault env (length (calls w)) = None ->
  store_fault env (S (length (calls w))) = None ->
  exists row w1 w2,
    WordsDatabase.saveWord env wordData w = (Returns (Some row), w1)
    /\ WordsDatabase.getWordByDate env (date wordData) w1 = (Returns (Some row), w2)
    /\ date row = date wordData /\ word row = word wordData
    /\ source row = source wordData
    /\ (forall d, d <> date wordData -> table w2 !! d = table w !! d).
Proof.
  intros Hup Hsave Hget. rewrite saveWord_run, Hup, Hsave. cbv zeta.
  eexists _, _, _. split; [reflexivity|].
  rewrite getWordByDate_run, Hup. cbn [calls table].
  rewrite length_app. cbn [length]. rewrite Nat.add_1_r, Hget.
  rewrite lookup_insert_eq. repeat split.
  intros d Hd. cbn [log table]. by rewrite lookup_insert_ne.
Qed.

(** ** The handlers of a word for a date, step by step *)

Lemma smart_bank_run words env date w :
  exists aiWord w1,
    HuggingFaceWordGenerator.generateWord env date w = (Returns aiWord, w1)
    /\ WordRoute.generateWordWithSmartBank words env date w
       = match aiWord with
         | Some a =>
             if hf env && long_word a
             then (Returns (candidate date a "ai"), w1)
             else (match SmartWordBank.getWordForDate words date with
                   | Returns smartWord => Returns (candidate date smartWord "curated")
                   | Throws => Throws
                   end, if hf env then w1 else w)
         | None =>
             (match SmartWordBank.getWordForDate words date with
              | Returns smartWord => Returns (candidate date smartWord "curated")
              | Throws => Throws
              end, if hf env then w1 else w)
         end.
Proof.
  destruct (generateWord_returns env date w) as (aiWord & w1 & Hgen).
  exists aiWord, w1. split; [done|].
  destruct aiWord as [a|].
  - destruct (hf env) eqn:Hhf; cbn [andb].
    + destruct (long_word a) eqn:Hlong.
      * by apply smart_bank_ai.
      * rewrite (smart_bank_curated words env date w _ w1 Hgen), Hhf; [done|].
        right; right; right. by exists a.
    + rewrite (smart_bank_curated words env date w _ w1 Hgen), Hhf; [done|by left].
  - rewrite (smart_bank_curated words env date w _ w1 Hgen); [done|].
    right. by left.
Qed.

Lemma generateWord_trace env date w aiWord w1 :
  HuggingFaceWordGenerator.generateWord env date w = (Returns aiWord, w1) ->
  table w1 = table w
  /\ (hf env = false -> w1 = w)
  /\ (w1 = w \/ w1 = log RandomWordApi w
      \/ exists aiPrompt, w1 = log (ChatCompletion aiPrompt) (log RandomWordApi w)).
Proof.
  rewrite generateWord_run. destruct (hf env).
  - destruct (seed_of _); intros [= <- <-]; repeat split; try done; eauto.
  - intros [= <- <-]. repeat split; eauto.
Qed.

(** The generation step of the handler on the Smart Word Bank. *)
Lemma generation_step fallbackWords words env date w :
  exists newWordData w',
    try_catch
      (WordRoute.generateWordWithSmartBank words env date)
      (ret (with_source (FallbackWordsSystem.getWordByDate fallbackWords date)
              "generation_error")) w
    = (Returns newWordData, w')
    /\ date_of newWordData = date
    /\ table w' = table w
    /\ (w' = w \/ w' = log RandomWordApi w
        \/ exists aiPrompt, w' = log (ChatCompletion aiPrompt) (log RandomWordApi w))
    /\ ((exists aiWord,
           HuggingFaceWordGenerator.generateWord env date w = (Returns (Some aiWord), w')
           /\ hf env = true /\ long_word aiWord = true
           /\ newWordData = candidate date aiWord "ai")
        \/ (exists smartWord,
              SmartWordBank.getWordForDate words date = Returns smartWord
              /\ newWordData = candidate date smartWord "curated")
        \/ (SmartWordBank.getWordForDate words date = Throws
            /\ newWordData
               = with_source (FallbackWordsSystem.getWordByDate fallbackWords date)
                   "generation_error")).
Proof.
  destruct (smart_bank_run words env date w) as (aiWord & w1 & Hgen & Hrun).
  destruct (generateWord_trace env date w aiWord w1 Hgen) as (Htab & Hoff & Hlog).
  assert (Hw : (if hf env then w1 else w) = w1)
    by (destruct (hf env) eqn:E; [done | by rewrite Hoff]).
  unfold try_catch. rewrite Hrun.
  assert (Hcur :
    exists newWordData,
      (let (r, w'0) :=
         (match SmartWordBank.getWordForDate words date with
          | Returns smartWord => Returns (candidate date smartWord "curated")
          | Throws => Throws
          end, if hf env then w1 else w) in
       match r with
       | Returns a => (Returns a, w'0)
       | Throws =>
           ret (with_source (FallbackWordsSystem.getWordByDate fallbackWords date)
                  "generation_error") w'0
       end) = (Returns newWordData, w1)
      /\ date_of newWordData = date
      /\ ((exists smartWord,
             SmartWordBank.getWordForDate words date = Returns smartWord
             /\ newWordData = candidate date smartWord "curated")
          \/ (SmartWordBank.getWordForDate words date = Throws
              /\ newWordData
                 = with_source (FallbackWordsSystem.getWordByDate fallbackWords date)
                     "generation_error"))).
  { rewrite Hw. destruct (SmartWordBank.getWordForDate words date) as [smartWord|].
    - eexists. split; [done|]. split; [done|]. left. by eexists.
    - eexists. split; [done|]. split; [apply date_with_source|]. by right. }
  destruct aiWord as [a|].
  - destruct (hf env && long_word a) eqn:E.
    + apply andb_prop in E as [Hhf Hlong].
      eexists _, _. split; [done|]. repeat split; try done.
      left. by exists a.
    + destruct Hcur as (c & Heq & Hdate & Hsrc).
      exists c, w1. repeat split; try done. by right.
  - destruct Hcur as (c & Heq & Hdate & Hsrc).
    exists c, w1. repeat split; try done. by right.
Qed.

(** The handler on the Smart Word Bank, for a date in [YYYY-MM-DD] form. *)
Lemma GET_run fallbackWords words env date w :
  is_date_format date = true ->
  let unavailable :=
    with_source (FallbackWordsSystem.getWordByDate fallbackWords date)
      "database_unavailable" in
  let w2 := log (SelectByDate date) (log SelectCount w) in
  forall newWordData w3,
    try_catch
      (WordRoute.generateWordWithSmartBank words env date)
      (ret (with_source (FallbackWordsSystem.getWordByDate fallbackWords date)
              "generation_error")) w2
    = (Returns newWordData, w3) ->
    WordRoute.GET fallbackWords words env date w =
    if supabase env then
      match store_fault env (length (calls w)) with
      | Some _ => (Returns (Json unavailable), log SelectCount w)
      | None =>
          match match store_fault env (S (length (calls w))) with
                | None => table w !! date
                | Some _ => None
                end with
          | Some existingWord => (Returns (Json existingWord), w2)
          | None =>
              match store_fault env (length (calls w3)) with
              | None =>
                  let row := Supabase.stored env (length (calls w3))
                               (table w3 !! date_of newWordData) newWordData in
                  (Returns (Json row),
                   {| table := <[date_of newWordData := row]> (table w3);
                      calls := (calls w3 ++ [Upsert newWordData])%list |})
              | Some _ => (Returns (Json newWordData), log (Upsert newWordData) w3)
              end
          end
      end
    else (Returns (Json unavailable), w).
Proof.
  intros Hdate unavailable w2 newWordData w3 Hgen.
  unfold WordRoute.GET, WordRoute.handle, WordRoute.GET_try.
  rewrite Hdate. cbn [negb]. cbv zeta.
  unfold try_catch at 1. unfold bind at 1. unfold try_catch at 1.
  rewrite checkConnection_run. destruct (supabase env) eqn:Hup; [|done].
  destruct (store_fault env (length (calls w))) as [f|] eqn:Hc; [done|].
  cbn [negb]. unfold bind at 1. unfold try_catch at 1.
  rewrite getWordByDate_run, Hup, calls_log. fold w2.
  destruct (match store_fault env (S (length (calls w))) with
            | None => table (log SelectCount w) !! date
            | Some _ => None
            end) as [existingWord|] eqn:Hq.
  - cbn [log table] in Hq. rewrite Hq. done.
  - cbn [log table] in Hq. rewrite Hq.
    unfold bind at 1. rewrite Hgen. unfold bind at 1. unfold try_catch.
    rewrite saveWord_run, Hup.
    by destruct (store_fault env (length (calls w3))).
Qed.

Lemma ai_calls_same w w' : calls w' = calls w -> ai_calls w' = ai_calls w.
Proof. unfold ai_calls. by intros ->. Qed.

Lemma legacy_generator_run fallbackWords env date w :
  LegacyRoute.generateWordWithHuggingFace fallbackWords env date w
  = (Returns (with_source (FallbackWordsSystem.getWordByDate fallbackWords date)
                "ai_fallback"),
     if hf env then log InferenceApi w else w).
Proof.
  unfold LegacyRoute.generateWordWithHuggingFace.
  destruct (hf env); [|done]. cbn [negb].
  unfold try_catch, bind, call, ret, throw, lift, log. cbn.
  destruct (inference_api env (length (calls w))) as [|[|] [json|]]; done.
Qed.

(** X3.  The older generator always answers with the entry of the fallback
    catalog for the date, tagged [ai_fallback]: without a credential, when
    the inference API rejects, answers with a failure status, answers with
    a body that is no JSON, and also when it answers well, since the answer
    is never used.  It never throws, leaves the table alone, and calls the
    inference API once when a credential is configured and not at all
    otherwise. *)
Theorem legacy_generator_always_falls_back
    (fallbackWords : list WordData) (env : Env) (date : string) (w : World) :
  exists w',
    LegacyRoute.generateWordWithHuggingFace fallbackWords env date w
    = (Returns (with_source (FallbackWordsSystem.getWordByDate fallbackWords date)
                  "ai_fallback"), w')
    /\ table w' = table w
    /\ (hf env = false -> w' = w)
    /\ (hf env = true -> w' = log InferenceApi w).
Proof.
  rewrite legacy_generator_run. eexists. split; [done|].
  by destruct (hf env).
Qed.

Lemma legacy_GET_run fallbackWords env date w :
  is_date_format date = true ->
  let unavailable :=
    with_source (FallbackWordsSystem.getWordByDate fallbackWords date)
      "database_unavailable" in
  let newWordData :=
    with_source (FallbackWordsSystem.getWordByDate fallbackWords date)
      "ai_fallback" in
  let w2 := log (SelectByDate date) (log SelectCount w) in
  let w3 := if hf env then log InferenceApi w2 else w2 in
  LegacyRoute.GET fallbackWords env date w =
  if supabase env then
    match store_fault env (length (calls w)) with
    | Some _ => (Returns (Json unavailable), log SelectCount w)
    | None =>
        match match store_fault env (S (length (calls w))) with
              | None => table w !! date
              | Some _ => None
              end with
        | Some existingWord => (Returns (Json existingWord), w2)
        | None =>
            match store_fault env (length (calls w3)) with
            | None =>
                let row := Supabase.stored env (length (calls w3))
                             (table w3 !! date_of newWordData) newWordData in
                (Returns (Json row),
                 {| table := <[date_of newWordData := row]> (table w3);
                    calls := (calls w3 ++ [Upsert newWordData])%list |})
            | Some _ => (Returns (Json newWordData), log (Upsert newWordData) w3)
            end
        end
    end
  else (Returns (Json unavailable), w).
Proof.
  intros Hdate unavailable newWordData w2 w3.
  unfold LegacyRoute.GET, LegacyRoute.handle, LegacyRoute.GET_try.
  rewrite Hdate. cbn [negb]. cbv zeta.
  unfold try_catch at 1. unfold bind at 1. unfold try_catch at 1.
  rewrite checkConnection_run. destruct (supabase env) eqn:Hup; [|done].
  destruct (store_fault env (length (calls w))) as [f|] eqn:Hc; [done|].
  cbn [negb]. unfold bind at 1. unfold try_catch at 1.
  rewrite getWordByDate_run, Hup, calls_log. fold w2.
  destruct (match store_fault env (S (length (calls w))) with
            | None => table (log SelectCount w) !! date
            | Some _ => None
            end) as [existingWord|] eqn:Hq.
  - cbn [log table] in Hq. by rewrite Hq.
  - cbn [log table] in Hq. rewrite Hq.
    unfold bind at 1. unfold try_catch at 1.
    rewrite legacy_generator_run. fold w3 newWordData.
    unfold bind at 1. unfold try_catch.
    rewrite saveWord_run, Hup.
    by destruct (store_fault env (length (calls w3))).
Qed.

Lemma GET_cases fallbackWords words env date w :
  is_date_format date = true ->
  let unavailable :=
    with_source (FallbackWordsSystem.getWordByDate fallbackWords date)
      "database_unavailable" in
  let w2 := log (SelectByDate date) (log SelectCount w) in
  exists r w',
    WordRoute.GET fallbackWords words env date w = (Returns (Json r), w')
    /\ ((r = unavailable /\ supabase env = false /\ w' = w)
        \/ (r = unavailable /\ supabase env = true
            /\ store_fault env (length (calls w)) <> None
            /\ w' = log SelectCount w)
        \/ (table w !! date = Some r /\ supabase env = true
            /\ store_fault env (length (calls w)) = None
            /\ store_fault env (S (length (calls w))) = None /\ w' = w2)
        \/ (exists newWordData w3,
              supabase env = true
              /\ try_catch
                   (WordRoute.generateWordWithSmartBank words env date)
                   (ret (with_source
                           (FallbackWordsSystem.getWordByDate fallbackWords date)
                           "generation_error")) w2
                 = (Returns newWordData, w3)
              /\ ((r = newWordData /\ w' = log (Upsert newWordData) w3)
                  \/ (r = Supabase.stored env (length (calls w3))
                            (table w3 !! date_of newWordData) newWordData
                      /\ w' = {| table := <[date_of newWordData := r]> (table w3);
                                 calls := (calls w3 ++ [Upsert newWordData])%list |})))).
Proof.
  intros Hdate unavailable w2.
  destruct (generation_step fallbackWords words env date w2)
    as (c & w3 & Hgen & _).
  rewrite (GET_run fallbackWords words env date w Hdate c w3 Hgen).
  destruct (supabase env) eqn:Hup; [|eexists _, _; split; [done|]; by left].
  destruct (store_fault env (length (calls w))) as [f|] eqn:Hc.
  { eexists _, _. split; [done|]. right; left. done. }
  destruct (store_fault env (S (length (calls w)))) as [f|] eqn:Hq.
  - destruct (store_fault env (length (calls w3))) eqn:Hs; cbv zeta;
      eexists _, _; (split; [done|]); right; right; right;
      exists c, w3; (split; [done|]); (split; [done|]); [by left|by right].
  - destruct (table w !! date) as [existingWord|] eqn:Hrow.
    + eexists _, _. split; [done|]. right; right; left. done.
    + destruct (store_fault env (length (calls w3))) eqn:Hs; cbv zeta;
        eexists _, _; (split; [done|]); right; right; right;
        exists c, w3; (split; [done|]); (split; [done|]); [by left|by right].
Qed.

(** X4.  Both versions of the handler answer 400 exactly when the date is
    not in [YYYY-MM-DD] form, and then they make no call at all; for a date
    in that form they always answer with a word record. *)
Theorem malformed_date_is_rejected
    (fallbackWords : list WordData) (words : list GeneratedWord)
    (env : Env) (date : string) (w : World) :
  (is_date_format date = false ->
     WordRoute.GET fallbackWords words env date w
     = (Returns (BadRequest "Invalid date format. Use YYYY-MM-DD"), w)
     /\ LegacyRoute.GET fallbackWords env date w
        = (Returns (BadRequest "Invalid date format. Use YYYY-MM-DD"), w))
  /\ (is_date_format date = true ->
      (exists r w',
          WordRoute.GET fallbackWords words env date w = (Returns (Json r), w'))
      /\ (exists r w',
            LegacyRoute.GET fallbackWords env date w = (Returns (Json r), w'))).
Proof.
  split.
  - intros Hdate.
    unfold WordRoute.GET, WordRoute.handle, WordRoute.GET_try,
      LegacyRoute.GET, LegacyRoute.handle, LegacyRoute.GET_try.
    by rewrite Hdate.
  - intros Hdate. split.
    + destruct (GET_cases fallbackWords words env date w Hdate) as (r & w' & H & _).
      by exists r, w'.
    + rewrite (legacy_GET_run fallbackWords env date w Hdate).
      destruct (supabase env); [|by eexists _, _].
      destruct (store_fault env (length (calls w))); [by eexists _, _|].
      destruct (match store_fault env (S (length (calls w))) with
                | Some _ => None | None => table w !! date end);
        [by eexists _, _|].
      destruct (store_fault env _); by eexists _, _.
Qed.

(** X5.  Where a record comes from: for a date in [YYYY-MM-DD] form, the
    record in the answer of the handler is either the row that the table
    holds for the date, or a record tagged [database_unavailable], [ai],
    [curated] or [generation_error].  The handler never answers with a
    record it tagged [emergency] or [hardcoded]. *)
Theorem answer_provenance
    (fallbackWords : list WordData) (words : list GeneratedWord)
    (env : Env) (date : string) (w w' : World) (response : Response) :
  is_date_format date = true ->
  WordRoute.GET fallbackWords words env date w = (Returns response, w') ->
  exists r,
    response = Json r
    /\ (table w !! date = Some r
        \/ source r = VStr "database_unavailable"
        \/ source r = VStr "ai"
        \/ source r = VStr "curated"
        \/ source r = VStr "generation_error").
Proof.
  intros Hdate Hget.
  destruct (GET_cases fallbackWords words env date w Hdate) as (r & w1 & H & Hcase).
  rewrite H in Hget. injection Hget as <- <-. exists r. split; [done|].
  destruct Hcase as [(-> & _)|[(-> & _)|[(Hrow & _)|(c & w3 & Hup & Hgen & Hr)]]];
    [by right; left | by right; left | by left |].
  right; right.
  destruct (generation_step fallbackWords words env date
              (log (SelectByDate date) (log SelectCount w)))
    as (c' & w3' & Hgen' & _ & _ & _ & Hsrc).
  rewrite Hgen in Hgen'. injection Hgen' as <- <-.
  assert (Hc : source c = VStr "ai" \/ source c = VStr "curated"
               \/ source c = VStr "generation_error").
  { destruct Hsrc as [(a & _ & _ & _ & ->)|[(sw & _ & ->)|(_ & ->)]]; auto. }
  by destruct Hr as [(-> & _)|(-> & _)].
Qed.

(** X6.  The table stays keyed by date: if every row sits under its own
    date before a request for a date in [YYYY-MM-DD] form, the record in
    the answer carries the date asked for, and every row still sits under
    its own date afterwards. *)
Theorem rows_stay_keyed
    (fallbackWords : list WordData) (words : list GeneratedWord)
    (env : Env) (date : string) (w w' : World) (response : Response) :
  is_date_format date = true ->
  keyed w ->
  WordRoute.GET fallbackWords words env date w = (Returns response, w') ->
  (exists r, response = Json r /\ date_of r = date) /\ keyed w'.
Proof.
  intros Hdate Hkeyed Hget.
  destruct (GET_cases fallbackWords words env date w Hdate) as (r & w1 & H & Hcase).
  rewrite H in Hget. injection Hget as <- <-.
  destruct Hcase as [(-> & _ & ->)|[(-> & _ & _ & ->)|[(Hrow & _ & _ & _ & ->)
                     |(c & w3 & Hup & Hgen & Hr)]]].
  - split; [|done]. eexists. split; [done|]. apply date_with_source.
  - split; [|done]. eexists. split; [done|]. apply date_with_source.
  - split; [|done]. eexists. split; [done|]. by apply Hkeyed.
  - destruct (generation_step fallbackWords words env date
                (log (SelectByDate date) (log SelectCount w)))
      as (c' & w3' & Hgen' & Hdc & Htab & _).
    rewrite Hgen in Hgen'. injection Hgen' as <- <-.
    destruct Hr as [(-> & ->)|(-> & ->)].
    + split; [by eexists|]. intros d row. cbn [log table]. rewrite Htab. apply Hkeyed.
    + split; [by eexists|]. intros d row. cbn [table].
      destruct (decide (date_of c = d)) as [<-|Hne].
      * rewrite lookup_insert_eq. by intros [= <-].
      * rewrite lookup_insert_ne by done. rewrite Htab. apply Hkeyed.
Qed.

Lemma history_run fallbackWords env param w :
  HistoryRoute.GET fallbackWords env param w =
  let days := HistoryRoute.days_of param in
  let fallback := FallbackWordsSystem.getRecentWords fallbackWords days in
  if supabase env then
    match store_fault env (length (calls w)) with
    | Some _ => (Returns (JsonList fallback), log SelectCount w)
    | None =>
        let wordsFromDB :=
          match store_fault env (S (length (calls w))) with
          | None => default [] (store_recent env (table w) days)
          | Some _ => []
          end in
        (Returns (JsonList (match wordsFromDB with
                            | [] => fallback
                            | _ :: _ => wordsFromDB
                            end)),
         log (SelectRecent days) (log SelectCount w))
    end
  else (Returns (JsonList fallback), w).
Proof.
  unfold HistoryRoute.GET, try_catch, bind. rewrite checkConnection_run.
  destruct (supabase env) eqn:Hup; [|done].
  destruct (store_fault env (length (calls w))); [done|]. cbn [negb].
  rewrite getRecentWords_run, Hup, calls_log. cbn [log table]. cbv zeta.
  by destruct (match store_fault env (S (length (calls w))) with
               | Some _ => [] | None => _ end).
Qed.

Lemma search_run fallbackWords env q w :
  SearchRoute.GET fallbackWords env q w =
  match q with
  | None => (Returns (BadRequest "Query must be at least 2 characters long"), w)
  | Some query =>
      if (String.length (Str.trim query) <? 2)%nat
      then (Returns (BadRequest "Query must be at least 2 characters long"), w)
      else
        let fallback (w' : World) :=
          match FallbackWordsSystem.searchWords fallbackWords (Str.trim query) with
          | Returns l => (Returns (JsonList l), w')
          | Throws =>
              (match FallbackWordsSystem.searchWords fallbackWords query with
               | Returns l => Returns (JsonList l)
               | Throws => Throws
               end, w')
          end in
        if supabase env then
          match store_fault env (length (calls w)) with
          | Some _ => fallback (log SelectCount w)
          | None =>
              let words :=
                match store_fault env (S (length (calls w))) with
                | None => default [] (store_search env (table w) (Str.trim query))
                | Some _ => []
                end in
              match words with
              | [] => fallback (log (SearchRows (Str.trim query)) (log SelectCount w))
              | _ :: _ =>
                  (Returns (JsonList words),
                   log (SearchRows (Str.trim query)) (log SelectCount w))
              end
          end
        else fallback w
  end.
Proof.
  unfold SearchRoute.GET. destruct q as [query|]; [|done].
  assert (Hshort : String.eqb query "" = true ->
                   (String.length (Str.trim query) <? 2)%nat = true)
    by (by intros ->%String.eqb_eq).
  destruct (String.length (Str.trim query) <? 2)%nat eqn:Hlen.
  { by rewrite orb_true_r. }
  destruct (String.eqb query "") eqn:Hq; [by discriminate Hshort|].
  cbn [orb default]. cbv zeta.
  unfold try_catch, bind. rewrite checkConnection_run.
  destruct (supabase env) eqn:Hup.
  - destruct (store_fault env (length (calls w))); cbn [negb].
    + unfold lift, ret.
      unfold Datatypes.id.
      destruct (FallbackWordsSystem.searchWords fallbackWords (Str.trim query));
        [reflexivity|].
      by destruct (FallbackWordsSystem.searchWords fallbackWords query).
    + rewrite searchWords_run, Hup, calls_log. cbn [log table].
      destruct (match store_fault env (S (length (calls w))) with
                | Some _ => [] | None => _ end); [|done].
      cbn [length Nat.ltb Nat.leb]. unfold lift, ret.
      unfold Datatypes.id.
      destruct (FallbackWordsSystem.searchWords fallbackWords (Str.trim query));
        [reflexivity|].
      by destruct (FallbackWordsSystem.searchWords fallbackWords query).
  - cbn [negb]. unfold lift, ret.
    unfold Datatypes.id.
    destruct (FallbackWordsSystem.searchWords fallbackWords (Str.trim query));
      [reflexivity|].
    by destruct (FallbackWordsSystem.searchWords fallbackWords query).
Qed.

Lemma status_run env w :
  StatusRoute.GET env w =
  if supabase env then
    match store_fault env (length (calls w)) with
    | Some _ =>
        (Returns (StatusRoute.Status "disconnected" false false
                    "Database connection failed"), log SelectCount w)
    | None =>
        (Returns (StatusRoute.Status "connected" true
                    match match store_fault env (S (length (calls w))) with
                          | None => table w !! "2024-01-01"
                          | Some _ => None
                          end with
                    | Some _ => true
                    | None => false
                    end
                    "Database is connected and accessible"),
         log (SelectByDate "2024-01-01") (log SelectCount w))
    end
  else (Returns (StatusRoute.Status "disconnected" false false
                   "Database connection failed"), w).
Proof.
  unfold StatusRoute.GET, try_catch, bind. rewrite checkConnection_run.
  destruct (supabase env) eqn:Hup; [|done].
  destruct (store_fault env (length (calls w))); [done|].
  by rewrite getWordByDate_run, Hup, calls_log.
Qed.

(** X7.  What a request may write: a request for a word writes at most the
    row of the date asked for, so the rows of all other dates are as
    before; the history, search and status endpoints never change the
    table, whatever they answer. *)
Theorem requests_touch_one_row
    (fallbackWords : list WordData) (words : list GeneratedWord)
    (env : Env) (w : World) :
  (forall date d r w',
      WordRoute.GET fallbackWords words env date w = (r, w') ->
      d <> date -> table w' !! d = table w !! d)
  /\ (forall param r w',
        HistoryRoute.GET fallbackWords env param w = (r, w') ->
        table w' = table w)
  /\ (forall q r w',
        SearchRoute.GET fallbackWords env q w = (r, w') -> table w' = table w)
  /\ (forall r w', StatusRoute.GET env w = (r, w') -> table w' = table w).
Proof.
  split; [|split; [|split]].
  - intros date d r w' Hget Hd.
    destruct (is_date_format date) eqn:Hdate.
    + destruct (GET_cases fallbackWords words env date w Hdate)
        as (r1 & w1 & H & Hcase).
      rewrite H in Hget. injection Hget as <- <-.
      destruct Hcase as [(_ & _ & ->)|[(_ & _ & _ & ->)|[(_ & _ & _ & _ & ->)
                         |(c & w3 & Hup & Hgen & Hr)]]]; try done.
      destruct (generation_step fallbackWords words env date
                  (log (SelectByDate date) (log SelectCount w)))
        as (c' & w3' & Hgen' & Hdc & Htab & _).
      rewrite Hgen in Hgen'. injection Hgen' as <- <-.
      destruct Hr as [(_ & ->)|(_ & ->)]; cbn [log table].
      * by rewrite Htab.
      * rewrite lookup_insert_ne by congruence. by rewrite Htab.
    + unfold WordRoute.GET, WordRoute.handle, WordRoute.GET_try in Hget.
      rewrite Hdate in Hget. by injection Hget as <- <-.
  - intros param r w'. rewrite history_run. cbv zeta.
    destruct (supabase env); [|by intros [= <- <-]].
    destruct (store_fault env (length (calls w))); by intros [= <- <-].
  - intros q r w'. rewrite search_run. destruct q as [query|]; [|by intros [= <- <-]].
    destruct (String.length (Str.trim query) <? 2)%nat; [by intros [= <- <-]|].
    cbv zeta.
    destruct (supabase env);
      [destruct (store_fault env (length (calls w)));
         [|destruct (match store_fault env (S (length (calls w))) with
                     | Some _ => [] | None => _ end)]|];
      try (by intros [= <- <-]);
      destruct (FallbackWordsSystem.searchWords fallbackWords (Str.trim query));
      by intros [= <- <-].
  - intros r w'. rewrite status_run.
    destruct (supabase env); [|by intros [= <- <-]].
    destruct (store_fault env (length (calls w))); by intros [= <- <-].
Qed.

(** X8.  The store works as a cache: for a date in [YYYY-MM-DD] form, with
    the store reachable and meeting no fault and no row for the date, the
    first request produces a record and stores it; the second request
    answers with that same record, makes no call to the random-word service
    or the inference provider, and leaves the table as the first left it. *)
Theorem second_request_is_served_from_the_store
    (fallbackWords : list WordData) (words : list GeneratedWord)
    (env : Env) (date : string) (w : World) :
  is_date_format date = true ->
  supabase env = true ->
  (forall t, store_fault env t = None) ->
  table w !! date = None ->
  exists r w1 w2,
    WordRoute.GET fallbackWords words env date w = (Returns (Json r), w1)
    /\ table w1 !! date = Some r
    /\ WordRoute.GET fallbackWords words env date w1 = (Returns (Json r), w2)
    /\ table w2 = table w1
    /\ ai_calls w2 = ai_calls w1.
Proof.
  intros Hdate Hup Hok Hrow.
  destruct (generation_step fallbackWords words env date
              (log (SelectByDate date) (log SelectCount w)))
    as (c & w3 & Hgen & Hdc & Htab & _).
  pose proof (GET_run fallbackWords words env date w Hdate c w3 Hgen) as H1.
  rewrite Hup, !Hok, Hrow in H1. cbv zeta in H1.
  eexists _, _, _. split; [exact H1|].
  rewrite Hdc. cbn [table]. split; [by rewrite lookup_insert_eq|].
  match goal with
  | |- WordRoute.GET _ _ _ _ ?v = _ /\ _ => set (w1 := v)
  end.
  destruct (generation_step fallbackWords words env date
              (log (SelectByDate date) (log SelectCount w1)))
    as (c' & w3' & Hgen' & _).
  rewrite (GET_run fallbackWords words env date w1 Hdate c' w3' Hgen').
  rewrite Hup, !Hok. subst w1. cbn [table]. rewrite lookup_insert_eq.
  split; [reflexivity|]. split; [done|].
  rewrite !ai_calls_log. cbn [is_ai_call]. lia.
Qed.

(** X9.  No retries: one request for a word makes at most five calls: the
    connection check, the query, at most one call to the random-word
    service, at most one to the inference provider and at most one upsert,
    in that order.  Without a client it makes none. *)
Theorem request_call_budget
    (fallbackWords : list WordData) (words : list GeneratedWord)
    (env : Env) (date : string) (w w' : World) (r : result Response) :
  WordRoute.GET fallbackWords words env date w = (r, w') ->
  exists reads generation writes,
    calls w' = (calls w ++ reads ++ generation ++ writes)%list
    /\ (reads = [] \/ reads = [SelectCount]
        \/ reads = [SelectCount; SelectByDate date])
    /\ (generation = [] \/ generation = [RandomWordApi]
        \/ exists aiPrompt, generation = [RandomWordApi; ChatCompletion aiPrompt])
    /\ (writes = [] \/ exists newWordData, writes = [Upsert newWordData])
    /\ (reads <> [SelectCount; SelectByDate date] ->
        generation = [] /\ writes = [])
    /\ (supabase env = false -> reads = []).
Proof.
  intros Hget. destruct (is_date_format date) eqn:Hdate.
  - destruct (GET_cases fallbackWords words env date w Hdate)
      as (r1 & w1 & H & Hcase).
    rewrite H in Hget. injection Hget as <- <-.
    destruct Hcase as [(_ & Hup & ->)|[(_ & Hup & _ & ->)|[(_ & Hup & _ & _ & ->)
                       |(c & w3 & Hup & Hgen & Hr)]]].
    + exists [], [], []. rewrite !app_nil_r. repeat split; eauto.
    + exists [SelectCount], [], []. rewrite !app_nil_r.
      repeat split; eauto; congruence.
    + exists [SelectCount; SelectByDate date], [], []. rewrite !app_nil_r.
      cbn [log calls]. rewrite <- app_assoc.
      repeat split; eauto; congruence.
    + destruct (generation_step fallbackWords words env date
                  (log (SelectByDate date) (log SelectCount w)))
        as (c' & w3' & Hgen' & _ & _ & Htrace & _).
      rewrite Hgen in Hgen'. injection Hgen' as <- <-.
      assert (Hw' : calls w1 = (calls w3 ++ [Upsert c])%list)
        by (by destruct Hr as [(_ & ->)|(_ & ->)]).
      exists [SelectCount; SelectByDate date].
      destruct Htrace as [->|[->|(p & ->)]].
      * exists [], [Upsert c]. rewrite Hw'. cbn [log calls app].
        rewrite <- !app_assoc. repeat split; eauto; congruence.
      * exists [RandomWordApi], [Upsert c]. rewrite Hw'. cbn [log calls app].
        rewrite <- !app_assoc. repeat split; eauto; congruence.
      * exists [RandomWordApi; ChatCompletion p], [Upsert c]. rewrite Hw'.
        cbn [log calls app]. rewrite <- !app_assoc.
        repeat split; eauto; congruence.
  - unfold WordRoute.GET, WordRoute.handle, WordRoute.GET_try in Hget.
    rewrite Hdate in Hget. injection Hget as <- <-.
    exists [], [], []. rewrite !app_nil_r. repeat split; eauto.
Qed.

(** X10.  The status endpoint never answers with status [error].  It says
    [connected] exactly when there is a client and the connection check
    meets no fault.  [hasData] is true exactly when, on top of that, the
    query for the row of 2024-01-01 meets no fault and the table holds that
    row: the rows of other dates do not count.  So [hasData] is never true
    without a connection. *)
Theorem status_never_errors (env : Env) (w : World) :
  exists status connection hasData message w',
    StatusRoute.GET env w
    = (Returns (StatusRoute.Status status connection hasData message), w')
    /\ (connection = true <->
        supabase env = true /\ store_fault env (length (calls w)) = None)
    /\ (hasData = true <->
        connection = true
        /\ store_fault env (S (length (calls w))) = None
        /\ is_Some (table w !! "2024-01-01"))
    /\ status = (if connection then "connected" else "disconnected").
Proof.
  rewrite status_run. destruct (supabase env).
  - destruct (store_fault env (length (calls w))) as [f|].
    + eexists _, _, _, _, _. split; [done|]. repeat split; try done; by intros [].
    + destruct (store_fault env (S (length (calls w)))) as [f|].
      * eexists _, _, _, _, _. split; [done|].
        repeat split; try done. by intros (_ & ? & _).
      * destruct (table w !! "2024-01-01") as [row|] eqn:Hrow;
          eexists _, _, _, _, _; (split; [done|]); repeat split; try done; eauto.
        by intros (_ & _ & [? ?]).
  - eexists _, _, _, _, _. split; [done|]. repeat split; try done; by intros [].
Qed.

Lemma getRecentWords_prefix fallbackWords days :
  exists k,
    FallbackWordsSystem.getRecentWords fallbackWords days = take k fallbackWords
    /\ (k <= length fallbackWords)%nat
    /\ match days with
       | Some n =>
           if n <? 0 then Z.of_nat k = Z.max (Z.of_nat (length fallbackWords) + n) 0
           else Z.of_nat k = Z.min n (Z.of_nat (length fallbackWords))
       | None => k = 0%nat
       end.
Proof.
  unfold FallbackWordsSystem.getRecentWords, slice0, js_min.
  destruct days as [n|]; [|exists 0%nat; split; [done|]; split; [lia|done]].
  destruct (Z.ltb_spec n 0) as [Hn|Hn].
  - assert (Hmin : Z.min n (Z.of_nat (length fallbackWords)) = n) by lia.
    rewrite Hmin. destruct (Z.ltb_spec n 0); [|lia].
    eexists. split; [done|]. split; lia.
  - destruct (Z.ltb_spec (Z.min n (Z.of_nat (length fallbackWords))) 0); [lia|].
    eexists. split; [done|]. split; lia.
Qed.

(** X11.  The recent words of the fallback catalog are always its first
    entries, never more than it holds: for [days >= 0] the first
    [min(days, size)] entries; for a negative [days] the catalog without
    its last [-days] entries; for [NaN] none. *)
Theorem fallback_recent_words_are_a_prefix
    (fallbackWords : list WordData) (days : number) :
  exists k,
    FallbackWordsSystem.getRecentWords fallbackWords days = take k fallbackWords
    /\ length (FallbackWordsSystem.getRecentWords fallbackWords days) = k
    /\ (k <= length fallbackWords)%nat
    /\ (forall n, days = Some n -> 0 <= n ->
          Z.of_nat k = Z.min n (Z.of_nat (length fallbackWords)))
    /\ (forall n, days = Some n -> n < 0 ->
          Z.of_nat k = Z.max (Z.of_nat (length fallbackWords) + n) 0)
    /\ (days = None -> k = 0%nat).
Proof.
  destruct (getRecentWords_prefix fallbackWords days) as (k & Heq & Hle & Hk).
  exists k. split; [done|]. split; [rewrite Heq, length_take; lia|].
  split; [done|]. repeat split.
  - intros n -> Hn. by destruct (Z.ltb_spec n 0); [lia|].
  - intros n -> Hn. by destruct (Z.ltb_spec n 0); [|lia].
  - by intros ->.
Qed.

(** X12.  The history endpoint answers either with the rows that the store
    returned, when there is at least one, or with the first entries of the
    fallback catalog: this last when there is no client, when a call to the
    store meets a fault, and when the store returns nothing.  It makes no
    call to the random-word service or the inference provider. *)
Theorem history_answer
    (fallbackWords : list WordData) (env : Env) (param : option string)
    (w : World) :
  exists l w',
    HistoryRoute.GET fallbackWords env param w = (Returns (JsonList l), w')
    /\ ai_calls w' = ai_calls w
    /\ (l = FallbackWordsSystem.getRecentWords fallbackWords
              (HistoryRoute.days_of param)
        \/ (l <> [] /\ supabase env = true
            /\ store_fault env (length (calls w)) = None
            /\ store_fault env (S (length (calls w))) = None
            /\ store_recent env (table w) (HistoryRoute.days_of param) = Some l))
    /\ (supabase env = false \/ store_fault env (length (calls w)) <> None
        \/ store_fault env (S (length (calls w))) <> None
        \/ default [] (store_recent env (table w) (HistoryRoute.days_of param)) = [] ->
        l = FallbackWordsSystem.getRecentWords fallbackWords
              (HistoryRoute.days_of param)).
Proof.
  rewrite history_run. cbv zeta. destruct (supabase env).
  - destruct (store_fault env (length (calls w))) as [f|].
    + eexists _, _. split; [done|]. rewrite ai_calls_log.
      split; [cbn; lia|]. split; [by left|done].
    + destruct (store_fault env (S (length (calls w)))) as [f|].
      * eexists _, _. split; [done|]. rewrite !ai_calls_log.
        split; [cbn; lia|]. split; [by left|done].
      * destruct (store_recent env (table w) (HistoryRoute.days_of param))
          as [[|x l]|] eqn:Hrec; cbn [default];
          eexists _, _; (split; [done|]); rewrite !ai_calls_log;
          (split; [cbn; lia|]); (split; [|intros [|[|[|]]]; done]);
          [by left | right; repeat split; done | by left].
  - eexists _, _. split; [done|]. split; [done|]. split; [by left|done].
Qed.

(** ** Search *)

Lemma prefix_occurs p s :
  String.prefix p s = true <-> exists b, s = p +:+ b.
Proof.
  revert s. induction p as [|a p IH]; intros s.
  - rewrite prefix_empty. split; [by exists s|done].
  - destruct s as [|c s]; cbn [String.prefix].
    + split; [done|]. by intros [b Hb].
    + destruct (ascii_dec a c) as [->|Hne].
      * rewrite IH. split; intros [b Hb]; exists b.
        -- by rewrite Hb.
        -- by injection Hb.
      * split; [done|]. intros [b Hb]. by injection Hb.
Qed.

Lemma includes_occurs q s : Str.includes q s = true <-> occurs_in q s.
Proof.
  unfold occurs_in. induction s as [|c s IH]; cbn [Str.includes].
  - rewrite orb_false_r, prefix_occurs. split.
    + intros [b Hb]. by exists "", b.
    + intros (a & b & H). destruct a; [by exists b|done].
  - rewrite orb_true_iff, IH, prefix_occurs. split.
    + intros [[b Hb]|(a & b & Hab)].
      * by exists "", b.
      * exists (String c a), b. by rewrite Hab.
    + intros (a & b & H). destruct a as [|x a].
      * left. by exists b.
      * right. injection H as -> H. by exists a, b.
Qed.

Lemma prefix_empty_includes s : Str.includes "" s = true.
Proof. destruct s; cbn [Str.includes]; by rewrite prefix_empty. Qed.

Lemma lower_lower c : Str.lower (Str.lower c) = Str.lower c.
Proof. by destruct c as [[] [] [] [] [] [] [] []]. Qed.

Lemma toLowerCase_idempotent s :
  Str.toLowerCase (Str.toLowerCase s) = Str.toLowerCase s.
Proof. induction s as [|c s IH]; [done|]. cbn. by rewrite lower_lower, IH. Qed.

Lemma filter_sublist {A : Type} (p : A -> bool) (l : list A) :
  sublist (List.filter p l) l.
Proof.
  induction l as [|x l IH]; cbn; [constructor|].
  destruct (p x); by constructor.
Qed.

(** X13.  Search in the fallback catalog, for a catalog whose text members
    are strings: it never throws; the entries it returns are those of the
    catalog, in the order of the catalog, in which the lower-cased query
    occurs in the lower-cased word, definition or translation; the letter
    case of the query makes no difference; and the empty query returns the
    whole catalog. *)
Theorem fallback_search_matches
    (fallbackWords : list WordData) (query : string) :
  Forall textual fallbackWords ->
  exists found,
    FallbackWordsSystem.searchWords fallbackWords query = Returns found
    /\ sublist found fallbackWords
    /\ (forall e,
          In e found <->
          In e fallbackWords
          /\ (occurs_in (Str.toLowerCase query) (Str.toLowerCase (text_of (word e)))
              \/ occurs_in (Str.toLowerCase query)
                   (Str.toLowerCase (text_of (definition e)))
              \/ occurs_in (Str.toLowerCase query)
                   (Str.toLowerCase (text_of (translation e)))))
    /\ FallbackWordsSystem.searchWords fallbackWords (Str.toLowerCase query)
       = Returns found
    /\ FallbackWordsSystem.searchWords fallbackWords "" = Returns fallbackWords.
Proof.
  intros Htext. rewrite !searchWords_textual by done.
  eexists. split; [done|]. split; [apply filter_sublist|]. split; [|split].
  - intros e. rewrite filter_In. unfold matches.
    rewrite !orb_true_iff, !includes_occurs. tauto.
  - f_equal. apply filter_ext. intros e. unfold matches.
    by rewrite toLowerCase_idempotent.
  - f_equal. induction fallbackWords as [|e l IH]; [done|].
    cbn [List.filter]. unfold matches at 1. cbn [Str.toLowerCase].
    rewrite prefix_empty_includes. cbn [orb].
    f_equal. apply IH. by inversion Htext.
Qed.

(** X14.  The search endpoint, for a catalog whose text members are
    strings: it never throws; it answers 400, and makes no call, exactly
    when the query is missing or its trimmed text is shorter than 2
    characters; otherwise it answers with the rows that the store found for
    the trimmed query, when there is at least one, and else with the
    matches of the trimmed query in the fallback catalog: this last when
    there is no client, when a call to the store meets a fault, and when
    the store finds nothing. *)
Theorem search_answer
    (fallbackWords : list WordData) (env : Env) (q : option string) (w : World) :
  Forall textual fallbackWords ->
  exists response w',
    SearchRoute.GET fallbackWords env q w = (Returns response, w')
    /\ ai_calls w' = ai_calls w
    /\ (response = BadRequest "Query must be at least 2 characters long" <->
        q = None
        \/ exists query, q = Some query
                         /\ (String.length (Str.trim query) < 2)%nat)
    /\ (response = BadRequest "Query must be at least 2 characters long" ->
        w' = w)
    /\ (forall query,
          q = Some query -> (2 <= String.length (Str.trim query))%nat ->
          response = JsonList (List.filter (matches (Str.trim query)) fallbackWords)
          \/ exists found,
               found <> [] /\ response = JsonList found
               /\ supabase env = true
               /\ store_fault env (length (calls w)) = None
               /\ store_fault env (S (length (calls w))) = None
               /\ store_search env (table w) (Str.trim query) = Some found).
Proof.
  intros Htext. rewrite search_run. destruct q as [query|].
  2:{ eexists _, _. split; [done|]. split; [done|]. split; [|split]; try done.
      split; [by left|done]. }
  destruct (Nat.ltb_spec (String.length (Str.trim query)) 2) as [Hlen|Hlen].
  { eexists _, _. split; [done|]. split; [done|]. split; [|split]; try done.
    - split; [|done]. intros _. right. by exists query.
    - intros ? [= <-] ?. lia. }
  cbv zeta. rewrite searchWords_textual by done.
  assert (Hok : forall l,
    JsonList l = BadRequest "Query must be at least 2 characters long" <->
    Some query = None
    \/ exists query0, Some query = Some query0
                      /\ (String.length (Str.trim query0) < 2)%nat).
  { intros l. split; [done|]. intros [|(? & [= <-] & ?)]; [done|lia]. }
  destruct (supabase env).
  - destruct (store_fault env (length (calls w))) as [f|].
    + eexists _, _. split; [done|]. rewrite ai_calls_log.
      split; [cbn; lia|]. split; [apply Hok|]. split; [done|].
      intros ? [= <-] _. by left.
    + destruct (store_fault env (S (length (calls w)))) as [f|].
      * eexists _, _. split; [done|]. rewrite !ai_calls_log.
        split; [cbn; lia|]. split; [apply Hok|]. split; [done|].
        intros ? [= <-] _. by left.
      * destruct (store_search env (table w) (Str.trim query)) as [[|x l]|] eqn:Hs;
          cbn [default]; eexists _, _; (split; [done|]); rewrite !ai_calls_log;
          (split; [cbn; lia|]); (split; [apply Hok|]); (split; [done|]);
          intros ? [= <-] _; [by left | | by left].
        right. exists (x :: l). repeat split; done.
  - eexists _, _. split; [done|]. split; [done|]. split; [apply Hok|].
    split; [done|]. intros ? [= <-] _. by left.
Qed.

(** ** Catalogs *)

(** X15.  An empty catalog: the selector of the fallback catalog does not
    throw but returns a record that holds the date and nothing else, while
    the selector of the Smart Word Bank throws.  The handler on an empty
    bank, for a date in [YYYY-MM-DD] form, with the store reachable, no row
    for the date and no credential, catches that and answers with the entry
    of the fallback catalog, tagged [generation_error]. *)
Theorem empty_bank_falls_back
    (fallbackWords : list WordData) (env : Env) (date : string) (w : World) :
  is_date_format date = true ->
  supabase env = true ->
  store_fault env (length (calls w)) = None ->
  store_fault env (S (length (calls w))) = None ->
  table w !! date = None ->
  hf env = false ->
  SmartWordBank.getWordForDate [] date = Throws
  /\ FallbackWordsSystem.getWordByDate [] date = with_date None date
  /\ exists r w',
       WordRoute.GET fallbackWords [] env date w = (Returns (Json r), w')
       /\ source r = VStr "generation_error"
       /\ word r = word (FallbackWordsSystem.getWordByDate fallbackWords date)
       /\ date_of r = date.
Proof.
  intros Hdate Hup Hc Hq Hrow Hhf.
  assert (Hnone : forall A, at_index (@nil A) (js_rem (dateHash date) 0) = None).
  { intros A. unfold js_rem, at_index. by destruct (dateHash date). }
  assert (Hthrows : SmartWordBank.getWordForDate [] date = Throws).
  { unfold SmartWordBank.getWordForDate. cbn [length Z.of_nat]. by rewrite Hnone. }
  split; [done|]. split.
  { unfold FallbackWordsSystem.getWordByDate. cbn [length Z.of_nat]. by rewrite Hnone. }
  destruct (generation_step fallbackWords [] env date
              (log (SelectByDate date) (log SelectCount w)))
    as (c & w3 & Hgen & Hdc & _ & _ & Hsrc).
  assert (Hcand : c = with_source (FallbackWordsSystem.getWordByDate fallbackWords date)
                        "generation_error").
  { destruct Hsrc as [(a & _ & Hhf' & _)|[(sw & Hsw & _)|(_ & ->)]];
      [congruence | congruence | done]. }
  rewrite (GET_run fallbackWords [] env date w Hdate c w3 Hgen), Hup, Hc, Hq, Hrow.
  subst c.
  destruct (store_fault env (length (calls w3))); cbv zeta;
    eexists _, _; (split; [done|]); repeat split; try done;
    apply date_with_source.
Qed.

(** X16.  Collisions are by design: two dates in [YYYY-MM-DD] form whose
    year + month + day agree modulo the size of the catalog select the same
    entry.  The selector of the fallback catalog returns for the one date
    what it returns for the other with only the date changed, and the
    selector of the Smart Word Bank returns the same entry for both. *)
Theorem same_hash_same_entry
    (fallbackWords : list WordData) (words : list GeneratedWord)
    (date1 date2 : string) :
  is_date_format date1 = true ->
  is_date_format date2 = true ->
  fallbackWords <> [] ->
  words <> [] ->
  (slot date1 (length fallbackWords) = slot date2 (length fallbackWords) ->
   FallbackWordsSystem.getWordByDate fallbackWords date1
   = with_date (Some (FallbackWordsSystem.getWordByDate fallbackWords date2)) date1)
  /\ (slot date1 (length words) = slot date2 (length words) ->
      SmartWordBank.getWordForDate words date1
      = SmartWordBank.getWordForDate words date2).
Proof.
  intros H1 H2 Hfallback Hwords. split; intros Hslot.
  - destruct (selected_slot fallbackWords date1 H1 Hfallback) as (e1 & He1 & Hat1).
    destruct (selected_slot fallbackWords date2 H2 Hfallback) as (e2 & He2 & Hat2).
    rewrite Hslot, He2 in He1. injection He1 as <-.
    unfold FallbackWordsSystem.getWordByDate. by rewrite Hat1, Hat2.
  - destruct (selected_slot words date1 H1 Hwords) as (e1 & He1 & Hat1).
    destruct (selected_slot words date2 H2 Hwords) as (e2 & He2 & Hat2).
    rewrite Hslot, He2 in He1. injection He1 as <-.
    unfold SmartWordBank.getWordForDate. by rewrite Hat1, Hat2.
Qed.

(** ** The favorites of the page *)

(** X17.  Toggling a favorite flips the membership of that word and of no
    other word, and keeps a list that has no duplicates free of them.
    Toggling a word that is not a favorite and toggling it again gives the
    list back as it was. *)
Theorem toggle_favorite_flips (favorites : list string) (word : string) :
  (In word (DailyEnglishApp.toggleFavorite favorites word) <-> ~ In word favorites)
  /\ (forall other,
        other <> word ->
        In other (DailyEnglishApp.toggleFavorite favorites word)
        <-> In other favorites)
  /\ (NoDup favorites -> NoDup (DailyEnglishApp.toggleFavorite favorites word))
  /\ (~ In word favorites ->
      DailyEnglishApp.toggleFavorite
        (DailyEnglishApp.toggleFavorite favorites word) word = favorites).
Proof.
  unfold DailyEnglishApp.toggleFavorite.
  assert (Hex : forall l, existsb (String.eqb word) l = true <-> In word l).
  { intros l. rewrite existsb_exists. split.
    - by intros (x & Hx & ->%String.eqb_eq).
    - intros H. exists word. by rewrite String.eqb_refl. }
  assert (Hfilter : forall l x,
            In x (List.filter (fun fav => negb (String.eqb fav word)) l)
            <-> In x l /\ x <> word).
  { intros l x. rewrite filter_In, negb_true_iff, String.eqb_neq. tauto. }
  assert (Hsame : forall l, ~ In word l ->
            List.filter (fun fav => negb (String.eqb fav word)) l = l).
  { induction l as [|x l IH]; [done|]. intros Hin. cbn.
    destruct (String.eqb_spec x word) as [->|]; [by destruct Hin; left|].
    cbn. f_equal. apply IH. intros ?. apply Hin. by right. }
  destruct (existsb (String.eqb word) favorites) eqn:E.
  - apply Hex in E. repeat split.
    + rewrite Hfilter. by intros [_ ?].
    + done.
    + rewrite Hfilter. tauto.
    + rewrite Hfilter. tauto.
    + intros Hnd. apply NoDup_ListNoDup, List.NoDup_filter. by apply NoDup_ListNoDup.
    + done.
  - assert (Hnot : ~ In word favorites) by (rewrite <- Hex; congruence).
    repeat split.
    + done.
    + intros _. apply in_or_app. right. by left.
    + intros [|[|[]]]%in_app_or; done.
    + intros ?. apply in_or_app. by left.
    + intros Hnd. apply NoDup_app. repeat split; [done| |apply NoDup_singleton].
      intros x Hx ->%list_elem_of_singleton. apply Hnot. by apply list_elem_of_In.
    + intros _.
      replace (existsb (String.eqb word) (favorites ++ [word])%list) with true.
      * rewrite List.filter_app, Hsame by done. cbn.
        rewrite String.eqb_refl. cbn. by rewrite app_nil_r.
      * symmetry. apply Hex, in_or_app. right. by left.
Qed.

(** ** The parser and the records it lets through *)

Lemma absent_app x a b : absent x (a +:+ b) <-> absent x a /\ absent x b.
Proof.
  induction a as [|c a IH]; [cbn; tauto|].
  change (String c a +:+ b) with (String c (a +:+ b)). cbn [absent].
  rewrite IH. tauto.
Qed.

Lemma absent_trimStart x a : absent x a -> absent x (Str.trimStart a).
Proof.
  induction a as [|c a IH]; [done|]. intros [Hc Ha]. cbn [Str.trimStart].
  destruct (Str.is_space c); [by apply IH | done].
Qed.

Lemma absent_trimEnd x a : absent x a -> absent x (Str.trimEnd a).
Proof.
  induction a as [|c a IH]; [done|]. intros [Hc Ha]. cbn [Str.trimEnd].
  destruct (Str.is_space c && String.eqb (Str.trimEnd a) ""); [done|].
  split; [done | by apply IH].
Qed.

Lemma trimStart_app x a r :
  Str.is_space x = false ->
  Str.trimStart (a +:+ String x r) = Str.trimStart a +:+ String x r.
Proof.
  intros Hx. induction a as [|c a IH].
  - change ("" +:+ String x r) with (String x r). cbn [Str.trimStart].
    by rewrite Hx.
  - change (String c a +:+ String x r) with (String c (a +:+ String x r)).
    cbn [Str.trimStart]. by destruct (Str.is_space c).
Qed.

Lemma trimEnd_app x m c :
  Str.is_space x = false ->
  Str.trimEnd (m +:+ String x c) = m +:+ String x (Str.trimEnd c).
Proof.
  intros Hx. induction m as [|y m IH].
  - change ("" +:+ String x c) with (String x c). cbn [Str.trimEnd].
    by rewrite Hx.
  - change (String y m +:+ String x c) with (String y (m +:+ String x c)).
    cbn [Str.trimEnd]. rewrite IH.
    replace (String.eqb (m +:+ String x (Str.trimEnd c)) "") with false
      by (by destruct m).
    by rewrite andb_false_r.
Qed.

Lemma removeAll_absent pat s :
  absent "`" s -> Str.removeAll (String "`" pat) s = s.
Proof.
  unfold Str.removeAll. induction s as [|c s IH]; [done|]. intros [Hc Hs].
  cbn [Str.remove String.prefix].
  destruct (ascii_dec "`" c) as [Heq|_]; [by destruct Hc|]. by rewrite IH.
Qed.

Lemma cleanText_prose a b c :
  absent "{" a -> absent "}" c ->
  absent "`" (a +:+ String "{" (b +:+ String "}" c)) ->
  HuggingFaceWordGenerator.cleanText (a +:+ String "{" (b +:+ String "}" c))
  = String "{" (b +:+ String "}" "").
Proof.
  intros Ha Hc Htick.
  assert (Htrim : Str.trim (a +:+ String "{" (b +:+ String "}" c))
                  = Str.trimStart a +:+ String "{" (b +:+ String "}" (Str.trimEnd c))).
  { unfold Str.trim. rewrite trimStart_app by done.
    replace (Str.trimStart a +:+ String "{" (b +:+ String "}" c))
      with ((Str.trimStart a +:+ String "{" b) +:+ String "}" c)
      by (by rewrite append_assoc).
    rewrite trimEnd_app by done. by rewrite append_assoc. }
  apply (cleanText_between _ (Str.trimStart a) b (Str.trimEnd c));
    [|by apply absent_trimStart|by apply absent_trimEnd].
  rewrite Htrim. unfold unfenced.
  apply absent_app in Htick as [Ha' [_ [Hb' [_ Hc']]%absent_app]].
  assert (Hclean : absent "`" (Str.trimStart a
                     +:+ String "{" (b +:+ String "}" (Str.trimEnd c)))).
  { apply absent_app. split; [by apply absent_trimStart|]. split; [done|].
    apply absent_app. split; [done|]. split; [done|]. by apply absent_trimEnd. }
  rewrite (removeAll_absent "``json") by exact Hclean.
  by rewrite (removeAll_absent "``") by exact Hclean.
Qed.

(** X18.  Prose around the object is ignored: a text with no back quote,
    made of any prose that holds no [{], an object in braces and any prose
    that holds no [}], parses as the object alone does. *)
Theorem prose_around_json_is_ignored (env : Env) (a b c : string) :
  absent "{" a ->
  absent "}" c ->
  absent "`" (a +:+ "{" +:+ b +:+ "}" +:+ c) ->
  HuggingFaceWordGenerator.cleanText (a +:+ "{" +:+ b +:+ "}" +:+ c)
  = "{" +:+ b +:+ "}"
  /\ HuggingFaceWordGenerator.parseJSONResponse env
       (VStr (a +:+ "{" +:+ b +:+ "}" +:+ c))
     = HuggingFaceWordGenerator.parseJSONResponse env (VStr ("{" +:+ b +:+ "}")).
Proof.
  intros Ha Hc Htick.
  change (a +:+ "{" +:+ b +:+ "}" +:+ c)
    with (a +:+ String "{" (b +:+ String "}" c)) in *.
  change ("{" +:+ b +:+ "}") with (String "{" (b +:+ String "}" "")).
  pose proof (cleanText_prose a b c Ha Hc Htick) as H1.
  assert (H2 : HuggingFaceWordGenerator.cleanText (String "{" (b +:+ String "}" ""))
               = String "{" (b +:+ String "}" "")).
  { apply (cleanText_prose "" b ""); [done|done|].
    apply absent_app in Htick as [_ [? [? [? _]]%absent_app]].
    split; [done|]. apply absent_app. by repeat split. }
  split; [done|]. by rewrite !parseJSONResponse_run, H1, H2.
Qed.

Lemma parsed_is_complete env text g :
  HuggingFaceWordGenerator.parseJSONResponse env text = Some g ->
  truthy (g_word g) = true /\ truthy (g_phonetic g) = true
  /\ truthy (g_definition g) = true /\ truthy (g_translation g) = true
  /\ truthy (g_level g) = true
  /\ exists kept, g_examples g = VArr kept /\ (2 <= length kept <= 3)%nat.
Proof.
  rewrite parseJSONResponse_run. destruct text as [| | | |s| |]; try done.
  destruct (JSON_parse env _) as [parsed|]; [|done].
  destruct (HuggingFaceWordGenerator.validated parsed) as [r|] eqn:Hv; [|done].
  intros ->. apply validated_accepts in Hv
    as (fields & items & -> & Hw & Hd & Ht & He & Hlen & ->).
  cbn [g_word g_phonetic g_definition g_translation g_level g_examples].
  repeat split; try done.
  - by destruct (truthy (assoc "phonetic" fields)) eqn:E.
  - by destruct (truthy (assoc "level" fields)) eqn:E.
  - exists (take 3 items). split; [done|]. rewrite length_take. lia.
Qed.

(** X19.  No record tagged [ai] has a member missing: for a date in
    [YYYY-MM-DD] form, when the record in the answer of the handler is
    tagged [ai] and is not the row that the table held for the date, its
    word, phonetic, definition, translation and level are all truthy, its
    word is longer than 3, and its examples are an array of 2 or 3
    entries. *)
Theorem ai_answers_are_complete
    (fallbackWords : list WordData) (words : list GeneratedWord)
    (env : Env) (date : string) (w w' : World) (r : WordData) :
  is_date_format date = true ->
  WordRoute.GET fallbackWords words env date w = (Returns (Json r), w') ->
  table w !! date <> Some r ->
  source r = VStr "ai" ->
  complete r
  /\ exists len, length_of (word r) = Some len /\ js_gt len 3 = true.
Proof.
  intros Hdate Hget Hnew Hsrc.
  destruct (GET_cases fallbackWords words env date w Hdate) as (r1 & w1 & H & Hcase).
  rewrite H in Hget. injection Hget as <- <-.
  destruct Hcase as [(-> & _)|[(-> & _)|[(Hrow & _)|(c & w3 & Hup & Hgen & Hr)]]];
    try done.
  destruct (generation_step fallbackWords words env date
              (log (SelectByDate date) (log SelectCount w)))
    as (c' & w3' & Hgen' & _ & _ & _ & Hcand).
  rewrite Hgen in Hgen'. injection Hgen' as <- <-.
  assert (Hc : source c = VStr "ai"
               /\ word r1 = word c /\ phonetic r1 = phonetic c
               /\ definition r1 = definition c /\ translation r1 = translation c
               /\ level r1 = level c /\ examples r1 = examples c).
  { destruct Hr as [(-> & _)|(-> & _)]; by repeat split. }
  destruct Hc as (Hai & Hw & Hp & Hd & Ht & Hl & He).
  unfold complete. rewrite Hw, Hp, Hd, Ht, Hl, He.
  destruct Hcand as [(a & Ha & Hhf & Hlong & ->)|[(sw & _ & ->)|(_ & ->)]];
    [|done|done].
  rewrite generateWord_run, Hhf in Ha.
  destruct (seed_of _) as [seed|]; [|done]. cbv zeta in Ha.
  destruct (content_of _) as [content|]; [|done].
  injection Ha as Hparse _. apply parsed_is_complete in Hparse.
  cbn [word phonetic definition translation level examples candidate].
  split; [exact Hparse|].
  unfold long_word in Hlong.
  apply andb_prop in Hlong as [_ Hlong].
  destruct (length_of (g_word a)) as [len|]; [|done]. by exists len.
Qed.

(** X20.  The older handler never tags a record [ai]: for a date in
    [YYYY-MM-DD] form, the record in its answer is either the row that the
    table holds for the date, or the entry of the fallback catalog for the
    date, tagged [database_unavailable] when the store is not reachable and
    [ai_fallback] otherwise. *)
Theorem legacy_answer_provenance
    (fallbackWords : list WordData) (env : Env) (date : string)
    (w w' : World) (response : Response) :
  is_date_format date = true ->
  LegacyRoute.GET fallbackWords env date w = (Returns response, w') ->
  exists r,
    response = Json r
    /\ (table w !! date = Some r
        \/ (source r = VStr "database_unavailable" \/ source r = VStr "ai_fallback")
           /\ word r = word (FallbackWordsSystem.getWordByDate fallbackWords date)
           /\ date_of r = date).
Proof.
  intros Hdate. rewrite (legacy_GET_run fallbackWords env date w Hdate).
  destruct (supabase env).
  2:{ intros [= <- <-]. eexists. split; [done|]. right.
      repeat split; [by left|apply date_with_source]. }
  destruct (store_fault env (length (calls w))).
  { intros [= <- <-]. eexists. split; [done|]. right.
    repeat split; [by left|apply date_with_source]. }
  destruct (match store_fault env (S (length (calls w))) with
            | Some _ => None | None => table w !! date end) as [row|] eqn:Hq.
  { intros [= <- <-]. eexists. split; [done|]. left.
    by destruct (store_fault env (S (length (calls w)))). }
  destruct (store_fault env (length (calls (if hf env then _ else _))));
    cbv zeta; intros [= <- <-]; eexists; (split; [done|]);
    right; (repeat split; [by right|apply date_with_source]).
Qed.

(** ** The further properties at concrete inputs *)

Lemma saved_word_is_found_witness :
  supabase Sample.env = true
  /\ store_fault Sample.env (length (calls Sample.w0)) = None
  /\ exists row w1 w2,
       WordsDatabase.saveWord Sample.env Sample.row Sample.w0
       = (Returns (Some row), w1)
       /\ WordsDatabase.getWordByDate Sample.env (date Sample.row) w1
          = (Returns (Some row), w2).
Proof.
  split; [reflexivity|]. split; [reflexivity|].
  destruct (saved_word_is_found Sample.env Sample.row Sample.w0)
    as (row & w1 & w2 & Hsave & Hget & _); try reflexivity.
  by exists row, w1, w2.
Defined.

Lemma answer_provenance_witness :
  is_date_format "2025-06-15" = true
  /\ exists r,
       Json Sample.row = Json r
       /\ (table Sample.w1 !! "2025-06-15" = Some r
           \/ source r = VStr "database_unavailable"
           \/ source r = VStr "ai"
           \/ source r = VStr "curated"
           \/ source r = VStr "generation_error").
Proof.
  split; [reflexivity|].
  apply (answer_provenance FallbackWordsSystem.fallbackWords SmartWordBank.words
           Sample.env "2025-06-15" Sample.w1
           (log (SelectByDate "2025-06-15") (log SelectCount Sample.w1)));
    [reflexivity | by vm_compute].
Defined.

Lemma rows_stay_keyed_witness :
  is_date_format "2025-06-16" = true
  /\ keyed Sample.w1
  /\ table Sample.w1 !! "2025-06-15" = Some Sample.row
  /\ table Sample.w1 !! "2025-06-16" = None
  /\ exists response w',
       WordRoute.GET FallbackWordsSystem.fallbackWords SmartWordBank.words
         Sample.no_credential "2025-06-16" Sample.w1 = (Returns response, w')
       /\ existsb is_upsert (calls w') = true
       /\ table w' !! "2025-06-15" = Some Sample.row
       /\ (exists r, table w' !! "2025-06-16" = Some r /\ response = Json r)
       /\ (exists r, response = Json r /\ date_of r = "2025-06-16")
       /\ keyed w'.
Proof.
  assert (Hkeyed : keyed Sample.w1).
  { intros d row H.
    change (table Sample.w1)
      with ({[ "2025-06-15" := Sample.row ]} : gmap string WordData) in H.
    by apply lookup_singleton_Some in H as [<- <-]. }
  split; [reflexivity|]. split; [exact Hkeyed|].
  split; [by vm_compute|]. split; [by vm_compute|].
  eexists _, _. split; [by vm_compute|].
  split; [by vm_compute|]. split; [by vm_compute|].
  split; [eexists; split; [by vm_compute | reflexivity]|].
  apply (rows_stay_keyed FallbackWordsSystem.fallbackWords SmartWordBank.words
           Sample.no_credential "2025-06-16" Sample.w1);
    [reflexivity | exact Hkeyed | by vm_compute].
Defined.

Lemma second_request_is_served_from_the_store_witness :
  is_date_format "2025-06-15" = true
  /\ supabase Sample.no_credential = true
  /\ table Sample.w0 !! "2025-06-15" = None
  /\ exists r w1 w2,
       WordRoute.GET FallbackWordsSystem.fallbackWords SmartWordBank.words
         Sample.no_credential "2025-06-15" Sample.w0 = (Returns (Json r), w1)
       /\ table w1 !! "2025-06-15" = Some r
       /\ WordRoute.GET FallbackWordsSystem.fallbackWords SmartWordBank.words
            Sample.no_credential "2025-06-15" w1 = (Returns (Json r), w2)
       /\ table w2 = table w1
       /\ ai_calls w2 = ai_calls w1.
Proof.
  split; [reflexivity|]. split; [reflexivity|]. split; [reflexivity|].
  apply (second_request_is_served_from_the_store
           FallbackWordsSystem.fallbackWords SmartWordBank.words
           Sample.no_credential "2025-06-15" Sample.w0);
    [reflexivity | reflexivity | intros; reflexivity | reflexivity].
Defined.

Lemma request_call_budget_witness :
  exists reads generation writes,
    calls (log (SelectByDate "2025-06-15") (log SelectCount Sample.w1))
    = (calls Sample.w1 ++ reads ++ generation ++ writes)%list
    /\ (reads = [] \/ reads = [SelectCount]
        \/ reads = [SelectCount; SelectByDate "2025-06-15"]).
Proof.
  destruct (request_call_budget FallbackWordsSystem.fallbackWords
              SmartWordBank.words Sample.env "2025-06-15" Sample.w1
              (log (SelectByDate "2025-06-15") (log SelectCount Sample.w1))
              (Returns (Json Sample.row)))
    as (reads & generation & writes & Hcalls & Hreads & _); [by vm_compute|].
  by exists reads, generation, writes.
Defined.

Lemma fallback_search_matches_witness :
  Forall textual FallbackWordsSystem.fallbackWords
  /\ exists found,
       FallbackWordsSystem.searchWords FallbackWordsSystem.fallbackWords "Eloq"
       = Returns found
       /\ sublist found FallbackWordsSystem.fallbackWords.
Proof.
  split; [repeat constructor|].
  destruct (fallback_search_matches FallbackWordsSystem.fallbackWords "Eloq")
    as (found & Hfound & Hsub & _); [repeat constructor|].
  by exists found.
Defined.

Lemma search_answer_witness :
  Forall textual FallbackWordsSystem.fallbackWords
  /\ exists response w',
       SearchRoute.GET FallbackWordsSystem.fallbackWords Sample.env
         (Some "eloq") Sample.w0 = (Returns response, w')
       /\ ai_calls w' = ai_calls Sample.w0.
Proof.
  split; [repeat constructor|].
  destruct (search_answer FallbackWordsSystem.fallbackWords Sample.env
              (Some "eloq") Sample.w0)
    as (response & w' & Hget & Hai & _); [repeat constructor|].
  by exists response, w'.
Defined.

Lemma empty_bank_falls_back_witness :
  is_date_format "2025-06-15" = true
  /\ supabase Sample.no_credential = true
  /\ table Sample.w0 !! "2025-06-15" = None
  /\ hf Sample.no_credential = false
  /\ SmartWordBank.getWordForDate [] "2025-06-15" = Throws.
Proof.
  repeat (split; [reflexivity|]).
  apply (empty_bank_falls_back FallbackWordsSystem.fallbackWords
           Sample.no_credential "2025-06-15" Sample.w0); reflexivity.
Defined.

Lemma same_hash_same_entry_witness :
  is_date_format "2025-06-15" = true
  /\ is_date_format "2025-07-14" = true
  /\ slot "2025-06-15" (length SmartWordBank.words)
     = slot "2025-07-14" (length SmartWordBank.words)
  /\ SmartWordBank.getWordForDate SmartWordBank.words "2025-06-15"
     = SmartWordBank.getWordForDate SmartWordBank.words "2025-07-14".
Proof.
  split; [reflexivity|]. split; [reflexivity|]. split; [reflexivity|].
  apply (same_hash_same_entry FallbackWordsSystem.fallbackWords
           SmartWordBank.words "2025-06-15" "2025-07-14");
    [reflexivity | reflexivity | done | done | reflexivity].
Defined.

Lemma prose_around_json_is_ignored_witness :
  absent "{" "Here: "
  /\ absent "}" " Thanks."
  /\ HuggingFaceWordGenerator.cleanText ("Here: " +:+ "{" +:+ "x" +:+ "}" +:+ " Thanks.")
     = "{" +:+ "x" +:+ "}".
Proof.
  split; [cbn; repeat split; discriminate|].
  split; [cbn; repeat split; discriminate|].
  apply (prose_around_json_is_ignored Sample.env "Here: " "x" " Thanks.");
    cbn; repeat split; discriminate.
Defined.

Lemma ai_answers_are_complete_witness :
  is_date_format "2025-06-15" = true
  /\ exists r w',
       WordRoute.GET FallbackWordsSystem.fallbackWords SmartWordBank.words
         Sample.env "2025-06-15" Sample.w0 = (Returns (Json r), w')
       /\ source r = VStr "ai"
       /\ complete r.
Proof.
  split; [reflexivity|]. eexists _, _.
  split; [vm_compute; reflexivity|]. split; [reflexivity|].
  eapply (ai_answers_are_complete FallbackWordsSystem.fallbackWords
            SmartWordBank.words Sample.env "2025-06-15" Sample.w0);
    [reflexivity | vm_compute; reflexivity | by vm_compute | reflexivity].
Defined.

Lemma legacy_answer_provenance_witness :
  is_date_format "2025-06-15" = true
  /\ exists r,
       Json Sample.row = Json r
       /\ (table Sample.w1 !! "2025-06-15" = Some r
           \/ (source r = VStr "database_unavailable"
               \/ source r = VStr "ai_fallback")
              /\ word r = word (FallbackWordsSystem.getWordByDate
                                  FallbackWordsSystem.fallbackWords "2025-06-15")
              /\ date_of r = "2025-06-15").
Proof.
  split; [reflexivity|].
  apply (legacy_answer_provenance FallbackWordsSystem.fallbackWords
           Sample.env "2025-06-15" Sample.w1
           (log (SelectByDate "2025-06-15") (log SelectCount Sample.w1)));
    [reflexivity | by vm_compute].
Defined.
